(** * sas7bdat.js: a shallow embedding of the SAS7BDAT reader

    The development follows the layout of [src/sas7bdat.js]:
    - [Js]: the fragment of the JavaScript run time the reader leans on
      (exceptions, [Buffer] indexing and [Buffer.prototype.slice]);
    - [RLE]: [RLEDecompressor.decompress_row];
    - [Num], [Dates], [ReadVal]: [struct_unpack], [datetime] and
      [SAS7BDAT._read_val];
    - [Reader]: [_process_byte_array_with_data] and [readline];
    - [Header]: [read_file], [SASHeader] with [parse], [parse_metadata]
      and the pages, the subheader classes, and [_read_next_page].

    JavaScript numbers that hold offsets, lengths and counters are modelled
    as mathematical integers ([Z]); the doubles decoded from row bytes are
    modelled as [spec_float] values of the binary64 format. *)

From Stdlib Require Import ZArith List Bool Lia String Ascii Strings.Byte.
From Stdlib Require Import Floats.SpecFloat.
From stdpp Require Import base option list gmap strings.

Import ListNotations.
Local Open Scope Z_scope.

(* ===================================================================== *)
(** * The JavaScript fragment *)
(* ===================================================================== *)

Module Js.

(** Exceptions thrown by the reader, and the run-time exceptions its
    code can provoke.  The [Error_*] constructors are the
    [throw new Error(...)] sites of the source, named after their
    messages. *)
Inductive exn : Type :=
| TypeError                       (* property access on [undefined] *)
| RangeError                      (* out-of-range read, invalid time value *)
| NotImplementedError
| Error_unknown_control_byte (control_byte : Z)
| Error_unexpected_result_length (actual expected : Z)
| Error_big_endian_not_supported
| Error_seek_not_implemented
| Error_unknown_page_type (page_type : Z)
| Error_thrown (msg : string).    (* raised by a collaborator *)

(** A computation either returns or throws. *)
Inductive res (A : Type) : Type :=
| Ret (a : A)
| Throw (e : exn).
Arguments Ret {A} a.
Arguments Throw {A} e.

Definition bind {A B} (m : res A) (k : A -> res B) : res B :=
  match m with
  | Ret a => k a
  | Throw e => Throw e
  end.

(** [buf[k]]: a byte, or [undefined] outside [0 .. buf.length - 1]. *)
Definition index (buf : list byte) (k : Z) : option byte :=
  if k <? 0 then None else nth_error buf (Z.to_nat k).

(** The clamping of one bound of [Buffer.prototype.slice]: a negative
    bound counts from the end of the buffer. *)
Definition clamp (len k : Z) : Z :=
  if k <? 0 then Z.max 0 (k + len) else Z.min k len.

(** [buf.slice(start, end)]. *)
Definition slice (buf : list byte) (start end_ : Z) : list byte :=
  let len := Z.of_nat (length buf) in
  let s := clamp len start in
  let e := Z.max s (clamp len end_) in
  firstn (Z.to_nat (e - s)) (skipn (Z.to_nat s) buf).

(** The unsigned value of a byte. *)
Definition byte_val (x : byte) : Z := Z.of_N (Byte.to_N x).

(** The values a decoded field can take: [null], a number (a binary64
    double) or a string. *)
Inductive value : Type :=
| VNull
| VNumber (x : spec_float)
| VString (s : string).

(** Built-in string operations of the platform, kept abstract:
    [buf.toString(encoding)], [s.replace(/\0/g, '')] and [s.trim()]. *)
Record platform : Type := mkPlatform {
  Buffer_toString : string -> list byte -> string;
  String_replace_nul : string -> string;
  String_trim : string -> string
}.

End Js.

Notation "'let*' x ':=' m 'in' k" := (Js.bind m (fun x => k))
  (at level 10, x name, m at level 100, k at level 200,
   format "'[v' 'let*'  x  ':='  m  'in' '/' k ']'").

Import Js.

(* ===================================================================== *)
(** * Run-length decompression: [RLEDecompressor] *)
(* ===================================================================== *)

Module RLE.

(** [Decompressor.to_ord] applied to an element of the page.  An index
    outside the page yields [undefined], whose [charCodeAt] does not
    exist. *)
Definition to_ord (x : option byte) : res Z :=
  match x with
  | Some v => Ret (byte_val v)
  | None => Throw TypeError
  end.

(** [Decompressor.to_chr] applied to an element of the page:
    [String.fromCharCode(undefined)] is the NUL character. *)
Definition to_chr (x : option byte) : list byte :=
  match x with
  | Some v => [v]
  | None => [x00]
  end.

(** [c(0x40)], [c(0x20)] and [c(0x00)]. *)
Definition chr_at : list byte := [x40].
Definition chr_space : list byte := [x20].
Definition chr_nul : list byte := [x00].

(** The variables of [decompress_row] that change in its loop.  [result]
    is the array of strings, one entry per [push]. *)
Record state : Type := mkState {
  i : Z;
  result : list (list byte);
  current_result_array_index : Z
}.

(** [for (_ = 0; _ < n; _++) { result.push(s); index += 1 }] *)
Definition push_times (n : Z) (s : list byte) (st : state) : state :=
  mkState (i st)
          (result st ++ repeat s (Z.to_nat n))
          (current_result_array_index st + Z.max 0 n).

(** The four short-copy branches (0x80, 0x90, 0xA0, 0xB0) differ in
    [base] only. *)
Definition short_copy (page : list byte) (offset length : Z)
           (base end_of_first_byte : Z) (st : state) : state :=
  let count_of_bytes_to_copy :=
      Z.min (end_of_first_byte + base) (length - (i st + 1)) in
  let start := offset + i st + 1 in
  let end_ := start + count_of_bytes_to_copy in
  mkState (i st + count_of_bytes_to_copy)
          (result st ++ [slice page start end_])
          (current_result_array_index st + count_of_bytes_to_copy).

(** The if/else chain on the control byte, up to but excluding the
    final [i += 1]. *)
Definition branch (page : list byte) (offset length : Z) (st : state)
  : res state :=
  let* cb := to_ord (index page (offset + i st)) in
  let control_byte := Z.land cb 0xF0 in
  let end_of_first_byte := Z.land cb 0x0F in
  if control_byte =? 0x00 then
    if negb (i st =? length - 1) then
      let* nxt := to_ord (index page (offset + i st + 1)) in
      let count_of_bytes_to_copy :=
          Z.land nxt 0xFF + 64 + end_of_first_byte * 256 in
      let start := offset + i st + 2 in
      let end_ := start + count_of_bytes_to_copy in
      Ret (mkState (i st + (count_of_bytes_to_copy + 1))
                   (result st ++ [slice page start end_])
                   (current_result_array_index st + count_of_bytes_to_copy))
    else Ret st
  else if control_byte =? 0x40 then
    let* nxt := to_ord (index page (offset + i st + 1)) in
    let copy_counter := end_of_first_byte * 16 + Z.land nxt 0xFF in
    let st' := push_times (copy_counter + 18)
                          (to_chr (index page (offset + i st + 2))) st in
    Ret (mkState (i st' + 2) (result st') (current_result_array_index st'))
  else if control_byte =? 0x60 then
    let* nxt := to_ord (index page (offset + i st + 1)) in
    let st' := push_times (end_of_first_byte * 256 + Z.land nxt 0xFF + 17)
                          chr_space st in
    Ret (mkState (i st' + 1) (result st') (current_result_array_index st'))
  else if control_byte =? 0x70 then
    let* nxt := to_ord (index page (offset + i st + 1)) in
    let st' := push_times (end_of_first_byte * 256 + Z.land nxt 0xFF + 17)
                          chr_nul st in
    Ret (mkState (i st' + 1) (result st') (current_result_array_index st'))
  else if control_byte =? 0x80 then
    Ret (short_copy page offset length 1 end_of_first_byte st)
  else if control_byte =? 0x90 then
    Ret (short_copy page offset length 17 end_of_first_byte st)
  else if control_byte =? 0xA0 then
    Ret (short_copy page offset length 33 end_of_first_byte st)
  else if control_byte =? 0xB0 then
    Ret (short_copy page offset length 49 end_of_first_byte st)
  else if control_byte =? 0xC0 then
    let st' := push_times (end_of_first_byte + 3)
                          (to_chr (index page (offset + i st + 1))) st in
    Ret (mkState (i st' + 1) (result st') (current_result_array_index st'))
  else if control_byte =? 0xD0 then
    Ret (push_times (end_of_first_byte + 2) chr_at st)
  else if control_byte =? 0xE0 then
    Ret (push_times (end_of_first_byte + 2) chr_space st)
  else if control_byte =? 0xF0 then
    Ret (push_times (end_of_first_byte + 2) chr_nul st)
  else Throw (Error_unknown_control_byte control_byte).

(** One record: the body of the [for] loop once [i === j]. *)
Definition record (page : list byte) (offset length : Z) (st : state)
  : res state :=
  let* st' := branch page offset length st in
  Ret (mkState (i st' + 1) (result st') (current_result_array_index st')).

(** [for (let j = 0; j < length; j++) { if (i !== j) continue; ... }]:
    [n] iterations are left and the loop counter is [j]. *)
Fixpoint loop (page : list byte) (offset length : Z) (n : nat) (j : Z)
         (st : state) : res state :=
  match n with
  | O => Ret st
  | S n' =>
    if i st =? j then
      let* st' := record page offset length st in
      loop page offset length n' (j + 1) st'
    else loop page offset length n' (j + 1) st
  end.

Definition init : state := mkState 0 [] 0.

(** [result.join('')] followed by [Buffer.from(..., 'ascii')]: every
    pushed character has a code below 256, so the buffer holds the
    pushed bytes in order. *)
Definition join (chunks : list (list byte)) : list byte := concat chunks.

Definition decompress_row (offset length result_length : Z)
           (page : list byte) : res (list byte) :=
  let* st := loop page offset length (Z.to_nat length) 0 init in
  let out := join (result st) in
  if negb (Z.of_nat (List.length out) =? result_length) then
    Throw (Error_unexpected_result_length (Z.of_nat (List.length out))
                                          result_length)
  else Ret out.

End RLE.


(* ===================================================================== *)
(** * Numbers: [Buffer.readInt*], [Buffer.readDouble*] *)
(* ===================================================================== *)

Module Num.

(** JavaScript numbers are binary64 doubles. *)
Definition prec : Z := 53.
Definition emax : Z := 1024.

Definition of_int (z : Z) : spec_float := binary_normalize prec emax z 0 false.
Definition mul : spec_float -> spec_float -> spec_float := SFmul prec emax.
Definition add : spec_float -> spec_float -> spec_float := SFadd prec emax.

(** [Number.isNaN] on a number. *)
Definition isNaN (x : spec_float) : bool :=
  match x with
  | S754_nan => true
  | _ => false
  end.

(** The unsigned integer held by a run of bytes, least significant byte
    first, and most significant byte first. *)
Fixpoint le_value (bs : list byte) : Z :=
  match bs with
  | [] => 0
  | b :: rest => byte_val b + 256 * le_value rest
  end.

Definition be_value (bs : list byte) : Z := le_value (rev bs).

(** Two's complement on [nbytes] bytes. *)
Definition signed (nbytes : Z) (u : Z) : Z :=
  if u <? 2 ^ (8 * nbytes - 1) then u else u - 2 ^ (8 * nbytes).

(** [buf.readIntLE(0, n)] and [buf.readIntBE(0, n)]; [readInt16*] and
    [readInt32*] are the cases [n = 2] and [n = 4].  Reading past the end of
    the buffer is a [RangeError]. *)
Definition readInt (big : bool) (n : nat) (buf : list byte) : res Z :=
  if (List.length buf <? n)%nat then Throw RangeError
  else
    let bs := firstn n buf in
    Ret (signed (Z.of_nat n) (if big then be_value bs else le_value bs)).

(** The double with a given 64-bit pattern: sign, 11 bits of biased
    exponent, 52 bits of fraction. *)
Definition double_of_bits (bits : Z) : spec_float :=
  let s := Z.testbit bits 63 in
  let e := Z.land (Z.shiftr bits 52) 0x7FF in
  let m := Z.land bits (2 ^ 52 - 1) in
  if e =? 0x7FF then
    if m =? 0 then S754_infinity s else S754_nan
  else if e =? 0 then
    match m with
    | Zpos p => S754_finite s p (-1074)
    | _ => S754_zero s
    end
  else
    match m + 2 ^ 52 with
    | Zpos p => S754_finite s p (e - 1075)
    | _ => S754_nan
    end.

(** [buf.readDoubleLE(0)] and [buf.readDoubleBE(0)]. *)
Definition readDouble (big : bool) (buf : list byte) : res spec_float :=
  if (List.length buf <? 8)%nat then Throw RangeError
  else
    let bs := firstn 8 buf in
    Ret (double_of_bits (if big then be_value bs else le_value bs)).

End Num.

(* ===================================================================== *)
(** * Dates: [datetime] *)
(* ===================================================================== *)

Module Dates.

(** A [Date] object is its time value, in milliseconds since 1970-01-01
    UTC; [None] is the Invalid Date. *)
Definition Date : Type := option Z.

(** [ToIntegerOrInfinity] on a finite double: truncation toward zero. *)
Definition truncate (s : bool) (m : positive) (e : Z) : Z :=
  let mag := if 0 <=? e then Zpos m * 2 ^ e else Zpos m / 2 ^ (- e) in
  if s then - mag else mag.

(** [new Date(t)] for a number [t]: [TimeClip]. *)
Definition new_Date (t : spec_float) : Date :=
  match t with
  | S754_zero _ => Some 0
  | S754_finite s m e =>
    let z := truncate s m e in
    if Z.abs z <=? 8640000000000000 then Some z else None
  | _ => None
  end.

(** Decimal digits. *)
Definition digit (n : Z) : ascii := ascii_of_nat (48 + Z.to_nat (n mod 10)).

Fixpoint digits (width : nat) (n : Z) : string :=
  match width with
  | O => EmptyString
  | S w => (digits w (n / 10) ++ String (digit n) EmptyString)%string
  end.

(** Year, month and day of a day number counted from 1970-01-01, in the
    proleptic Gregorian calendar. *)
Definition civil_from_days (day : Z) : Z * Z * Z :=
  let z := day + 719468 in
  let era := z / 146097 in
  let doe := z - era * 146097 in
  let yoe := (doe - doe / 1460 + doe / 36524 - doe / 146096) / 365 in
  let doy := doe - (365 * yoe + yoe / 4 - yoe / 100) in
  let mp := (5 * doy + 2) / 153 in
  let d := doy - (153 * mp + 2) / 5 + 1 in
  let m := if mp <? 10 then mp + 3 else mp - 9 in
  let y := yoe + era * 400 + (if m <=? 2 then 1 else 0) in
  (y, m, d).

(** [d.toISOString()]: [YYYY-MM-DDTHH:mm:ss.sssZ], the year widened to a
    sign and six digits outside 0..9999; a [RangeError] on the Invalid
    Date. *)
Definition toISOString (d : Date) : res string :=
  match d with
  | None => Throw RangeError
  | Some tv =>
    let '(y, m, dd) := civil_from_days (tv / 86400000) in
    let sign : string := if y <? 0 then "-" else "+" in
    let year : string :=
        if (0 <=? y) && (y <=? 9999) then digits 4 y
        else (sign ++ digits 6 (Z.abs y))%string in
    let hours := (tv / 3600000) mod 24 in
    let minutes := (tv / 60000) mod 60 in
    let secs := (tv / 1000) mod 60 in
    let millis := tv mod 1000 in
    Ret (year ++ "-" ++ digits 2 m ++ "-" ++ digits 2 dd ++ "T"
         ++ digits 2 hours ++ ":" ++ digits 2 minutes ++ ":"
         ++ digits 2 secs ++ "." ++ digits 3 millis ++ "Z")%string
  end.

(** The two string literals passed as [units], and the three passed as
    [output_format]. *)
Inductive units : Type := seconds | days.
Inductive output_format : Type := as_datetime | as_date | as_time.

(** A [date_formatter] supplied by the caller. *)
Definition formatter : Type := Date -> output_format -> res value.

(** [const epoch = new Date('1960-01-01').getTime()] *)
Definition epoch : Z := -315619200000.

(** The formatter [datetime] uses when [date_formatter] is [null]. *)
Definition default_formatter : formatter :=
  fun d output_format =>
    let* iso := toISOString d in
    match output_format with
    | as_date => Ret (VString (substring 0 10 iso))
    | as_time => Ret (VString (substring 11 12 iso))
    | as_datetime => Ret (VString iso)
    end.

Definition datetime (offset_from_epoch : spec_float) (u : units)
           (date_formatter : option formatter) (fmt : output_format)
  : res value :=
  let date_formatter := default default_formatter date_formatter in
  let offset_from_epoch :=
      match u with
      | days => Num.mul offset_from_epoch (Num.of_int (24 * 60 * 60))
      | seconds => offset_from_epoch
      end in
  let d := new_Date (Num.add (Num.of_int epoch)
                             (Num.mul offset_from_epoch (Num.of_int 1000))) in
  date_formatter d fmt.

End Dates.

(* ===================================================================== *)
(** * [struct_unpack] and [SAS7BDAT._read_val] *)
(* ===================================================================== *)

Module ReadVal.

Inductive endian : Type := little | big.

(** The format letters [struct_unpack] understands. *)
Inductive letter : Type := L_s | L_d | L_i | L_b | L_q | L_h.

(** The [fmt] arguments with which [_read_val] is called, and ['q'],
    which it substitutes itself. *)
Inductive fmt : Type :=
| F_s | F_d | F_i | F_b | F_q | F_h
| F_number | F_datetime | F_date | F_time.

(** [['number', 'datetime', 'date', 'time'].includes(fmt)] *)
Definition is_numeric_kind (f : fmt) : bool :=
  match f with
  | F_number | F_datetime | F_date | F_time => true
  | _ => false
  end.

(** The last character of [newfmt]. *)
Definition letter_of (f : fmt) : letter :=
  match f with
  | F_s => L_s
  | F_d | F_number | F_datetime | F_date | F_time => L_d
  | F_i => L_i
  | F_b => L_b
  | F_q => L_q
  | F_h => L_h
  end.

Section WithPlatform.

Variable P : platform.

(** [struct_unpack(fmt, raw_bytes)]; [is_big] says that [fmt] starts with
    ['>']. *)
Definition struct_unpack (is_big : bool) (l : letter) (raw_bytes : list byte)
  : res value :=
  match l with
  | L_s =>
    if is_big then Throw Error_big_endian_not_supported
    else Ret (VString (Buffer_toString P "utf8" raw_bytes))
  | L_d =>
    let* x := Num.readDouble is_big raw_bytes in Ret (VNumber x)
  | L_i =>
    let* z := Num.readInt is_big 4 raw_bytes in Ret (VNumber (Num.of_int z))
  | L_b =>
    let* z := Num.readInt true 1 raw_bytes in Ret (VNumber (Num.of_int z))
  | L_q =>
    let* z := Num.readInt is_big 6 raw_bytes in Ret (VNumber (Num.of_int z))
  | L_h =>
    let* z := Num.readInt is_big 2 raw_bytes in Ret (VNumber (Num.of_int z))
  end.

(** The buffer handed to [struct_unpack] for the numeric kinds: a field
    shorter than 8 bytes is completed with zero bytes. *)
Definition pad (this_endianess : option endian) (raw_bytes : list byte)
  : list byte :=
  let size := Z.of_nat (List.length raw_bytes) in
  if size <? 8 then
    let bytes_new := repeat x00 (Z.to_nat (8 - size)) in
    match this_endianess with
    | Some little => bytes_new ++ raw_bytes
    | _ => raw_bytes ++ bytes_new
    end
  else raw_bytes.

(** [_read_val(fmt, raw_bytes, size)]; the first three arguments are the
    fields [u64], [endianess] and [date_formatter] of [this]. *)
Definition _read_val (this_u64 : bool) (this_endianess : option endian)
           (this_date_formatter : option Dates.formatter)
           (f : fmt) (raw_bytes : list byte) (size : Z) : res value :=
  let f :=
      match f with
      | F_i => if this_u64 && (size =? 8) then F_q else F_i
      | _ => f
      end in
  let '(raw_bytes, size) :=
      if is_numeric_kind f then
        let size := Z.of_nat (List.length raw_bytes) in
        if size <? 8 then (pad this_endianess raw_bytes, 8)
        else (raw_bytes, size)
      else (raw_bytes, size) in
  let is_big :=
      match this_endianess with
      | Some big => true
      | _ => false
      end in
  let* val := struct_unpack is_big (letter_of f) (slice raw_bytes 0 size) in
  match f, val with
  | F_s, VString s => Ret (VString (String_trim P (String_replace_nul P s)))
  | F_s, _ => Throw TypeError
  | _, VNumber x =>
    if Num.isNaN x then Ret VNull
    else
      match f with
      | F_datetime =>
        Dates.datetime x Dates.seconds this_date_formatter Dates.as_datetime
      | F_time =>
        Dates.datetime x Dates.seconds this_date_formatter Dates.as_time
      | F_date =>
        match Dates.datetime x Dates.days this_date_formatter Dates.as_date with
        | Ret v => Ret v
        | Throw _ =>
          (* Some data sets flagged with a date format are actually
             stored as datetime values *)
          Dates.datetime x Dates.seconds this_date_formatter Dates.as_datetime
        end
      | _ => Ret val
      end
  | _, _ => Ret val
  end.

End WithPlatform.

End ReadVal.

(* ===================================================================== *)
(** * The reader: [SAS7BDAT] *)
(* ===================================================================== *)

Module Reader.

Import ReadVal.

(** ** Decompressors *)

(** [RLE_COMPRESSION] and [RDC_COMPRESSION], the two members of
    [COMPRESSION_LITERALS]. *)
Inductive compression_literal : Type := SASYZCRL | SASYZCR2.

Inductive decompressor_class : Type := RLEDecompressor | RDCDecompressor.

(** [this.DECOMPRESSORS] *)
Definition DECOMPRESSORS (c : compression_literal) : decompressor_class :=
  match c with
  | SASYZCRL => RLEDecompressor
  | SASYZCR2 => RDCDecompressor
  end.

(** [new Decompressor(this)]: the constructor of [RDCDecompressor] throws
    right after [super()]. *)
Definition new_Decompressor (cls : decompressor_class)
  : res decompressor_class :=
  match cls with
  | RLEDecompressor => Ret RLEDecompressor
  | RDCDecompressor => Throw NotImplementedError
  end.

(** The method [decompress_row] of an instance; the one [RDCDecompressor]
    would inherit from [Decompressor] throws. *)
Definition decompress_row (d : decompressor_class)
           (offset length result_length : Z) (page : list byte)
  : res (list byte) :=
  match d with
  | RLEDecompressor => RLE.decompress_row offset length result_length page
  | RDCDecompressor => Throw NotImplementedError
  end.

(** ** Schema and state *)

(** [ctype === 1 ? 'number' : 'string'] *)
Inductive column_type : Type := number | string_.

Record Column : Type := mkColumn {
  col_id : Z;
  name : list byte;
  label : list byte;
  format : string;
  type : column_type;
  col_length : Z
}.

Record SubheaderPointer : Type := mkSubheaderPointer {
  ptr_offset : Z;
  ptr_length : Z;
  ptr_compression : Z;
  ptr_type : Z
}.

(** The fields of [SASProperties] that the row reader consults.  A field
    still [null] behaves as 0 in every comparison and sum below, and is
    modelled as 0.  [parse] copies [u64] and [endianess] to the reader
    itself, where [_read_val] looks them up. *)
Record SASProperties : Type := mkSASProperties {
  u64 : bool;
  endianess : option endian;
  header_length : Z;
  page_length : Z;
  compression : option compression_literal;
  row_length : Z;
  row_count : Z;
  mix_page_row_count : Z;
  column_count : Z
}.

(** What the constructor fixes for the life of the reader. *)
Record options : Type := mkOptions {
  skip_header : bool;
  encoding : string;
  align_correction : bool;
  date_formatter : option Dates.formatter;
  row_format : string;
  TIME_FORMAT_STRINGS : list string;
  DATE_TIME_FORMAT_STRINGS : list string;
  DATE_FORMAT_STRINGS : list string
}.

(** The options object passed to the constructor; [None] is a property
    left out. *)
Record constructor_options : Type := mkConstructorOptions {
  extraTimeFormatStrings : option (list string);
  extraDatetimeFormatStrings : option (list string);
  extraDateFormatStrings : option (list string);
  skipHeader : option bool;
  encoding_ : option string;
  alignCorrection : option bool;
  dateFormatter : option Dates.formatter;
  rowFormat : option string
}.

(** [arr.includes(x)] on strings. *)
Definition includes_string (arr : list string) (x : string) : bool :=
  existsb (String.eqb x) arr.

Definition _update_format_strings (arr : list string)
           (format_strings : option (list string)) : list string :=
  match format_strings with
  | None => arr
  | Some l =>
    fold_left (fun arr format_string =>
                 if negb (includes_string arr format_string)
                 then arr ++ [format_string] else arr) l arr
  end.

(** The part of [constructor] that reads the options. *)
Definition new_SAS7BDAT (o : constructor_options) : options :=
  mkOptions
    (default false (skipHeader o))
    (default "utf8"%string (encoding_ o))
    (default true (alignCorrection o))
    (dateFormatter o)
    (default "array"%string (rowFormat o))
    (_update_format_strings ["TIME"%string] (extraTimeFormatStrings o))
    (_update_format_strings ["DATETIME"%string]
                            (extraDatetimeFormatStrings o))
    (_update_format_strings
       ["YYMMDD"; "MMDDYY"; "DDMMYY"; "DATE"; "JULIAN"; "MONYY";
        "WEEKDATE"]%string
       (extraDateFormatStrings o)).

(** The mutable fields of the reader. *)
Record SAS7BDAT : Type := mkSAS7BDAT {
  properties : SASProperties;
  _file : option (list byte);
  cached_page : option (list byte);
  current_page_type : Z;
  current_page_block_count : Z;
  current_page_subheaders_count : Z;
  current_page_data_subheader_pointers : list SubheaderPointer;
  current_row : list value;
  column_data_offsets : list Z;
  column_data_lengths : list Z;
  columns : list Column;
  parsed_header : bool;
  sent_header : bool;
  column_names_strings_decoded : option (list string);
  current_row_in_file_index : Z;
  current_row_on_page_index : Z
}.

Definition set_file (v : option (list byte)) (this : SAS7BDAT) : SAS7BDAT :=
  mkSAS7BDAT
    (properties this)
    (v)
    (cached_page this)
    (current_page_type this)
    (current_page_block_count this)
    (current_page_subheaders_count this)
    (current_page_data_subheader_pointers this)
    (current_row this)
    (column_data_offsets this)
    (column_data_lengths this)
    (columns this)
    (parsed_header this)
    (sent_header this)
    (column_names_strings_decoded this)
    (current_row_in_file_index this)
    (current_row_on_page_index this).

Definition set_current_row (v : list value) (this : SAS7BDAT) : SAS7BDAT :=
  mkSAS7BDAT
    (properties this)
    (_file this)
    (cached_page this)
    (current_page_type this)
    (current_page_block_count this)
    (current_page_subheaders_count this)
    (current_page_data_subheader_pointers this)
    (v)
    (column_data_offsets this)
    (column_data_lengths this)
    (columns this)
    (parsed_header this)
    (sent_header this)
    (column_names_strings_decoded this)
    (current_row_in_file_index this)
    (current_row_on_page_index this).

Definition set_parsed_header (v : bool) (this : SAS7BDAT) : SAS7BDAT :=
  mkSAS7BDAT
    (properties this)
    (_file this)
    (cached_page this)
    (current_page_type this)
    (current_page_block_count this)
    (current_page_subheaders_count this)
    (current_page_data_subheader_pointers this)
    (current_row this)
    (column_data_offsets this)
    (column_data_lengths this)
    (columns this)
    (v)
    (sent_header this)
    (column_names_strings_decoded this)
    (current_row_in_file_index this)
    (current_row_on_page_index this).

Definition set_sent_header (v : bool) (this : SAS7BDAT) : SAS7BDAT :=
  mkSAS7BDAT
    (properties this)
    (_file this)
    (cached_page this)
    (current_page_type this)
    (current_page_block_count this)
    (current_page_subheaders_count this)
    (current_page_data_subheader_pointers this)
    (current_row this)
    (column_data_offsets this)
    (column_data_lengths this)
    (columns this)
    (parsed_header this)
    (v)
    (column_names_strings_decoded this)
    (current_row_in_file_index this)
    (current_row_on_page_index this).

Definition set_column_names_strings_decoded (v : option (list string)) (this : SAS7BDAT) : SAS7BDAT :=
  mkSAS7BDAT
    (properties this)
    (_file this)
    (cached_page this)
    (current_page_type this)
    (current_page_block_count this)
    (current_page_subheaders_count this)
    (current_page_data_subheader_pointers this)
    (current_row this)
    (column_data_offsets this)
    (column_data_lengths this)
    (columns this)
    (parsed_header this)
    (sent_header this)
    (v)
    (current_row_in_file_index this)
    (current_row_on_page_index this).

Definition set_current_row_in_file_index (v : Z) (this : SAS7BDAT) : SAS7BDAT :=
  mkSAS7BDAT
    (properties this)
    (_file this)
    (cached_page this)
    (current_page_type this)
    (current_page_block_count this)
    (current_page_subheaders_count this)
    (current_page_data_subheader_pointers this)
    (current_row this)
    (column_data_offsets this)
    (column_data_lengths this)
    (columns this)
    (parsed_header this)
    (sent_header this)
    (column_names_strings_decoded this)
    (v)
    (current_row_on_page_index this).

Definition set_current_row_on_page_index (v : Z) (this : SAS7BDAT) : SAS7BDAT :=
  mkSAS7BDAT
    (properties this)
    (_file this)
    (cached_page this)
    (current_page_type this)
    (current_page_block_count this)
    (current_page_subheaders_count this)
    (current_page_data_subheader_pointers this)
    (current_row this)
    (column_data_offsets this)
    (column_data_lengths this)
    (columns this)
    (parsed_header this)
    (sent_header this)
    (column_names_strings_decoded this)
    (current_row_in_file_index this)
    (v).

(** ** Page geometry *)

Definition PAGE_BIT_OFFSET (p : SASProperties) : Z :=
  if u64 p then 32 else 16.

Definition SUBHEADER_POINTER_LENGTH (p : SASProperties) : Z :=
  if u64 p then 24 else 12.

Definition SUBHEADER_POINTERS_OFFSET : Z := 8.
Definition PAGE_META_TYPE : Z := 0.
Definition PAGE_DATA_TYPE : Z := 256.
Definition PAGE_MIX_TYPE : list Z := [512; 640].

(** [arr.includes(x)] on numbers. *)
Definition includes (arr : list Z) (x : Z) : bool := existsb (Z.eqb x) arr.

(** What [readline] resolves to: the header row, a row as an array, a row
    as an object, or [null]. *)
Inductive line : Type :=
| Header (column_names : list string)
| RowArray (row : list value)
| RowObject (obj : gmap string value)
| EndOfData.

(** [row.reduce((obj, val, i) => { obj[names[i]] = val; return obj; }, obj)],
    from index [i] on.  A missing name is the key ["undefined"]. *)
Fixpoint reduce_to_object (names : list string) (i : nat) (row : list value)
         (obj : gmap string value) : gmap string value :=
  match row with
  | [] => obj
  | val :: rest =>
    reduce_to_object names (S i) rest
                     (<[default "undefined"%string (names !! i) := val]> obj)
  end.

Section WithCollaborators.

Variable P : platform.

(** The reader's options. *)
Variable opts : options.

(** [parse_header] and [_read_next_page]: the header parser and the page
    reader with its metadata decoder.  They act on the mutable fields. *)
Variable parse_header : SAS7BDAT -> res SAS7BDAT.
Variable _read_next_page : SAS7BDAT -> res SAS7BDAT.

(** [decode(buf, encoding)] *)
Definition decode (buf : list byte) (enc : string) : string :=
  Buffer_toString P enc buf.

(** The [fmt] with which [_process_byte_array_with_data] reads a number
    column wider than two bytes: the chain of tests on the column's
    format. *)
Definition number_fmt (col_format : string) : fmt :=
  if String.eqb col_format "" then F_number
  else if includes_string (TIME_FORMAT_STRINGS opts) col_format then F_time
  else if includes_string (DATE_TIME_FORMAT_STRINGS opts) col_format
       then F_datetime
  else if includes_string (DATE_FORMAT_STRINGS opts) col_format then F_date
  else F_number.

Definition read_val (this : SAS7BDAT) (f : fmt) (raw_bytes : list byte)
           (size : Z) : res value :=
  _read_val P (u64 (properties this)) (endianess (properties this))
            (date_formatter opts) f raw_bytes size.

(** [source.slice(start, end)], where [source] may be [null]. *)
Definition slice_source (source : option (list byte)) (start end_ : Z)
  : res (list byte) :=
  match source with
  | Some buf => Ret (slice buf start end_)
  | None => Throw TypeError
  end.

(** The body of the loop over the columns in
    [_process_byte_array_with_data], for column [i]: the value to push, or
    [None] for [break].  An array element that does not exist is
    [undefined]: the slice is then empty, and [size] plays no part in the
    value read. *)
Definition read_column (this : SAS7BDAT) (source : option (list byte))
           (offset : Z) (i : nat) : res (option value) :=
  let length := column_data_lengths this !! i in
  if bool_decide (length = Some 0) then Ret None
  else
    let* temp :=
       match column_data_offsets this !! i, length with
       | Some data_offset, Some len =>
         slice_source source (offset + data_offset)
                      (offset + data_offset + len)
       | _, _ => slice_source source 0 0
       end in
    match columns this !! i with
    | None => Throw TypeError
    | Some col =>
      let size := default 0 length in
      let* val :=
         match type col with
         | number =>
           if bool_decide (is_Some length) && (size <=? 2)
           then read_val this F_h temp size
           else read_val this (number_fmt (format col)) temp size
         | string_ => read_val this F_s temp size
         end in
      Ret (Some val)
    end.

(** The loop itself: [n] iterations are left, the loop counter is [i]. *)
Fixpoint read_columns (this : SAS7BDAT) (source : option (list byte))
         (offset : Z) (n : nat) (i : nat) (row_elements : list value)
  : res (list value) :=
  match n with
  | O => Ret row_elements
  | S n' =>
    let* pushed := read_column this source offset i in
    match pushed with
    | None => Ret row_elements
    | Some val =>
      read_columns this source offset n' (S i) (row_elements ++ [val])
    end
  end.

(** The head of [_process_byte_array_with_data]: the buffer the columns
    are cut from and the offset of the row in it.  A row shorter than
    [row_length] in a compressed file is decompressed first. *)
Definition row_source (this : SAS7BDAT) (offset length : Z)
  : res (option (list byte) * Z) :=
  match compression (properties this) with
  | Some c =>
    if length <? row_length (properties this) then
      let* d := new_Decompressor (DECOMPRESSORS c) in
      let* source :=
         decompress_row d offset length (row_length (properties this))
                        (default [] (cached_page this)) in
      Ret (Some source, 0)
    else Ret (cached_page this, offset)
  | None => Ret (cached_page this, offset)
  end.

Definition _process_byte_array_with_data (this : SAS7BDAT)
           (offset length : Z) : res (list value) :=
  let* source_offset := row_source this offset length in
  let source := fst source_offset in
  let offset := snd source_offset in
  read_columns this source offset
               (Z.to_nat (column_count (properties this))) 0 [].

(** [close]: [close_file] drops the file. *)
Definition close (this : SAS7BDAT) : SAS7BDAT := set_file None this.

(** [await this._read_next_page(); this.current_row_on_page_index = 0;] *)
Definition next_page (this : SAS7BDAT) : res SAS7BDAT :=
  let* this := _read_next_page this in
  Ret (set_current_row_on_page_index 0 this).

(** The branch of [readline] for a META page: the next data subheader
    pointer is handed to [DataSubheader.process_subheader]. *)
Definition readline_meta (this : SAS7BDAT) : res SAS7BDAT :=
  let pointers := current_page_data_subheader_pointers this in
  let index := current_row_on_page_index this in
  if (index <? Z.of_nat (List.length pointers)) && (0 <=? index) then
    match pointers !! Z.to_nat index with
    | None => Throw TypeError
    | Some current_subheader_pointer =>
      let this := set_current_row_on_page_index (index + 1) this in
      let* row :=
         _process_byte_array_with_data
           this (ptr_offset current_subheader_pointer)
           (ptr_length current_subheader_pointer) in
      let this := set_current_row row this in
      if current_row_on_page_index this =? Z.of_nat (List.length pointers)
      then next_page this
      else Ret this
    end
  else next_page this.

(** The branch for a MIX page. *)
Definition readline_mix (this : SAS7BDAT) : res SAS7BDAT :=
  let bit_offset := PAGE_BIT_OFFSET (properties this) in
  let subheader_pointer_length :=
      SUBHEADER_POINTER_LENGTH (properties this) in
  let align_correction :=
      if align_correction opts then
        Z.rem (bit_offset + SUBHEADER_POINTERS_OFFSET
               + current_page_subheaders_count this
                 * subheader_pointer_length) 8
      else 0 in
  let offset :=
      bit_offset + SUBHEADER_POINTERS_OFFSET + align_correction
      + current_page_subheaders_count this * subheader_pointer_length
      + current_row_on_page_index this * row_length (properties this) in
  let* row :=
     _process_byte_array_with_data this offset
                                   (row_length (properties this)) in
  let this := set_current_row row this in
  let this :=
      set_current_row_on_page_index (current_row_on_page_index this + 1)
                                    this in
  if current_row_on_page_index this
     =? Z.min (row_count (properties this))
              (mix_page_row_count (properties this))
  then next_page this
  else Ret this.

(** The branch for a DATA page. *)
Definition readline_data (this : SAS7BDAT) : res SAS7BDAT :=
  let bit_offset := PAGE_BIT_OFFSET (properties this) in
  let* row :=
     _process_byte_array_with_data
       this
       (bit_offset + SUBHEADER_POINTERS_OFFSET
        + current_row_on_page_index this * row_length (properties this))
       (row_length (properties this)) in
  let this := set_current_row row this in
  let this :=
      set_current_row_on_page_index (current_row_on_page_index this + 1)
                                    this in
  if current_row_on_page_index this =? current_page_block_count this
  then next_page this
  else Ret this.

Definition readline (this : SAS7BDAT) : res (SAS7BDAT * line) :=
  let* this :=
     if negb (parsed_header this) then
       let* this := parse_header this in
       Ret (set_parsed_header true this)
     else Ret this in
  let row_count := row_count (properties this) in
  let this :=
      match column_names_strings_decoded this with
      | Some _ => this
      | None =>
        set_column_names_strings_decoded
          (Some (map (fun x => decode (name x) (encoding opts))
                     (columns this)))
          this
      end in
  if negb (skip_header opts) && negb (sent_header this)
     && String.eqb (row_format opts) "array"
  then Ret (set_sent_header true this,
            Header (default [] (column_names_strings_decoded this)))
  else
    let* this :=
       match cached_page this with
       | None => Throw Error_seek_not_implemented
       | Some _ => Ret this
       end in
    if current_row_in_file_index this <? row_count then
      let this :=
          set_current_row_in_file_index (current_row_in_file_index this + 1)
                                        this in
      let current_page_type := current_page_type this in
      let* this :=
         if current_page_type =? PAGE_META_TYPE then readline_meta this
         else if includes PAGE_MIX_TYPE current_page_type
              then readline_mix this
         else if current_page_type =? PAGE_DATA_TYPE then readline_data this
         else Throw (Error_unknown_page_type current_page_type) in
      if String.eqb (row_format opts) "object" then
        Ret (this,
             RowObject
               (reduce_to_object
                  (default [] (column_names_strings_decoded this)) 0
                  (current_row this) ∅))
      else Ret (this, RowArray (current_row this))
    else Ret (close this, EndOfData).

(** [n] successive calls of [readline], with the lines they resolve to;
    the run stops at the first exception. *)
Fixpoint readlines (n : nat) (this : SAS7BDAT) : SAS7BDAT * list line :=
  match n with
  | O => (this, [])
  | S n' =>
    match readline this with
    | Throw _ => (this, [])
    | Ret (this', l) =>
      let '(final, ls) := readlines n' this' in (final, l :: ls)
    end
  end.

End WithCollaborators.

End Reader.

(* ===================================================================== *)
(** * Vocabulary of the specification *)
(* ===================================================================== *)

(** ** The control-byte table of the RLE decompressor (spec section 4.6) *)

(** [hi] and [lo] of the table: the two nibbles of a control byte. *)
Definition control_nibble (cb : byte) : Z := Z.land (byte_val cb) 0xF0.
Definition low_nibble (cb : byte) : Z := Z.land (byte_val cb) 0x0F.


(** Its last four rows: short repeat and the three fills. *)
Definition fill_nibbles : list Z := [0xC0; 0xD0; 0xE0; 0xF0].

(** Column "Effect": how many copies, and of which byte.  [pos] is the
    position of the control byte in the page. *)
Definition fill_count (hi lo : Z) : Z :=
  if hi =? 0xC0 then lo + 3 else lo + 2.

Definition fill_byte (page : list byte) (pos hi : Z) : byte :=
  if hi =? 0xC0 then default x00 (index page (pos + 1))
  else if hi =? 0xD0 then x40
  else if hi =? 0xE0 then x20
  else x00.

(** Column "Advance" as the table prints it ... *)
Definition fill_advance_stated (hi : Z) : Z :=
  if hi =? 0xC0 then 2 + 1 else 1 + 1.

(** ... and the distance the cursor [i] moves in [decompress_row]. *)
Definition fill_advance (hi : Z) : Z :=
  if hi =? 0xC0 then 2 else 1.

(** The row of scenario 2: two spaces, three 'X', two NUL. *)
Definition scenario_row : list byte := [x20; x20; x58; x58; x58; x00; x00].

(** The stream of scenario 2, with bytes [d1] and [d2] at the positions the
    printed advance column would skip. *)
Definition scenario_stream_padded (d1 d2 : byte) : list byte :=
  [xe0; d1; xc0; x58; xf0; d2].

(** The same three records laid out back to back. *)
Definition scenario_stream : list byte := [xe0; xc0; x58; xf0].

(** The cursor with which [decompress_row] leaves its loop, when the loop
    does not throw. *)
Definition final_cursor (offset length : Z) (page : list byte) : option Z :=
  match RLE.loop page offset length (Z.to_nat length) 0 RLE.init with
  | Ret st => Some (RLE.i st)
  | Throw _ => None
  end.


(** The state in which a fill record with control byte [cb] leaves the
    loop body, written in closed form. *)
Definition fill_step (page : list byte) (offset : Z) (st : RLE.state)
           (cb : byte) : RLE.state :=
  let hi := control_nibble cb in
  RLE.mkState
    (RLE.i st + fill_advance hi)
    (RLE.result st
       ++ repeat [fill_byte page (offset + RLE.i st) hi]
                 (Z.to_nat (fill_count hi (low_nibble cb))))
    (RLE.current_result_array_index st
       + Z.max 0 (fill_count hi (low_nibble cb))).

(** The 256 bytes, for exhaustive checks by evaluation. *)
Definition all_bytes : list byte :=
  map (fun n => default x00 (Byte.of_N (N.of_nat n))) (seq 0 256).

(** Equality of byte strings, and the test that a run of the decompressor
    returns exactly [row]. *)
Fixpoint bytes_eqb (a b : list byte) : bool :=
  match a, b with
  | [], [] => true
  | x :: a', y :: b' => Byte.eqb x y && bytes_eqb a' b'
  | _, _ => false
  end.

Definition returns_row (r : res (list byte)) (row : list byte) : bool :=
  match r with
  | Ret out => bytes_eqb out row
  | Throw _ => false
  end.

(** ** Reading numbers (spec section 4.1) *)

(** The string built-ins on ASCII text, for running the reader on
    examples: bytes are characters, NUL characters are dropped, blanks are
    trimmed at both ends. *)
Definition is_blank (c : ascii) : bool :=
  existsb (Ascii.eqb c) [" "; "009"; "010"; "011"; "012"; "013"]%char.

Fixpoint drop_blanks (s : string) : string :=
  match s with
  | String c rest => if is_blank c then drop_blanks rest else s
  | EmptyString => EmptyString
  end.

Definition rev_string (s : string) : string :=
  string_of_list_ascii (rev (list_ascii_of_string s)).

Definition ascii_platform : platform :=
  mkPlatform
    (fun _ buf => string_of_list_byte buf)
    (fun s => string_of_list_ascii
                (filter (fun c => negb (Ascii.eqb c "000"%char))
                        (list_ascii_of_string s)))
    (fun s => rev_string (drop_blanks (rev_string (drop_blanks s)))).

(** The padding of a short numeric field as the specification words it:
    zeros on the left for a big-endian file, on the right for a
    little-endian one. *)
Definition pad_as_stated (e : ReadVal.endian) (raw_bytes : list byte)
  : list byte :=
  let zeros := repeat x00 (8 - List.length raw_bytes) in
  match e with
  | ReadVal.big => zeros ++ raw_bytes
  | ReadVal.little => raw_bytes ++ zeros
  end.

(** The padding as [_read_val] lays it out. *)
Definition pad_as_coded (e : option ReadVal.endian) (raw_bytes : list byte)
  : list byte :=
  let zeros := repeat x00 (8 - List.length raw_bytes) in
  match e with
  | Some ReadVal.little => zeros ++ raw_bytes
  | _ => raw_bytes ++ zeros
  end.

(** The double held by a numeric field of a file of the given endianness. *)
Definition field_double (e : option ReadVal.endian) (raw_bytes : list byte)
  : res spec_float :=
  Num.readDouble match e with Some ReadVal.big => true | _ => false end
                 (ReadVal.pad e raw_bytes).

(** Little-endian fields used in the examples: 3.0 cut to its three most
    significant bytes, 1893456000.0, two to the power 60, and a NaN. *)
Definition le_three_short : list byte := [x00; x08; x40].
Definition le_1893456000 : list byte :=
  [x00; x00; x00; x20; xf6; x36; xdc; x41].
Definition le_two_pow_60 : list byte :=
  [x00; x00; x00; x00; x00; x00; xb0; x43].
Definition le_nan : list byte :=
  [x00; x00; x00; x00; x00; x00; xf8; x7f].

(** ** An example file *)

(** A 32-bit little-endian data set of two rows with the columns [x]
    (number, 8 bytes, format [DATE]) and [s] (string, 2 bytes); its only
    page is a DATA page.  The rows are (NaN, "ab") and (1893456000, "cd"). *)
Definition example_properties : Reader.SASProperties :=
  Reader.mkSASProperties false (Some ReadVal.little) 1024 64 None 10 2 0 2.

Definition example_columns : list Reader.Column :=
  [Reader.mkColumn 0 [x78] [] "DATE" Reader.number 8;
   Reader.mkColumn 1 [x73] [] "" Reader.string_ 2].

Definition example_page : list byte :=
  repeat x00 16 ++ [x00; x01; x02; x00; x00; x00; x00; x00]
  ++ le_nan ++ [x61; x62]
  ++ le_1893456000 ++ [x63; x64]
  ++ repeat x00 20.

(** The reader once [parse_header] has run: the page is cached, no row has
    been read. *)
Definition example_reader : Reader.SAS7BDAT :=
  Reader.mkSAS7BDAT example_properties (Some []) (Some example_page)
                    256 2 0 [] [] [0; 8] [8; 2] example_columns
                    true false None 0 0.

(** The page reader at the end of the file: [read_file] returns an empty
    buffer and [_read_next_page] returns at once. *)
Definition read_next_page_at_eof (this : Reader.SAS7BDAT)
  : res Reader.SAS7BDAT :=
  Ret (Reader.mkSAS7BDAT
         (Reader.properties this) (Reader._file this) (Some [])
         (Reader.current_page_type this)
         (Reader.current_page_block_count this)
         (Reader.current_page_subheaders_count this)
         []
         (Reader.current_row this)
         (Reader.column_data_offsets this)
         (Reader.column_data_lengths this)
         (Reader.columns this)
         (Reader.parsed_header this)
         (Reader.sent_header this)
         (Reader.column_names_strings_decoded this)
         (Reader.current_row_in_file_index this)
         (Reader.current_row_on_page_index this)).

(** [parse_header] on a reader built from a path: [open_file] throws. *)
Definition parse_header_from_path (this : Reader.SAS7BDAT)
  : res Reader.SAS7BDAT :=
  Throw (Error_thrown "open_file not implemented").

(** Options as the constructor sets them, with a given [rowFormat]. *)
Definition options_with_row_format (rf : string) : Reader.options :=
  Reader.new_SAS7BDAT
    (Reader.mkConstructorOptions None None None None None None None
                                 (Some rf)).

Definition default_options : Reader.options :=
  Reader.new_SAS7BDAT
    (Reader.mkConstructorOptions None None None None None None None None).

(** The same two rows on a MIX page that carries one subheader pointer:
    the pointer array ends at byte 36 and the rows start at byte 40. *)
Definition example_mix_page : list byte :=
  repeat x00 16 ++ [x00; x02; x00; x00; x01; x00; x00; x00]
  ++ repeat x00 12 ++ repeat x00 4
  ++ le_nan ++ [x61; x62]
  ++ le_1893456000 ++ [x63; x64]
  ++ repeat x00 4.

Definition example_mix_reader : Reader.SAS7BDAT :=
  Reader.mkSAS7BDAT
    (Reader.mkSASProperties false (Some ReadVal.little) 1024 64 None 10 2 2 2)
    (Some []) (Some example_mix_page)
    512 0 1 [] [] [0; 8] [8; 2] example_columns
    true true None 0 0.


(** [readline] is past the header row: nothing but rows and [null] can
    come. *)
Definition header_row_done (opts : Reader.options) (this : Reader.SAS7BDAT)
  : Prop :=
  Reader.skip_header opts = true
  \/ Reader.sent_header this = true
  \/ Reader.row_format opts <> "array"%string.

(** The line [readline] resolves to, without the reader. *)
Definition line_of (r : res (Reader.SAS7BDAT * Reader.line))
  : res Reader.line :=
  let* p := r in Ret (snd p).



(** [readline] in three steps, for a reader past the header row: the
    column names are decoded on first use, the row is read according to
    the type of the page, and the row is returned in the chosen format. *)
Definition with_decoded_names (P : platform) (opts : Reader.options)
           (this : Reader.SAS7BDAT) : Reader.SAS7BDAT :=
  match Reader.column_names_strings_decoded this with
  | Some _ => this
  | None =>
    Reader.set_column_names_strings_decoded
      (Some (map (fun x => Reader.decode P (Reader.name x)
                                         (Reader.encoding opts))
                 (Reader.columns this)))
      this
  end.

Definition read_row (P : platform) (opts : Reader.options)
           (_read_next_page : Reader.SAS7BDAT -> res Reader.SAS7BDAT)
           (this : Reader.SAS7BDAT) : res Reader.SAS7BDAT :=
  let t := Reader.current_page_type this in
  if t =? Reader.PAGE_META_TYPE
  then Reader.readline_meta P opts _read_next_page this
  else if Reader.includes Reader.PAGE_MIX_TYPE t
       then Reader.readline_mix P opts _read_next_page this
  else if t =? Reader.PAGE_DATA_TYPE
       then Reader.readline_data P opts _read_next_page this
  else Throw (Error_unknown_page_type t).



(* ===================================================================== *)
(** * Further vocabulary: the rest of the reader *)
(* ===================================================================== *)

(** ** The other rows of the control-byte table *)

(** Short copies: 0x80, 0x90, 0xA0, 0xB0. *)
Definition short_copy_nibbles : list Z := [0x80; 0x90; 0xA0; 0xB0].

(** Long runs: a repeated byte (0x40), spaces (0x60), NULs (0x70). *)
Definition long_run_nibbles : list Z := [0x40; 0x60; 0x70].

(** The records that read a count from the byte after the control byte. *)
Definition counted_nibbles : list Z := [0x00; 0x40; 0x60; 0x70].

(** Length and byte of a long run; [n] is the value of the count byte and
    [pos] the position of the control byte. *)
Definition run_count (hi lo n : Z) : Z :=
  if hi =? 0x40 then lo * 16 + n + 18 else lo * 256 + n + 17.

Definition run_byte (page : list byte) (pos hi : Z) : byte :=
  if hi =? 0x40 then default x00 (index page (pos + 2))
  else if hi =? 0x60 then x20
  else x00.

Definition run_advance (hi : Z) : Z := if hi =? 0x40 then 3 else 2.

(** ** Format strings *)

(** The strings an option of the constructor adds to a set. *)
Definition extra_formats (o : option (list string)) : list string :=
  default [] o.

(** The three sets before the constructor extends them. *)
Definition default_time_formats : list string := ["TIME"%string].
Definition default_datetime_formats : list string := ["DATETIME"%string].
Definition default_date_formats : list string :=
  ["YYMMDD"; "MMDDYY"; "DDMMYY"; "DATE"; "JULIAN"; "MONYY";
   "WEEKDATE"]%string.

(** ** Lines and readers *)

(** The lines that carry a row, and the header row. *)
Definition is_row (l : Reader.line) : bool :=
  match l with
  | Reader.RowArray _ | Reader.RowObject _ => true
  | _ => false
  end.

Definition is_header (l : Reader.line) : bool :=
  match l with
  | Reader.Header _ => true
  | _ => false
  end.

Definition count_rows (ls : list Reader.line) : nat :=
  List.length (List.filter is_row ls).






(** A reader whose second column has length 0, and one whose first
    column is a number of one byte. *)
Definition example_empty_column_reader : Reader.SAS7BDAT :=
  Reader.mkSAS7BDAT example_properties (Some []) (Some example_page)
                    256 2 0 [] [] [0; 8] [8; 0] example_columns
                    true true None 0 0.

Definition example_narrow_reader : Reader.SAS7BDAT :=
  Reader.mkSAS7BDAT example_properties (Some []) (Some example_page)
                    256 2 0 [] [] [0; 8] [1; 2] example_columns
                    true true None 0 0.

(** The example reader on its DATA page, the header row sent. *)
Definition example_data_reader : Reader.SAS7BDAT :=
  Reader.set_sent_header true example_reader.

(* ===================================================================== *)
(** * The header and the metadata: [SASHeader] and the subheaders *)
(* ===================================================================== *)

Module Header.

Import ReadVal.

(** ** The state *)

Inductive platform_name : Type := unix | windows | unknown.

(** The subheader indices, keys of [SUBHEADER_INDEX_TO_CLASS]. *)
Inductive subheader_index : Type :=
| ROW_SIZE_SUBHEADER_INDEX
| COLUMN_SIZE_SUBHEADER_INDEX
| SUBHEADER_COUNTS_SUBHEADER_INDEX
| COLUMN_TEXT_SUBHEADER_INDEX
| COLUMN_NAME_SUBHEADER_INDEX
| COLUMN_ATTRIBUTES_SUBHEADER_INDEX
| FORMAT_AND_LABEL_SUBHEADER_INDEX
| COLUMN_LIST_SUBHEADER_INDEX
| DATA_SUBHEADER_INDEX.

Definition subheader_index_eq_dec (a b : subheader_index)
  : {a = b} + {a <> b}.
Proof. decide equality. Defined.

(** [SASProperties].  Every field but [u64] starts as [null]; the numbers
    are integers read from the file.  [filename] plays no part in parsing
    and is left out. *)
Module Properties.

Record SASProperties : Type := mkSASProperties {
  u64 : bool;
  endianess : option endian;
  platform : option platform_name;
  name : option string;
  file_type : option string;
  date_created : option value;
  date_modified : option value;
  header_length : option Z;
  page_length : option Z;
  page_count : option Z;
  sas_release : option string;
  server_type : option string;
  os_type : option string;
  os_name : option string;
  compression : option Reader.compression_literal;
  row_length : option Z;
  row_count : option Z;
  col_count_p1 : option Z;
  col_count_p2 : option Z;
  mix_page_row_count : option Z;
  lcs : option Z;
  lcp : option Z;
  creator : option string;
  creator_proc : option string;
  column_count : option Z
}.

(** [new SASProperties()] *)
Definition new_SASProperties : SASProperties :=
  mkSASProperties
    false None None None None None None None None None None None None None
    None None None None None None None None None None None.

Definition set_compression (v : option Reader.compression_literal) (p : SASProperties) : SASProperties :=
  mkSASProperties
    (u64 p) (endianess p) (platform p) (name p) (file_type p)
    (date_created p) (date_modified p) (header_length p) (page_length p)
    (page_count p) (sas_release p) (server_type p) (os_type p) (os_name p)
    v (row_length p) (row_count p) (col_count_p1 p) (col_count_p2 p)
    (mix_page_row_count p) (lcs p) (lcp p) (creator p) (creator_proc p)
    (column_count p).

Definition set_row_length (v : option Z) (p : SASProperties) : SASProperties :=
  mkSASProperties
    (u64 p) (endianess p) (platform p) (name p) (file_type p)
    (date_created p) (date_modified p) (header_length p) (page_length p)
    (page_count p) (sas_release p) (server_type p) (os_type p) (os_name p)
    (compression p) v (row_count p) (col_count_p1 p) (col_count_p2 p)
    (mix_page_row_count p) (lcs p) (lcp p) (creator p) (creator_proc p)
    (column_count p).

Definition set_row_count (v : option Z) (p : SASProperties) : SASProperties :=
  mkSASProperties
    (u64 p) (endianess p) (platform p) (name p) (file_type p)
    (date_created p) (date_modified p) (header_length p) (page_length p)
    (page_count p) (sas_release p) (server_type p) (os_type p) (os_name p)
    (compression p) (row_length p) v (col_count_p1 p) (col_count_p2 p)
    (mix_page_row_count p) (lcs p) (lcp p) (creator p) (creator_proc p)
    (column_count p).

Definition set_col_count_p1 (v : option Z) (p : SASProperties) : SASProperties :=
  mkSASProperties
    (u64 p) (endianess p) (platform p) (name p) (file_type p)
    (date_created p) (date_modified p) (header_length p) (page_length p)
    (page_count p) (sas_release p) (server_type p) (os_type p) (os_name p)
    (compression p) (row_length p) (row_count p) v (col_count_p2 p)
    (mix_page_row_count p) (lcs p) (lcp p) (creator p) (creator_proc p)
    (column_count p).

Definition set_col_count_p2 (v : option Z) (p : SASProperties) : SASProperties :=
  mkSASProperties
    (u64 p) (endianess p) (platform p) (name p) (file_type p)
    (date_created p) (date_modified p) (header_length p) (page_length p)
    (page_count p) (sas_release p) (server_type p) (os_type p) (os_name p)
    (compression p) (row_length p) (row_count p) (col_count_p1 p) v
    (mix_page_row_count p) (lcs p) (lcp p) (creator p) (creator_proc p)
    (column_count p).

Definition set_mix_page_row_count (v : option Z) (p : SASProperties) : SASProperties :=
  mkSASProperties
    (u64 p) (endianess p) (platform p) (name p) (file_type p)
    (date_created p) (date_modified p) (header_length p) (page_length p)
    (page_count p) (sas_release p) (server_type p) (os_type p) (os_name p)
    (compression p) (row_length p) (row_count p) (col_count_p1 p)
    (col_count_p2 p) v (lcs p) (lcp p) (creator p) (creator_proc p)
    (column_count p).

Definition set_lcs (v : option Z) (p : SASProperties) : SASProperties :=
  mkSASProperties
    (u64 p) (endianess p) (platform p) (name p) (file_type p)
    (date_created p) (date_modified p) (header_length p) (page_length p)
    (page_count p) (sas_release p) (server_type p) (os_type p) (os_name p)
    (compression p) (row_length p) (row_count p) (col_count_p1 p)
    (col_count_p2 p) (mix_page_row_count p) v (lcp p) (creator p)
    (creator_proc p) (column_count p).

Definition set_lcp (v : option Z) (p : SASProperties) : SASProperties :=
  mkSASProperties
    (u64 p) (endianess p) (platform p) (name p) (file_type p)
    (date_created p) (date_modified p) (header_length p) (page_length p)
    (page_count p) (sas_release p) (server_type p) (os_type p) (os_name p)
    (compression p) (row_length p) (row_count p) (col_count_p1 p)
    (col_count_p2 p) (mix_page_row_count p) (lcs p) v (creator p)
    (creator_proc p) (column_count p).

Definition set_creator (v : option string) (p : SASProperties) : SASProperties :=
  mkSASProperties
    (u64 p) (endianess p) (platform p) (name p) (file_type p)
    (date_created p) (date_modified p) (header_length p) (page_length p)
    (page_count p) (sas_release p) (server_type p) (os_type p) (os_name p)
    (compression p) (row_length p) (row_count p) (col_count_p1 p)
    (col_count_p2 p) (mix_page_row_count p) (lcs p) (lcp p) v
    (creator_proc p) (column_count p).

Definition set_creator_proc (v : option string) (p : SASProperties) : SASProperties :=
  mkSASProperties
    (u64 p) (endianess p) (platform p) (name p) (file_type p)
    (date_created p) (date_modified p) (header_length p) (page_length p)
    (page_count p) (sas_release p) (server_type p) (os_type p) (os_name p)
    (compression p) (row_length p) (row_count p) (col_count_p1 p)
    (col_count_p2 p) (mix_page_row_count p) (lcs p) (lcp p) (creator p) v
    (column_count p).

Definition set_column_count (v : option Z) (p : SASProperties) : SASProperties :=
  mkSASProperties
    (u64 p) (endianess p) (platform p) (name p) (file_type p)
    (date_created p) (date_modified p) (header_length p) (page_length p)
    (page_count p) (sas_release p) (server_type p) (os_type p) (os_name p)
    (compression p) (row_length p) (row_count p) (col_count_p1 p)
    (col_count_p2 p) (mix_page_row_count p) (lcs p) (lcp p) (creator p)
    (creator_proc p) v.

End Properties.

(** [Column]: [name], [type] and [length] are [undefined] when the arrays
    they are taken from are too short. *)
Record Column : Type := mkColumn {
  col_id : Z;
  col_name : option (list byte);
  col_label : list byte;
  col_format : string;
  col_type : option Reader.column_type;
  col_length : option Z
}.

(** The reader as [SASHeader] and the subheaders see it, the fields of
    [this.parent] they touch.  [properties] is [header.properties], the
    object that [parse_header] stores in [this.properties] as well.  An
    entry of [column_names_strings] is [undefined] when [_read_bytes]
    returned no buffer for the offset. *)
Record SAS7BDAT : Type := mkSAS7BDAT {
  _file : option (list byte);
  file_pos : Z;
  current_file_position : Z;
  cached_page : option (list byte);
  endianess : option endian;
  u64 : bool;
  current_page_type : option Z;
  current_page_block_count : option Z;
  current_page_subheaders_count : option Z;
  current_page_data_subheader_pointers : list Reader.SubheaderPointer;
  column_names_strings : list (option (list byte));
  column_names : list (list byte);
  column_types : list Reader.column_type;
  column_data_offsets : list Z;
  column_data_lengths : list Z;
  columns : list Column;
  properties : Properties.SASProperties
}.

Definition set_file_pos (v : Z) (this : SAS7BDAT) : SAS7BDAT :=
  mkSAS7BDAT
    (_file this) v (current_file_position this) (cached_page this)
    (endianess this) (u64 this) (current_page_type this)
    (current_page_block_count this) (current_page_subheaders_count this)
    (current_page_data_subheader_pointers this) (column_names_strings this)
    (column_names this) (column_types this) (column_data_offsets this)
    (column_data_lengths this) (columns this) (properties this).

Definition set_current_file_position (v : Z) (this : SAS7BDAT) : SAS7BDAT :=
  mkSAS7BDAT
    (_file this) (file_pos this) v (cached_page this) (endianess this)
    (u64 this) (current_page_type this) (current_page_block_count this)
    (current_page_subheaders_count this)
    (current_page_data_subheader_pointers this) (column_names_strings this)
    (column_names this) (column_types this) (column_data_offsets this)
    (column_data_lengths this) (columns this) (properties this).

Definition set_cached_page (v : option (list byte)) (this : SAS7BDAT) : SAS7BDAT :=
  mkSAS7BDAT
    (_file this) (file_pos this) (current_file_position this) v
    (endianess this) (u64 this) (current_page_type this)
    (current_page_block_count this) (current_page_subheaders_count this)
    (current_page_data_subheader_pointers this) (column_names_strings this)
    (column_names this) (column_types this) (column_data_offsets this)
    (column_data_lengths this) (columns this) (properties this).

Definition set_endianess (v : option endian) (this : SAS7BDAT) : SAS7BDAT :=
  mkSAS7BDAT
    (_file this) (file_pos this) (current_file_position this)
    (cached_page this) v (u64 this) (current_page_type this)
    (current_page_block_count this) (current_page_subheaders_count this)
    (current_page_data_subheader_pointers this) (column_names_strings this)
    (column_names this) (column_types this) (column_data_offsets this)
    (column_data_lengths this) (columns this) (properties this).

Definition set_u64 (v : bool) (this : SAS7BDAT) : SAS7BDAT :=
  mkSAS7BDAT
    (_file this) (file_pos this) (current_file_position this)
    (cached_page this) (endianess this) v (current_page_type this)
    (current_page_block_count this) (current_page_subheaders_count this)
    (current_page_data_subheader_pointers this) (column_names_strings this)
    (column_names this) (column_types this) (column_data_offsets this)
    (column_data_lengths this) (columns this) (properties this).

Definition set_current_page_type (v : option Z) (this : SAS7BDAT) : SAS7BDAT :=
  mkSAS7BDAT
    (_file this) (file_pos this) (current_file_position this)
    (cached_page this) (endianess this) (u64 this) v
    (current_page_block_count this) (current_page_subheaders_count this)
    (current_page_data_subheader_pointers this) (column_names_strings this)
    (column_names this) (column_types this) (column_data_offsets this)
    (column_data_lengths this) (columns this) (properties this).

Definition set_current_page_block_count (v : option Z) (this : SAS7BDAT) : SAS7BDAT :=
  mkSAS7BDAT
    (_file this) (file_pos this) (current_file_position this)
    (cached_page this) (endianess this) (u64 this) (current_page_type this)
    v (current_page_subheaders_count this)
    (current_page_data_subheader_pointers this) (column_names_strings this)
    (column_names this) (column_types this) (column_data_offsets this)
    (column_data_lengths this) (columns this) (properties this).

Definition set_current_page_subheaders_count (v : option Z) (this : SAS7BDAT) : SAS7BDAT :=
  mkSAS7BDAT
    (_file this) (file_pos this) (current_file_position this)
    (cached_page this) (endianess this) (u64 this) (current_page_type this)
    (current_page_block_count this) v
    (current_page_data_subheader_pointers this) (column_names_strings this)
    (column_names this) (column_types this) (column_data_offsets this)
    (column_data_lengths this) (columns this) (properties this).

Definition set_current_page_data_subheader_pointers (v : list Reader.SubheaderPointer) (this : SAS7BDAT) : SAS7BDAT :=
  mkSAS7BDAT
    (_file this) (file_pos this) (current_file_position this)
    (cached_page this) (endianess this) (u64 this) (current_page_type this)
    (current_page_block_count this) (current_page_subheaders_count this) v
    (column_names_strings this) (column_names this) (column_types this)
    (column_data_offsets this) (column_data_lengths this) (columns this)
    (properties this).

Definition set_column_names_strings (v : list (option (list byte))) (this : SAS7BDAT) : SAS7BDAT :=
  mkSAS7BDAT
    (_file this) (file_pos this) (current_file_position this)
    (cached_page this) (endianess this) (u64 this) (current_page_type this)
    (current_page_block_count this) (current_page_subheaders_count this)
    (current_page_data_subheader_pointers this) v (column_names this)
    (column_types this) (column_data_offsets this)
    (column_data_lengths this) (columns this) (properties this).

Definition set_column_names (v : list (list byte)) (this : SAS7BDAT) : SAS7BDAT :=
  mkSAS7BDAT
    (_file this) (file_pos this) (current_file_position this)
    (cached_page this) (endianess this) (u64 this) (current_page_type this)
    (current_page_block_count this) (current_page_subheaders_count this)
    (current_page_data_subheader_pointers this) (column_names_strings this)
    v (column_types this) (column_data_offsets this)
    (column_data_lengths this) (columns this) (properties this).

Definition set_column_types (v : list Reader.column_type) (this : SAS7BDAT) : SAS7BDAT :=
  mkSAS7BDAT
    (_file this) (file_pos this) (current_file_position this)
    (cached_page this) (endianess this) (u64 this) (current_page_type this)
    (current_page_block_count this) (current_page_subheaders_count this)
    (current_page_data_subheader_pointers this) (column_names_strings this)
    (column_names this) v (column_data_offsets this)
    (column_data_lengths this) (columns this) (properties this).

Definition set_column_data_offsets (v : list Z) (this : SAS7BDAT) : SAS7BDAT :=
  mkSAS7BDAT
    (_file this) (file_pos this) (current_file_position this)
    (cached_page this) (endianess this) (u64 this) (current_page_type this)
    (current_page_block_count this) (current_page_subheaders_count this)
    (current_page_data_subheader_pointers this) (column_names_strings this)
    (column_names this) (column_types this) v (column_data_lengths this)
    (columns this) (properties this).

Definition set_column_data_lengths (v : list Z) (this : SAS7BDAT) : SAS7BDAT :=
  mkSAS7BDAT
    (_file this) (file_pos this) (current_file_position this)
    (cached_page this) (endianess this) (u64 this) (current_page_type this)
    (current_page_block_count this) (current_page_subheaders_count this)
    (current_page_data_subheader_pointers this) (column_names_strings this)
    (column_names this) (column_types this) (column_data_offsets this) v
    (columns this) (properties this).

Definition set_columns (v : list Column) (this : SAS7BDAT) : SAS7BDAT :=
  mkSAS7BDAT
    (_file this) (file_pos this) (current_file_position this)
    (cached_page this) (endianess this) (u64 this) (current_page_type this)
    (current_page_block_count this) (current_page_subheaders_count this)
    (current_page_data_subheader_pointers this) (column_names_strings this)
    (column_names this) (column_types this) (column_data_offsets this)
    (column_data_lengths this) v (properties this).

Definition set_properties (v : Properties.SASProperties) (this : SAS7BDAT) : SAS7BDAT :=
  mkSAS7BDAT
    (_file this) (file_pos this) (current_file_position this)
    (cached_page this) (endianess this) (u64 this) (current_page_type this)
    (current_page_block_count this) (current_page_subheaders_count this)
    (current_page_data_subheader_pointers this) (column_names_strings this)
    (column_names this) (column_types this) (column_data_offsets this)
    (column_data_lengths this) (columns this) v.


(** The reader as the constructor leaves it, with a header just
    constructed; [file] is [null] for a reader built from a path. *)
Definition new_SAS7BDAT (file : option (list byte)) : SAS7BDAT :=
  mkSAS7BDAT file 0 0 None None false None None None [] [] [] [] [] [] []
             Properties.new_SASProperties.

Definition with_properties
           (f : Properties.SASProperties -> Properties.SASProperties)
           (this : SAS7BDAT) : SAS7BDAT :=
  set_properties (f (properties this)) this.

(** [x !== null] *)
Definition not_null {A : Type} (x : option A) : bool :=
  match x with
  | Some _ => true
  | None => false
  end.

(** ** Buffers *)

(** [a.equals(b)] *)
Fixpoint Buffer_equals (a b : list byte) : bool :=
  match a, b with
  | [], [] => true
  | x :: a', y :: b' => Byte.eqb x y && Buffer_equals a' b'
  | _, _ => false
  end.

(** [buf.indexOf(s) >= 0], where [needle] holds the bytes of [s]. *)
Fixpoint starts_with (needle buf : list byte) : bool :=
  match needle, buf with
  | [], _ => true
  | x :: needle', y :: buf' => Byte.eqb x y && starts_with needle' buf'
  | _ :: _, [] => false
  end.

Fixpoint Buffer_includes (buf needle : list byte) : bool :=
  starts_with needle buf
  || match buf with
     | [] => false
     | _ :: rest => Buffer_includes rest needle
     end.

(** [buf.toString('hex')] *)
Definition hex_digit (n : Z) : ascii :=
  nth (Z.to_nat n) (list_ascii_of_string "0123456789abcdef") "0"%char.

Fixpoint hex (buf : list byte) : string :=
  match buf with
  | [] => EmptyString
  | b :: rest =>
    String (hex_digit (byte_val b / 16))
           (String (hex_digit (byte_val b mod 16)) (hex rest))
  end.

(** [`${n}`] for an integer [n]. *)
Fixpoint decimal (fuel : nat) (n : Z) : string :=
  match fuel with
  | O => EmptyString
  | S fuel' =>
    if n <? 10 then String (Dates.digit n) EmptyString
    else (decimal fuel' (n / 10) ++ String (Dates.digit n) EmptyString)%string
  end.

Definition Number_toString (n : Z) : string :=
  if n <? 0 then String "-"%char (decimal (S (Z.to_nat (Z.log2 (- n)))) (- n))
  else decimal (S (Z.to_nat (Z.log2 n))) n.

(** The bytes of the two compression literals, in the order of
    [COMPRESSION_LITERALS]. *)
Definition COMPRESSION_LITERALS : list Reader.compression_literal :=
  [Reader.SASYZCRL; Reader.SASYZCR2].

Definition literal_bytes (cl : Reader.compression_literal) : list byte :=
  match cl with
  | Reader.SASYZCRL => [x53; x41; x53; x59; x5a; x43; x52; x4c]
  | Reader.SASYZCR2 => [x53; x41; x53; x59; x5a; x43; x52; x32]
  end.

(** ** [read_file] *)

Record file_read : Type := mkFileRead {
  reader : SAS7BDAT;
  buffer : list byte;
  bytesRead : Z
}.

(** [read_file(sas7bdat, offset, length)]: [_file] is an [ArrayBuffer],
    whose [slice] clamps its bounds as that of a [Buffer] does. *)
Definition read_file (sas7bdat : SAS7BDAT) (offset length : Z)
  : res file_read :=
  match _file sas7bdat with
  | None => Throw TypeError
  | Some file =>
    let slice :=
        Js.slice file (offset + file_pos sas7bdat)
                 (length + file_pos sas7bdat) in
    let byteLength := Z.of_nat (List.length slice) in
    let buffer := slice in
    let bytesRead := Z.min byteLength (Z.of_nat (List.length buffer)) in
    Ret (mkFileRead (set_file_pos (file_pos sas7bdat + byteLength) sas7bdat)
                    buffer bytesRead)
  end.

(** ** Constants of [SASHeader] and [ProcessingSubheader] *)

Definition MAGIC : list byte :=
  [x00; x00; x00; x00; x00; x00; x00; x00; x00; x00; x00; x00;
   xc2; xea; x81; x60; xb3; x14; x11; xcf; xbd; x92; x08; x00;
   x09; xc7; x31; x8c; x18; x1f; x10; x11].

Definition SUBHEADER_SIGNATURE_TO_INDEX : list (string * subheader_index) :=
  [("f7f7f7f7", ROW_SIZE_SUBHEADER_INDEX);
   ("00000000f7f7f7f7", ROW_SIZE_SUBHEADER_INDEX);
   ("f7f7f7f700000000", ROW_SIZE_SUBHEADER_INDEX);
   ("f6f6f6f6", COLUMN_SIZE_SUBHEADER_INDEX);
   ("00000000f6f6f6f6", COLUMN_SIZE_SUBHEADER_INDEX);
   ("f6f6f6f600000000", COLUMN_SIZE_SUBHEADER_INDEX);
   ("00fcffff", SUBHEADER_COUNTS_SUBHEADER_INDEX);
   ("fffffc00", SUBHEADER_COUNTS_SUBHEADER_INDEX);
   ("00fcffffffffffff", SUBHEADER_COUNTS_SUBHEADER_INDEX);
   ("fffffffffffffc00", SUBHEADER_COUNTS_SUBHEADER_INDEX);
   ("fdffffff", COLUMN_TEXT_SUBHEADER_INDEX);
   ("fffffffd", COLUMN_TEXT_SUBHEADER_INDEX);
   ("fdffffffffffffff", COLUMN_TEXT_SUBHEADER_INDEX);
   ("fffffffffffffffd", COLUMN_TEXT_SUBHEADER_INDEX);
   ("ffffffff", COLUMN_NAME_SUBHEADER_INDEX);
   ("ffffffffffffffff", COLUMN_NAME_SUBHEADER_INDEX);
   ("fcffffff", COLUMN_ATTRIBUTES_SUBHEADER_INDEX);
   ("fffffffc", COLUMN_ATTRIBUTES_SUBHEADER_INDEX);
   ("fcffffffffffffff", COLUMN_ATTRIBUTES_SUBHEADER_INDEX);
   ("fffffffffffffffc", COLUMN_ATTRIBUTES_SUBHEADER_INDEX);
   ("fefbffff", FORMAT_AND_LABEL_SUBHEADER_INDEX);
   ("fffffbfe", FORMAT_AND_LABEL_SUBHEADER_INDEX);
   ("fefbffffffffffff", FORMAT_AND_LABEL_SUBHEADER_INDEX);
   ("fffffffffffffbfe", FORMAT_AND_LABEL_SUBHEADER_INDEX);
   ("feffffff", COLUMN_LIST_SUBHEADER_INDEX);
   ("fffffffe", COLUMN_LIST_SUBHEADER_INDEX);
   ("feffffffffffffff", COLUMN_LIST_SUBHEADER_INDEX);
   ("fffffffffffffffe", COLUMN_LIST_SUBHEADER_INDEX)]%string.

(** [obj[key]] on an object literal with string keys. *)
Fixpoint lookup_key {A : Type} (o : list (string * A)) (key : string)
  : option A :=
  match o with
  | [] => None
  | (k, v) :: rest => if String.eqb k key then Some v else lookup_key rest key
  end.

Definition ALIGN_1_OFFSET : Z := 32.
Definition ALIGN_1_LENGTH : Z := 1.
Definition ALIGN_1_VALUE : Z := 4.
Definition ALIGN_2_OFFSET : Z := 35.
Definition ALIGN_2_LENGTH : Z := 1.
Definition ALIGN_2_VALUE : Z := 4.
Definition ENDIANNESS_OFFSET : Z := 37.
Definition ENDIANNESS_LENGTH : Z := 1.
Definition PLATFORM_OFFSET : Z := 39.
Definition PLATFORM_LENGTH : Z := 1.
Definition DATASET_OFFSET : Z := 92.
Definition DATASET_LENGTH : Z := 64.
Definition FILE_TYPE_OFFSET : Z := 156.
Definition FILE_TYPE_LENGTH : Z := 8.
Definition DATE_CREATED_OFFSET : Z := 164.
Definition DATE_CREATED_LENGTH : Z := 8.
Definition DATE_MODIFIED_OFFSET : Z := 172.
Definition DATE_MODIFIED_LENGTH : Z := 8.
Definition HEADER_SIZE_OFFSET : Z := 196.
Definition HEADER_SIZE_LENGTH : Z := 4.
Definition PAGE_SIZE_OFFSET : Z := 200.
Definition PAGE_SIZE_LENGTH : Z := 4.
Definition PAGE_COUNT_OFFSET : Z := 204.
Definition PAGE_COUNT_LENGTH : Z := 4.
Definition SAS_RELEASE_OFFSET : Z := 216.
Definition SAS_RELEASE_LENGTH : Z := 8.
Definition SAS_SERVER_TYPE_OFFSET : Z := 224.
Definition SAS_SERVER_TYPE_LENGTH : Z := 16.
Definition OS_VERSION_NUMBER_OFFSET : Z := 240.
Definition OS_VERSION_NUMBER_LENGTH : Z := 16.
Definition OS_MAKER_OFFSET : Z := 256.
Definition OS_MAKER_LENGTH : Z := 16.
Definition OS_NAME_OFFSET : Z := 272.
Definition OS_NAME_LENGTH : Z := 16.
Definition PAGE_TYPE_OFFSET : Z := 0.
Definition PAGE_TYPE_LENGTH : Z := 2.
Definition BLOCK_COUNT_OFFSET : Z := 2.
Definition BLOCK_COUNT_LENGTH : Z := 2.
Definition SUBHEADER_COUNT_OFFSET : Z := 4.
Definition SUBHEADER_COUNT_LENGTH : Z := 2.
Definition PAGE_META_TYPE : Z := 0.
Definition PAGE_DATA_TYPE : Z := 256.
Definition PAGE_MIX_TYPE : list Z := [512; 640].
Definition PAGE_AMD_TYPE : Z := 1024.
Definition PAGE_MIX_DATA_TYPE : list Z := PAGE_MIX_TYPE ++ [PAGE_DATA_TYPE].
Definition PAGE_META_MIX_AMD : list Z :=
  [PAGE_META_TYPE] ++ PAGE_MIX_TYPE ++ [PAGE_AMD_TYPE].
Definition SUBHEADER_POINTERS_OFFSET : Z := 8.
Definition TRUNCATED_SUBHEADER_ID : Z := 1.
Definition COMPRESSED_SUBHEADER_ID : Z := 4.
Definition COMPRESSED_SUBHEADER_TYPE : Z := 1.

Definition TEXT_BLOCK_SIZE_LENGTH : Z := 2.
Definition ROW_LENGTH_OFFSET_MULTIPLIER : Z := 5.
Definition ROW_COUNT_OFFSET_MULTIPLIER : Z := 6.
Definition COL_COUNT_P1_MULTIPLIER : Z := 9.
Definition COL_COUNT_P2_MULTIPLIER : Z := 10.
Definition ROW_COUNT_ON_MIX_PAGE_OFFSET_MULTIPLIER : Z := 15.
Definition COLUMN_NAME_POINTER_LENGTH : Z := 8.
Definition COLUMN_NAME_TEXT_SUBHEADER_OFFSET : Z := 0.
Definition COLUMN_NAME_TEXT_SUBHEADER_LENGTH : Z := 2.
Definition COLUMN_NAME_OFFSET_OFFSET : Z := 2.
Definition COLUMN_NAME_OFFSET_LENGTH : Z := 2.
Definition COLUMN_NAME_LENGTH_OFFSET : Z := 4.
Definition COLUMN_NAME_LENGTH_LENGTH : Z := 2.
Definition COLUMN_DATA_OFFSET_OFFSET : Z := 8.
Definition COLUMN_DATA_LENGTH_OFFSET : Z := 8.
Definition COLUMN_DATA_LENGTH_LENGTH : Z := 4.
Definition COLUMN_TYPE_OFFSET : Z := 14.
Definition COLUMN_TYPE_LENGTH : Z := 1.
Definition COLUMN_FORMAT_TEXT_SUBHEADER_INDEX_OFFSET : Z := 22.
Definition COLUMN_FORMAT_TEXT_SUBHEADER_INDEX_LENGTH : Z := 2.
Definition COLUMN_FORMAT_OFFSET_OFFSET : Z := 24.
Definition COLUMN_FORMAT_OFFSET_LENGTH : Z := 2.
Definition COLUMN_FORMAT_LENGTH_OFFSET : Z := 26.
Definition COLUMN_FORMAT_LENGTH_LENGTH : Z := 2.
Definition COLUMN_LABEL_TEXT_SUBHEADER_INDEX_OFFSET : Z := 28.
Definition COLUMN_LABEL_TEXT_SUBHEADER_INDEX_LENGTH : Z := 2.
Definition COLUMN_LABEL_OFFSET_OFFSET : Z := 30.
Definition COLUMN_LABEL_OFFSET_LENGTH : Z := 2.
Definition COLUMN_LABEL_LENGTH_OFFSET : Z := 32.
Definition COLUMN_LABEL_LENGTH_LENGTH : Z := 2.

(** The getters [PAGE_BIT_OFFSET] and [SUBHEADER_POINTER_LENGTH], and
    [int_length] of [ProcessingSubheader]. *)
Definition PAGE_BIT_OFFSET (this : SAS7BDAT) : Z :=
  if Properties.u64 (properties this) then 32 else 16.

Definition SUBHEADER_POINTER_LENGTH (this : SAS7BDAT) : Z :=
  if Properties.u64 (properties this) then 24 else 12.

Definition int_length (this : SAS7BDAT) : Z :=
  if Properties.u64 (properties this) then 8 else 4.

(** [check_magic_number(header)] *)
Definition check_magic_number (header : list byte) : bool :=
  Buffer_equals MAGIC (slice header 0 (Z.of_nat (List.length MAGIC))).

(** [o[k]] on an object literal with computed numeric keys: of two
    bindings of a key, the later holds. *)
Fixpoint get (o : list (Z * Z)) (k : Z) : option Z :=
  match o with
  | [] => None
  | (k', v) :: rest =>
    match get rest k with
    | Some v' => Some v'
    | None => if k' =? k then Some v else None
    end
  end.

Section WithPlatform.

Variable P : platform.

(** The branch of [_read_bytes] for a reader without a cached page, which
    seeks and reads in the file: it yields the new values of [file_pos]
    and [current_file_position], the two fields it assigns, and the
    object [result].  Every method below runs with a page cached; this
    branch is kept as a parameter. *)
Variable _read_bytes_from_file :
  SAS7BDAT -> list (Z * Z) -> res (Z * Z * (Z -> option (list byte))).

(** [DataSubheader.process_subheader], which decodes a row: it belongs to
    [readline], and [process_page_metadata] never calls it. *)
Variable DataSubheader_process_subheader :
  SAS7BDAT -> Z -> Z -> res SAS7BDAT.

(** [_read_bytes(offsets_to_lengths)]: the object [result] is given by
    [result[offset]]. *)
Definition _read_bytes (this : SAS7BDAT) (offsets_to_lengths : list (Z * Z))
  : res (SAS7BDAT * (Z -> option (list byte))) :=
  match cached_page this with
  | None =>
    let* r := _read_bytes_from_file this offsets_to_lengths in
    Ret (set_current_file_position (snd (fst r))
                                   (set_file_pos (fst (fst r)) this),
         snd r)
  | Some cached_page =>
    Ret (this,
         fun offset =>
           match get offsets_to_lengths offset with
           | Some length => Some (slice cached_page offset (offset + length))
           | None => None
           end)
  end.

(** [_read_val] for the formats ['i'], ['b'] and ['h'], and ['q'] which
    it substitutes: the integer read, which [_read_val] returns as a
    number.  [raw_bytes] is [undefined] when [_read_bytes] returned no
    buffer. *)
Definition read_int (this : SAS7BDAT) (f : fmt)
           (raw_bytes : option (list byte)) (size : Z) : res Z :=
  match raw_bytes with
  | None => Throw TypeError
  | Some raw_bytes =>
    let f :=
        match f with
        | F_i => if u64 this && (size =? 8) then F_q else F_i
        | _ => f
        end in
    let is_big :=
        match endianess this with
        | Some big => true
        | _ => false
        end in
    let buf := slice raw_bytes 0 size in
    match letter_of f with
    | L_i => Num.readInt is_big 4 buf
    | L_b => Num.readInt true 1 buf
    | L_q => Num.readInt is_big 6 buf
    | L_h => Num.readInt is_big 2 buf
    | L_s | L_d => Throw TypeError
    end
  end.

(** [_read_val('s', raw_bytes, size)] *)
Definition read_str (this : SAS7BDAT) (raw_bytes : option (list byte))
           (size : Z) : res string :=
  match raw_bytes with
  | None => Throw TypeError
  | Some raw_bytes =>
    let* val :=
       _read_val P (u64 this) (endianess this) None F_s raw_bytes size in
    match val with
    | VString s => Ret s
    | _ => Throw TypeError
    end
  end.

(** [datetime(this.parent._read_val('d', raw_bytes, 8), 'seconds',
    this.date_formatter)] in [parse]: [this] is the header, which has no
    [date_formatter], so the default formatter is used; a [null] from
    [_read_val] counts as 0. *)
Definition header_date (this : SAS7BDAT) (raw_bytes : option (list byte))
  : res value :=
  match raw_bytes with
  | None => Throw TypeError
  | Some raw_bytes =>
    let* val :=
       _read_val P (u64 this) (endianess this) None F_d raw_bytes 8 in
    match val with
    | VNumber x => Dates.datetime x Dates.seconds None Dates.as_datetime
    | VNull =>
      Dates.datetime (S754_zero false) Dates.seconds None Dates.as_datetime
    | VString _ => Throw TypeError
    end
  end.

(** [buf.toString()] of a buffer that may be [undefined]. *)
Definition toString (buf : option (list byte)) : res string :=
  match buf with
  | None => Throw TypeError
  | Some buf => Ret (Buffer_toString P "utf8" buf)
  end.

(** [Buffer.from('3').equals(buf)] *)
Definition equals_3 (buf : option (list byte)) : res bool :=
  match buf with
  | None => Throw TypeError
  | Some buf => Ret (Buffer_equals [x33] buf)
  end.

(** ** [SASHeader.parse] *)

Definition parse (this : SAS7BDAT) : res SAS7BDAT :=
  let* r := read_file this 0 288 in
  let h := buffer r in
  let this := set_cached_page (Some h) (reader r) in
  if Z.of_nat (List.length h) <? 288
  then Throw (Error_thrown "header too short (not a sas7bdat file?)")
  else if negb (check_magic_number h)
  then Throw (Error_thrown "magic number mismatch")
  else
    let* r := _read_bytes this [(ALIGN_1_OFFSET, ALIGN_1_LENGTH);
                                (ALIGN_2_OFFSET, ALIGN_2_LENGTH)] in
    let this := fst r in
    let align_vals := snd r in
    let* is_u64 := equals_3 (align_vals ALIGN_1_OFFSET) in
    let align2 := if is_u64 then ALIGN_2_VALUE else 0 in
    let properties_u64 :=
        if is_u64 then true else Properties.u64 (properties this) in
    let* is_align1 := equals_3 (align_vals ALIGN_2_OFFSET) in
    let align1 := if is_align1 then ALIGN_1_VALUE else 0 in
    let total_align := align1 + align2 in
    let* r :=
       _read_bytes
         this
         [(ENDIANNESS_OFFSET, ENDIANNESS_LENGTH);
          (PLATFORM_OFFSET, PLATFORM_LENGTH);
          (DATASET_OFFSET, DATASET_LENGTH);
          (FILE_TYPE_OFFSET, FILE_TYPE_LENGTH);
          (DATE_CREATED_OFFSET + align1, DATE_CREATED_LENGTH);
          (DATE_MODIFIED_OFFSET + align1, DATE_MODIFIED_LENGTH);
          (HEADER_SIZE_OFFSET + align1, HEADER_SIZE_LENGTH);
          (PAGE_SIZE_OFFSET + align1, PAGE_SIZE_LENGTH);
          (PAGE_COUNT_OFFSET + align1, PAGE_COUNT_LENGTH + align2);
          (SAS_RELEASE_OFFSET + total_align, SAS_RELEASE_LENGTH);
          (SAS_SERVER_TYPE_OFFSET + total_align, SAS_SERVER_TYPE_LENGTH);
          (OS_VERSION_NUMBER_OFFSET + total_align, OS_VERSION_NUMBER_LENGTH);
          (OS_MAKER_OFFSET + total_align, OS_MAKER_LENGTH);
          (OS_NAME_OFFSET + total_align, OS_NAME_LENGTH)] in
    let this := fst r in
    let vals := snd r in
    let* endianness_byte := toString (vals ENDIANNESS_OFFSET) in
    let properties_endianess :=
        if String.eqb endianness_byte (String "001"%char EmptyString)
        then little else big in
    let this := set_endianess (Some properties_endianess) this in
    let* platform_byte := toString (vals PLATFORM_OFFSET) in
    let properties_platform :=
        if String.eqb platform_byte "1" then unix
        else if String.eqb platform_byte "2" then windows
        else unknown in
    let* properties_name :=
       read_str this (vals DATASET_OFFSET) DATASET_LENGTH in
    let* properties_file_type :=
       read_str this (vals FILE_TYPE_OFFSET) FILE_TYPE_LENGTH in
    let properties_date_created :=
        match header_date this (vals (DATE_CREATED_OFFSET + align1)) with
        | Ret d => Some d
        | Throw _ => Properties.date_created (properties this)
        end in
    let properties_date_modified :=
        match header_date this (vals (DATE_MODIFIED_OFFSET + align1)) with
        | Ret d => Some d
        | Throw _ => Properties.date_modified (properties this)
        end in
    let* properties_header_length :=
       read_int this F_i (vals (HEADER_SIZE_OFFSET + align1))
                HEADER_SIZE_LENGTH in
    let* r := read_file this 0 (properties_header_length - 288) in
    let tmp := buffer r in
    let this := reader r in
    match cached_page this with
    | None => Throw TypeError
    | Some cached_page =>
      let h := cached_page ++ tmp in
      let this := set_cached_page (Some h) this in
      if negb (Z.of_nat (List.length h) =? properties_header_length)
      then Throw (Error_thrown "header too short (not a sas7bdat file?)")
      else
        let* properties_page_length :=
           read_int this F_i (vals (PAGE_SIZE_OFFSET + align1))
                    PAGE_SIZE_LENGTH in
        let* properties_page_count :=
           read_int this F_i (vals (PAGE_COUNT_OFFSET + align1))
                    PAGE_COUNT_LENGTH in
        let* properties_sas_release :=
           read_str this (vals (SAS_RELEASE_OFFSET + total_align))
                    SAS_RELEASE_LENGTH in
        let* properties_server_type :=
           read_str this (vals (SAS_SERVER_TYPE_OFFSET + total_align))
                    SAS_SERVER_TYPE_LENGTH in
        let* properties_os_type :=
           read_str this (vals (OS_VERSION_NUMBER_OFFSET + total_align))
                    OS_VERSION_NUMBER_LENGTH in
        (* [vals[...] !== 0] compares a buffer with a number: it holds *)
        let* properties_os_name :=
           read_str this (vals (OS_NAME_OFFSET + total_align))
                    OS_NAME_LENGTH in
        let this := set_u64 properties_u64 this in
        let p := properties this in
        Ret (set_properties
               (Properties.mkSASProperties
                  properties_u64
                  (Some properties_endianess)
                  (Some properties_platform)
                  (Some properties_name)
                  (Some properties_file_type)
                  properties_date_created
                  properties_date_modified
                  (Some properties_header_length)
                  (Some properties_page_length)
                  (Some properties_page_count)
                  (Some properties_sas_release)
                  (Some properties_server_type)
                  (Some properties_os_type)
                  (Some properties_os_name)
                  (Properties.compression p)
                  (Properties.row_length p)
                  (Properties.row_count p)
                  (Properties.col_count_p1 p)
                  (Properties.col_count_p2 p)
                  (Properties.mix_page_row_count p)
                  (Properties.lcs p)
                  (Properties.lcp p)
                  (Properties.creator p)
                  (Properties.creator_proc p)
                  (Properties.column_count p))
               this)
    end.

(** ** The subheaders: [process_subheader] of each class *)

Definition RowSizeSubheader_process_subheader (this : SAS7BDAT) (offset : Z)
  : res SAS7BDAT :=
  let int_len := int_length this in
  let lcs :=
      offset + (if Properties.u64 (properties this) then 682 else 354) in
  let lcp :=
      offset + (if Properties.u64 (properties this) then 706 else 378) in
  let* r :=
     _read_bytes
       this
       [(offset + ROW_LENGTH_OFFSET_MULTIPLIER * int_len, int_len);
        (offset + ROW_COUNT_OFFSET_MULTIPLIER * int_len, int_len);
        (offset + ROW_COUNT_ON_MIX_PAGE_OFFSET_MULTIPLIER * int_len, int_len);
        (offset + COL_COUNT_P1_MULTIPLIER * int_len, int_len);
        (offset + COL_COUNT_P2_MULTIPLIER * int_len, int_len);
        (lcs, 2);
        (lcp, 2)] in
  let this := fst r in
  let vals := snd r in
  if not_null (Properties.row_length (properties this))
  then Throw (Error_thrown "found more than one row length subheader")
  else if not_null (Properties.row_count (properties this))
  then Throw (Error_thrown "found more than one row count subheader")
  else if not_null (Properties.col_count_p1 (properties this))
  then Throw (Error_thrown "found more than one col count p1 subheader")
  else if not_null (Properties.col_count_p2 (properties this))
  then Throw (Error_thrown "found more than one col count p2 subheader")
  else if not_null (Properties.mix_page_row_count (properties this))
  then Throw (Error_thrown "found more than one mix page row count subheader")
  else
    let* row_length :=
       read_int this F_i
                (vals (offset + ROW_LENGTH_OFFSET_MULTIPLIER * int_len))
                int_len in
    let this :=
        with_properties (Properties.set_row_length (Some row_length)) this in
    let* row_count :=
       read_int this F_i
                (vals (offset + ROW_COUNT_OFFSET_MULTIPLIER * int_len))
                int_len in
    let this :=
        with_properties (Properties.set_row_count (Some row_count)) this in
    let* col_count_p1 :=
       read_int this F_i
                (vals (offset + COL_COUNT_P1_MULTIPLIER * int_len))
                int_len in
    let this :=
        with_properties (Properties.set_col_count_p1 (Some col_count_p1))
                        this in
    let* col_count_p2 :=
       read_int this F_i
                (vals (offset + COL_COUNT_P2_MULTIPLIER * int_len))
                int_len in
    let this :=
        with_properties (Properties.set_col_count_p2 (Some col_count_p2))
                        this in
    let* mix_page_row_count :=
       read_int this F_i
                (vals (offset
                       + ROW_COUNT_ON_MIX_PAGE_OFFSET_MULTIPLIER * int_len))
                int_len in
    let this :=
        with_properties
          (Properties.set_mix_page_row_count (Some mix_page_row_count))
          this in
    let* properties_lcs := read_int this F_h (vals lcs) 2 in
    let this :=
        with_properties (Properties.set_lcs (Some properties_lcs)) this in
    let* properties_lcp := read_int this F_h (vals lcp) 2 in
    Ret (with_properties (Properties.set_lcp (Some properties_lcp)) this).

Definition ColumnSizeSubheader_process_subheader (this : SAS7BDAT)
           (offset : Z) : res SAS7BDAT :=
  let offset := offset + int_length this in
  let* r := _read_bytes this [(offset, int_length this)] in
  let this := fst r in
  let vals := snd r in
  if not_null (Properties.column_count (properties this))
  then Throw (Error_thrown "found more than one column count subheader")
  else
    let* column_count :=
       read_int this F_i (vals offset) (int_length this) in
    Ret (with_properties (Properties.set_column_count (Some column_count))
                         this).

(** What [ColumnTextSubheader] does for the first text block: the
    compression literal found in the block, and the creator strings. *)
Definition ColumnTextSubheader_first_block (this : SAS7BDAT) (offset : Z)
           (column_name : list byte) : res SAS7BDAT :=
  let compression_literal :=
      find (fun cl => Buffer_includes column_name (literal_bytes cl))
           COMPRESSION_LITERALS in
  let this :=
      with_properties (Properties.set_compression compression_literal)
                      this in
  let offset := offset - int_length this in
  let base := if Properties.u64 (properties this) then 20 else 16 in
  let* r := _read_bytes this [(offset + base, 8)] in
  let this := fst r in
  let vals := snd r in
  let* s := read_str this (vals (offset + base)) 8 in
  let compression_literal := String_trim P s in
  if String.eqb compression_literal "" then
    let this := with_properties (Properties.set_lcs (Some 0)) this in
    let lcp := default 0 (Properties.lcp (properties this)) in
    let* r := _read_bytes this [(offset + 16 + base, lcp)] in
    let this := fst r in
    let vals := snd r in
    let* creatorproc := read_str this (vals (offset + 16 + base)) lcp in
    Ret (with_properties (Properties.set_creator_proc (Some creatorproc))
                         this)
  else if String.eqb compression_literal "SASYZCRL" then
    let lcp := default 0 (Properties.lcp (properties this)) in
    let* r := _read_bytes this [(offset + 24 + base, lcp)] in
    let this := fst r in
    let vals := snd r in
    let* creatorproc := read_str this (vals (offset + 24 + base)) lcp in
    Ret (with_properties (Properties.set_creator_proc (Some creatorproc))
                         this)
  else if 0 <? default 0 (Properties.lcs (properties this)) then
    let this := with_properties (Properties.set_lcp (Some 0)) this in
    let lcs := default 0 (Properties.lcs (properties this)) in
    let* r := _read_bytes this [(offset + base, lcs)] in
    let this := fst r in
    let vals := snd r in
    let* creator := read_str this (vals (offset + base)) lcs in
    Ret (with_properties (Properties.set_creator (Some creator)) this)
  else Ret this.

Definition ColumnTextSubheader_process_subheader (this : SAS7BDAT)
           (offset : Z) : res SAS7BDAT :=
  let offset := offset + int_length this in
  let* r := _read_bytes this [(offset, TEXT_BLOCK_SIZE_LENGTH)] in
  let this := fst r in
  let vals := snd r in
  let* text_block_size :=
     read_int this F_h (vals offset) TEXT_BLOCK_SIZE_LENGTH in
  let* r := _read_bytes this [(offset, text_block_size)] in
  let this := fst r in
  let vals := snd r in
  let this :=
      set_column_names_strings (column_names_strings this ++ [vals offset])
                               this in
  if (List.length (column_names_strings this) =? 1)%nat then
    match column_names_strings this !! 0%nat with
    | Some (Some column_name) =>
      ColumnTextSubheader_first_block this offset column_name
    | _ => Throw TypeError
    end
  else Ret this.

(** [arr[idx]] for a number [idx]. *)
Definition at_index {A : Type} (arr : list A) (idx : Z) : option A :=
  if idx <? 0 then None else arr !! Z.to_nat idx.

(** [column_names_strings[idx].slice(start, end)] *)
Definition slice_text (this : SAS7BDAT) (idx start end_ : Z)
  : res (list byte) :=
  match at_index (column_names_strings this) idx with
  | Some (Some text) => Ret (slice text start end_)
  | _ => Throw TypeError
  end.

(** The loop of [ColumnNameSubheader]: [n] iterations are left, the loop
    counter is [i]. *)
Fixpoint ColumnNameSubheader_loop (n : nat) (i : Z) (offset : Z)
         (this : SAS7BDAT) : res SAS7BDAT :=
  match n with
  | O => Ret this
  | S n' =>
    let text_subheader :=
        offset + COLUMN_NAME_POINTER_LENGTH * (i + 1)
        + COLUMN_NAME_TEXT_SUBHEADER_OFFSET in
    let col_name_offset :=
        offset + COLUMN_NAME_POINTER_LENGTH * (i + 1)
        + COLUMN_NAME_OFFSET_OFFSET in
    let col_name_length :=
        offset + COLUMN_NAME_POINTER_LENGTH * (i + 1)
        + COLUMN_NAME_LENGTH_OFFSET in
    let* r :=
       _read_bytes
         this
         [(text_subheader, COLUMN_NAME_TEXT_SUBHEADER_LENGTH);
          (col_name_offset, COLUMN_NAME_OFFSET_LENGTH);
          (col_name_length, COLUMN_NAME_LENGTH_LENGTH)] in
    let this := fst r in
    let vals := snd r in
    let* idx :=
       read_int this F_h (vals text_subheader)
                COLUMN_NAME_TEXT_SUBHEADER_LENGTH in
    let* col_offset :=
       read_int this F_h (vals col_name_offset) COLUMN_NAME_OFFSET_LENGTH in
    let* col_len :=
       read_int this F_h (vals col_name_length) COLUMN_NAME_LENGTH_LENGTH in
    let* column_name :=
       slice_text this idx col_offset (col_offset + col_len) in
    ColumnNameSubheader_loop
      n' (i + 1) offset
      (set_column_names (column_names this ++ [column_name]) this)
  end.

Definition ColumnNameSubheader_process_subheader (this : SAS7BDAT)
           (offset length : Z) : res SAS7BDAT :=
  let offset := offset + int_length this in
  let column_name_pointers_count :=
      (length - 2 * int_length this - 12) / 8 in
  ColumnNameSubheader_loop (Z.to_nat column_name_pointers_count) 0 offset
                           this.

Fixpoint ColumnAttributesSubheader_loop (n : nat) (i : Z) (offset : Z)
         (this : SAS7BDAT) : res SAS7BDAT :=
  match n with
  | O => Ret this
  | S n' =>
    let int_len := int_length this in
    let col_data_offset :=
        offset + int_len + COLUMN_DATA_OFFSET_OFFSET + i * (int_len + 8) in
    let col_data_len :=
        offset + 2 * int_len + COLUMN_DATA_LENGTH_OFFSET
        + i * (int_len + 8) in
    let col_types :=
        offset + 2 * int_len + COLUMN_TYPE_OFFSET + i * (int_len + 8) in
    let* r :=
       _read_bytes this [(col_data_offset, int_len);
                         (col_data_len, COLUMN_DATA_LENGTH_LENGTH);
                         (col_types, COLUMN_TYPE_LENGTH)] in
    let this := fst r in
    let vals := snd r in
    let* data_offset := read_int this F_i (vals col_data_offset) int_len in
    let this :=
        set_column_data_offsets (column_data_offsets this ++ [data_offset])
                                this in
    let* data_length :=
       read_int this F_i (vals col_data_len) COLUMN_DATA_LENGTH_LENGTH in
    let this :=
        set_column_data_lengths (column_data_lengths this ++ [data_length])
                                this in
    let* ctype := read_int this F_b (vals col_types) COLUMN_TYPE_LENGTH in
    let this :=
        set_column_types
          (column_types this
           ++ [if ctype =? 1 then Reader.number else Reader.string_])
          this in
    ColumnAttributesSubheader_loop n' (i + 1) offset this
  end.

Definition ColumnAttributesSubheader_process_subheader (this : SAS7BDAT)
           (offset length : Z) : res SAS7BDAT :=
  let int_len := int_length this in
  let column_attributes_vectors_count :=
      (length - 2 * int_len - 12) / (int_len + 8) in
  ColumnAttributesSubheader_loop (Z.to_nat column_attributes_vectors_count)
                                 0 offset this.

Definition FormatAndLabelSubheader_process_subheader (this : SAS7BDAT)
           (offset : Z) : res SAS7BDAT :=
  let int_len := int_length this in
  let text_subheader_format :=
      offset + COLUMN_FORMAT_TEXT_SUBHEADER_INDEX_OFFSET + 3 * int_len in
  let col_format_offset :=
      offset + COLUMN_FORMAT_OFFSET_OFFSET + 3 * int_len in
  let col_format_len :=
      offset + COLUMN_FORMAT_LENGTH_OFFSET + 3 * int_len in
  let text_subheader_label :=
      offset + COLUMN_LABEL_TEXT_SUBHEADER_INDEX_OFFSET + 3 * int_len in
  let col_label_offset :=
      offset + COLUMN_LABEL_OFFSET_OFFSET + 3 * int_len in
  let col_label_len :=
      offset + COLUMN_LABEL_LENGTH_OFFSET + 3 * int_len in
  let* r :=
     _read_bytes
       this
       [(text_subheader_format, COLUMN_FORMAT_TEXT_SUBHEADER_INDEX_LENGTH);
        (col_format_offset, COLUMN_FORMAT_OFFSET_LENGTH);
        (col_format_len, COLUMN_FORMAT_LENGTH_LENGTH);
        (text_subheader_label, COLUMN_LABEL_TEXT_SUBHEADER_INDEX_LENGTH);
        (col_label_offset, COLUMN_LABEL_OFFSET_LENGTH);
        (col_label_len, COLUMN_LABEL_LENGTH_LENGTH)] in
  let this := fst r in
  let vals := snd r in
  let last_text := Z.of_nat (List.length (column_names_strings this)) - 1 in
  let* format_idx_read :=
     read_int this F_h (vals text_subheader_format)
              COLUMN_FORMAT_TEXT_SUBHEADER_INDEX_LENGTH in
  let format_idx := Z.min format_idx_read last_text in
  let* format_start :=
     read_int this F_h (vals col_format_offset)
              COLUMN_FORMAT_OFFSET_LENGTH in
  let* format_len :=
     read_int this F_h (vals col_format_len) COLUMN_FORMAT_LENGTH_LENGTH in
  let* label_idx_read :=
     read_int this F_h (vals text_subheader_label)
              COLUMN_LABEL_TEXT_SUBHEADER_INDEX_LENGTH in
  let label_idx := Z.min label_idx_read last_text in
  let* label_start :=
     read_int this F_h (vals col_label_offset) COLUMN_LABEL_OFFSET_LENGTH in
  let* label_len :=
     read_int this F_h (vals col_label_len) COLUMN_LABEL_LENGTH_LENGTH in
  let* column_label :=
     slice_text this label_idx label_start (label_start + label_len) in
  let* column_format :=
     slice_text this format_idx format_start (format_start + format_len) in
  let current_column_number := List.length (columns this) in
  Ret (set_columns
         (columns this
          ++ [mkColumn (Z.of_nat current_column_number)
                       (column_names this !! current_column_number)
                       column_label
                       (Buffer_toString P "utf8" column_format)
                       (column_types this !! current_column_number)
                       (column_data_lengths this !! current_column_number)])
         this).

(** [new Cls(parent).process_subheader(offset, length)] for the class
    that [SUBHEADER_INDEX_TO_CLASS] gives for a subheader index;
    [SubheaderCountsSubheader] and [ColumnListSubheader] do nothing. *)
Definition process_subheader (index : subheader_index) (this : SAS7BDAT)
           (offset length : Z) : res SAS7BDAT :=
  match index with
  | ROW_SIZE_SUBHEADER_INDEX =>
    RowSizeSubheader_process_subheader this offset
  | COLUMN_SIZE_SUBHEADER_INDEX =>
    ColumnSizeSubheader_process_subheader this offset
  | SUBHEADER_COUNTS_SUBHEADER_INDEX => Ret this
  | COLUMN_TEXT_SUBHEADER_INDEX =>
    ColumnTextSubheader_process_subheader this offset
  | COLUMN_NAME_SUBHEADER_INDEX =>
    ColumnNameSubheader_process_subheader this offset length
  | COLUMN_ATTRIBUTES_SUBHEADER_INDEX =>
    ColumnAttributesSubheader_process_subheader this offset length
  | FORMAT_AND_LABEL_SUBHEADER_INDEX =>
    FormatAndLabelSubheader_process_subheader this offset
  | COLUMN_LIST_SUBHEADER_INDEX => Ret this
  | DATA_SUBHEADER_INDEX =>
    DataSubheader_process_subheader this offset length
  end.

(** ** Pages *)

Definition read_page_header (this : SAS7BDAT) : res SAS7BDAT :=
  let bit_offset := PAGE_BIT_OFFSET this in
  let* r :=
     _read_bytes this
                 [(PAGE_TYPE_OFFSET + bit_offset, PAGE_TYPE_LENGTH);
                  (BLOCK_COUNT_OFFSET + bit_offset, BLOCK_COUNT_LENGTH);
                  (SUBHEADER_COUNT_OFFSET + bit_offset,
                   SUBHEADER_COUNT_LENGTH)] in
  let this := fst r in
  let vals := snd r in
  let* page_type :=
     read_int this F_h (vals (PAGE_TYPE_OFFSET + bit_offset))
              PAGE_TYPE_LENGTH in
  let this := set_current_page_type (Some page_type) this in
  let* block_count :=
     read_int this F_h (vals (BLOCK_COUNT_OFFSET + bit_offset))
              BLOCK_COUNT_LENGTH in
  let this := set_current_page_block_count (Some block_count) this in
  let* subheaders_count :=
     read_int this F_h (vals (SUBHEADER_COUNT_OFFSET + bit_offset))
              SUBHEADER_COUNT_LENGTH in
  Ret (set_current_page_subheaders_count (Some subheaders_count) this).

Definition read_subheader_signature (this : SAS7BDAT) (offset : Z)
  : res (SAS7BDAT * option (list byte)) :=
  let length := if Properties.u64 (properties this) then 8 else 4 in
  let* r := _read_bytes this [(offset, length)] in
  Ret (fst r, snd r offset).

Definition get_subheader_class (this : SAS7BDAT)
           (signature : option (list byte)) (compression type : Z)
  : res (option subheader_index) :=
  match signature with
  | None => Throw TypeError
  | Some signature =>
    let index := lookup_key SUBHEADER_SIGNATURE_TO_INDEX (hex signature) in
    if not_null (Properties.compression (properties this))
       && negb (not_null index)
       && ((compression =? COMPRESSED_SUBHEADER_ID) || (compression =? 0))
       && (type =? COMPRESSED_SUBHEADER_TYPE)
    then Ret (Some DATA_SUBHEADER_INDEX)
    else Ret index
  end.

Definition process_subheader_pointers (this : SAS7BDAT)
           (offset subheader_pointer_index : Z)
  : res (SAS7BDAT * Reader.SubheaderPointer) :=
  let length := if Properties.u64 (properties this) then 8 else 4 in
  let subheader_pointer_length := SUBHEADER_POINTER_LENGTH this in
  let total_offset :=
      offset + subheader_pointer_length * subheader_pointer_index in
  let* r :=
     _read_bytes this [(total_offset, length);
                       (total_offset + length, length);
                       (total_offset + 2 * length, 1);
                       (total_offset + 2 * length + 1, 1)] in
  let this := fst r in
  let vals := snd r in
  let* subheader_offset := read_int this F_i (vals total_offset) length in
  let* subheader_length :=
     read_int this F_i (vals (total_offset + length)) length in
  let* subheader_compression :=
     read_int this F_b (vals (total_offset + 2 * length)) 1 in
  let* subheader_type :=
     read_int this F_b (vals (total_offset + 2 * length + 1)) 1 in
  Ret (this,
       Reader.mkSubheaderPointer subheader_offset subheader_length
                                 subheader_compression subheader_type).

(** The body of the loop of [process_page_metadata], for the pointer
    [i]. *)
Definition process_pointer (bit_offset : Z) (this : SAS7BDAT) (i : Z)
  : res SAS7BDAT :=
  let* r :=
     process_subheader_pointers this (SUBHEADER_POINTERS_OFFSET + bit_offset)
                                i in
  let this := fst r in
  let pointer := snd r in
  if Reader.ptr_length pointer =? 0 then Ret this
  else if negb (Reader.ptr_compression pointer =? TRUNCATED_SUBHEADER_ID)
  then
    let* r := read_subheader_signature this (Reader.ptr_offset pointer) in
    let this := fst r in
    let subheader_signature := snd r in
    let* subheader_index :=
       get_subheader_class this subheader_signature
                           (Reader.ptr_compression pointer)
                           (Reader.ptr_type pointer) in
    match subheader_index with
    | Some DATA_SUBHEADER_INDEX =>
      Ret (set_current_page_data_subheader_pointers
             (current_page_data_subheader_pointers this ++ [pointer]) this)
    | Some index =>
      process_subheader index this (Reader.ptr_offset pointer)
                        (Reader.ptr_length pointer)
    | None => Ret this
    end
  else Ret this.

(** The loop of [process_page_metadata]; no subheader assigns
    [current_page_subheaders_count], so the bound is that at the
    start. *)
Fixpoint process_pointers (bit_offset : Z) (n : nat) (i : Z)
         (this : SAS7BDAT) : res SAS7BDAT :=
  match n with
  | O => Ret this
  | S n' =>
    let* this := process_pointer bit_offset this i in
    process_pointers bit_offset n' (i + 1) this
  end.

Definition process_page_metadata (this : SAS7BDAT) : res SAS7BDAT :=
  let bit_offset := PAGE_BIT_OFFSET this in
  process_pointers
    bit_offset
    (Z.to_nat (default 0 (current_page_subheaders_count this))) 0 this.

(** [arr.includes(x)] for a page type that may be [null]. *)
Definition includes_type (arr : list Z) (x : option Z) : bool :=
  match x with
  | Some x => existsb (Z.eqb x) arr
  | None => false
  end.

Definition process_page_meta (this : SAS7BDAT) : res (SAS7BDAT * bool) :=
  let* this := read_page_header this in
  let* this :=
     if includes_type PAGE_META_MIX_AMD (current_page_type this)
     then process_page_metadata this
     else Ret this in
  Ret (this,
       includes_type PAGE_MIX_DATA_TYPE (current_page_type this)
       || (0 <? Z.of_nat
                  (List.length (current_page_data_subheader_pointers this)))).

(** [parse_metadata]: the [while] loop, with [n] iterations allowed;
    [None] when they do not suffice. *)
Fixpoint parse_metadata_loop (n : nat) (this : SAS7BDAT)
  : option (res SAS7BDAT) :=
  match n with
  | O => None
  | S n' =>
    let page_length :=
        default 0 (Properties.page_length (properties this)) in
    match read_file this 0 page_length with
    | Throw e => Some (Throw e)
    | Ret r =>
      let this := set_cached_page (Some (buffer r)) (reader r) in
      if Z.of_nat (List.length (buffer r)) <=? 0 then Some (Ret this)
      else if negb (Z.of_nat (List.length (buffer r)) =? page_length)
      then Some (Throw (Error_thrown
                          "Failed to read a meta data page from file"))
      else
        match process_page_meta this with
        | Throw e => Some (Throw e)
        | Ret (this, done) =>
          if done then Some (Ret this) else parse_metadata_loop n' this
        end
    end
  end.

(** The bytes of the file from [file_pos] on: each iteration that does
    not end the loop consumes at least one of them. *)
Definition bytes_left (this : SAS7BDAT) : nat :=
  match _file this with
  | None => 0
  | Some file => List.length file - Z.to_nat (file_pos this)
  end.

Definition parse_metadata (this : SAS7BDAT) : option (res SAS7BDAT) :=
  parse_metadata_loop (S (bytes_left this)) this.

(** [SAS7BDAT._read_next_page], which calls itself on a page of a type
    it does not know; [n] calls are allowed. *)
Fixpoint _read_next_page_loop (n : nat) (this : SAS7BDAT)
  : option (res SAS7BDAT) :=
  match n with
  | O => None
  | S n' =>
    let this := set_current_page_data_subheader_pointers [] this in
    let page_length :=
        default 0 (Properties.page_length (properties this)) in
    match read_file this 0 page_length with
    | Throw e => Some (Throw e)
    | Ret r =>
      let this := set_cached_page (Some (buffer r)) (reader r) in
      if bytesRead r <=? 0 then Some (Ret this)
      else if negb (Z.of_nat (List.length (buffer r)) =? page_length)
      then Some (Throw (Error_thrown
                          ("failed to read complete page from file (read "
                             ++ Number_toString
                                  (Z.of_nat (List.length (buffer r)))
                             ++ " of " ++ Number_toString page_length
                             ++ " bytes)")%string))
      else
        match
          (let* this := read_page_header this in
           if includes_type [PAGE_META_TYPE] (current_page_type this)
           then process_page_metadata this
           else Ret this)
        with
        | Throw e => Some (Throw e)
        | Ret this =>
          let types := PAGE_MIX_TYPE ++ [PAGE_META_TYPE; PAGE_DATA_TYPE] in
          if negb (includes_type types (current_page_type this))
          then _read_next_page_loop n' this
          else Some (Ret this)
        end
    end
  end.

Definition _read_next_page (this : SAS7BDAT) : option (res SAS7BDAT) :=
  _read_next_page_loop (S (bytes_left this)) this.

End WithPlatform.

End Header.

(** ** Vocabulary for the header and the metadata *)

(** What the subheaders leave alone: the file and the position in it, the
    cached page and what [read_page_header] read from it, and the fields
    of [properties] that [parse] assigns. *)
Definition untouched (a b : Header.SAS7BDAT) : Prop :=
  Header._file b = Header._file a
  /\ Header.file_pos b = Header.file_pos a
  /\ Header.current_file_position b = Header.current_file_position a
  /\ Header.cached_page b = Header.cached_page a
  /\ Header.endianess b = Header.endianess a
  /\ Header.u64 b = Header.u64 a
  /\ Header.current_page_type b = Header.current_page_type a
  /\ Header.current_page_block_count b = Header.current_page_block_count a
  /\ Header.current_page_subheaders_count b
     = Header.current_page_subheaders_count a
  /\ Header.Properties.u64 (Header.properties b)
     = Header.Properties.u64 (Header.properties a)
  /\ Header.Properties.endianess (Header.properties b)
     = Header.Properties.endianess (Header.properties a)
  /\ Header.Properties.header_length (Header.properties b)
     = Header.Properties.header_length (Header.properties a)
  /\ Header.Properties.page_length (Header.properties b)
     = Header.Properties.page_length (Header.properties a)
  /\ Header.Properties.page_count (Header.properties b)
     = Header.Properties.page_count (Header.properties a).

(** The object [result] of [_read_bytes] when the page is cached. *)
Definition cached_vals (page : list byte) (o : list (Z * Z))
  : Z -> option (list byte) :=
  fun offset =>
    match Header.get o offset with
    | Some length => Some (slice page offset (offset + length))
    | None => None
    end.

(** The integer formats of [_read_val]. *)
Definition is_integer_format (f : ReadVal.fmt) : bool :=
  match f with
  | ReadVal.F_i | ReadVal.F_b | ReadVal.F_q | ReadVal.F_h => true
  | _ => false
  end.

(** A pointer that [process_page_metadata] takes for a data subheader:
    it has a length, its compression is 4 or 0, and its type is 1. *)
Definition data_pointer (p : Reader.SubheaderPointer) : Prop :=
  Reader.ptr_length p <> 0
  /\ (Reader.ptr_compression p = 4 \/ Reader.ptr_compression p = 0)
  /\ Reader.ptr_type p = 1.

(** Once a text block has been read, no subheader assigns
    [properties.compression] any more. *)
Definition settled (a b : Header.SAS7BDAT) : Prop :=
  Header.column_names_strings a <> [] ->
  Header.Properties.compression (Header.properties b)
  = Header.Properties.compression (Header.properties a)
  /\ Header.column_names_strings b <> [].

(** The effect common to the subheaders other than the data subheader. *)
Definition frame (a b : Header.SAS7BDAT) : Prop :=
  untouched a b
  /\ Header.current_page_data_subheader_pointers b
     = Header.current_page_data_subheader_pointers a
  /\ settled a b.

(** The page types on which [_read_next_page] stops. *)
Definition row_bearing_types : list Z :=
  Header.PAGE_MIX_TYPE ++ [Header.PAGE_META_TYPE; Header.PAGE_DATA_TYPE].

(** ** An example file for the header and the metadata *)

(** The header of the example file: 288 bytes, 32-bit, little-endian,
    pages of 1024 bytes. *)
Definition example_header : list byte :=
  repeat x00 12
  ++ [xc2; xea; x81; x60; xb3; x14; x11; xcf; xbd; x92; x08; x00; x09; xc7;
     x31; x8c; x18; x1f; x10; x11; x22; x00; x00; x22; x00; x01; x00; x31]
  ++ repeat x00 52
  ++ [x45; x58; x41; x4d; x50; x4c; x45]
  ++ repeat x20 57
  ++ [x44; x41; x54; x41]
  ++ repeat x20 4
  ++ [x00; x00; x00; x20; xf6; x36; xdc; x41; x00; x00; x00; x20; xf6; x36;
     xdc; x41]
  ++ repeat x00 16
  ++ [x20; x01; x00; x00; x00; x04; x00; x00; x02]
  ++ repeat x00 11
  ++ [x39; x2e; x30; x34; x30; x31; x4d; x30; x58; x36; x34; x5f; x37; x50;
     x52; x4f]
  ++ repeat x20 8
  ++ repeat x00 32
  ++ [x4c; x69; x6e; x75; x78]
  ++ repeat x20 11.

(** Its first page, a META page with seven subheaders: row size, column
    size, column text, column name, column attributes, and format and
    label for each of the two columns. *)
Definition example_meta_page : list byte :=
  repeat x00 18
  ++ [x07; x00; x07; x00; x00; x00; x6c; x00; x00; x00; xe0; x01]
  ++ repeat x00 6
  ++ [x4c; x02; x00; x00; x0c]
  ++ repeat x00 7
  ++ [x58; x02; x00; x00; x28]
  ++ repeat x00 7
  ++ [x80; x02; x00; x00; x24]
  ++ repeat x00 7
  ++ [xa4; x02; x00; x00; x2c]
  ++ repeat x00 7
  ++ [xd0; x02; x00; x00; x34]
  ++ repeat x00 7
  ++ [x04; x03; x00; x00; x34]
  ++ repeat x00 7
  ++ repeat xf7 4
  ++ repeat x00 16
  ++ [x0a; x00; x00; x00; x02]
  ++ repeat x00 11
  ++ [x02]
  ++ repeat x00 443
  ++ repeat xf6 4
  ++ [x02]
  ++ repeat x00 7
  ++ [xfd; xff; xff; xff; x24]
  ++ repeat x00 11
  ++ repeat x20 8
  ++ repeat x00 4
  ++ [x78; x73; x00; x00; x44; x41; x54; x45]
  ++ repeat x00 4
  ++ repeat xff 4
  ++ repeat x00 10
  ++ [x18; x00; x01]
  ++ repeat x00 5
  ++ [x19; x00; x01]
  ++ repeat x00 11
  ++ [xfc; xff; xff; xff]
  ++ repeat x00 12
  ++ [x08]
  ++ repeat x00 5
  ++ [x01; x00; x08; x00; x00; x00; x02]
  ++ repeat x00 5
  ++ [x02]
  ++ repeat x00 9
  ++ [xfe; xfb; xff; xff]
  ++ repeat x00 32
  ++ [x1c; x00; x04]
  ++ repeat x00 13
  ++ [xfe; xfb; xff; xff]
  ++ repeat x00 248.

(** Its second page, a DATA page with the two rows. *)
Definition example_data_page : list byte :=
  repeat x00 17
  ++ [x01; x02]
  ++ repeat x00 11
  ++ [xf8; x7f; x61; x62; x00; x00; x00; x20; xf6; x36; xdc; x41; x63; x64]
  ++ repeat x00 980.

Definition example_file : list byte :=
  example_header ++ example_meta_page ++ example_data_page.

(** The collaborators that the methods of the header never call on a
    cached page: reading in the file needs [seek_file], and the data
    subheader is left to [readline]. *)
Definition no_read_from_file (this : Header.SAS7BDAT) (o : list (Z * Z))
  : res (Z * Z * (Z -> option (list byte))) :=
  Throw Error_seek_not_implemented.

Definition no_data_subheader (this : Header.SAS7BDAT) (offset length : Z)
  : res Header.SAS7BDAT :=
  Throw NotImplementedError.

(** The methods on the example platform. *)
Definition example_parse : Header.SAS7BDAT -> res Header.SAS7BDAT :=
  Header.parse ascii_platform no_read_from_file.

Definition example_parse_metadata
  : Header.SAS7BDAT -> option (res Header.SAS7BDAT) :=
  Header.parse_metadata ascii_platform no_read_from_file no_data_subheader.

Definition example_read_next_page
  : Header.SAS7BDAT -> option (res Header.SAS7BDAT) :=
  Header._read_next_page ascii_platform no_read_from_file no_data_subheader.

(** A reader on the example file, as the constructor builds it; once
    [parse] has run; and on the META page, cached by [parse_metadata],
    before its subheaders are processed. *)
Definition example_new_reader : Header.SAS7BDAT :=
  Header.new_SAS7BDAT (Some example_file).

Definition example_parsed_reader : Header.SAS7BDAT :=
  match example_parse example_new_reader with
  | Ret this => this
  | Throw _ => example_new_reader
  end.

Definition example_on_meta_page : Header.SAS7BDAT :=
  Header.set_cached_page
    (Some example_meta_page)
    (Header.set_file_pos 1312 example_parsed_reader).

(** The same with the text block of the page read, with the page header
    read, and at the end of the file. *)
Definition example_with_text : Header.SAS7BDAT :=
  Header.set_column_names_strings
    [Some (slice example_meta_page 604 640)] example_on_meta_page.

Definition example_with_page_header : Header.SAS7BDAT :=
  Header.set_current_page_subheaders_count (Some 7) example_on_meta_page.

Definition example_at_end : Header.SAS7BDAT :=
  Header.set_file_pos 2336 example_parsed_reader.

(* ===================================================================== *)
(** * Properties of the RLE decompressor *)
(* ===================================================================== *)

Lemma join_app (xs ys : list (list byte)) :
  RLE.join (xs ++ ys) = RLE.join xs ++ RLE.join ys.
Proof. unfold RLE.join. apply concat_app. Qed.

Lemma join_repeat_singleton (v : byte) (n : nat) :
  RLE.join (repeat [v] n) = repeat v n.
Proof.
  unfold RLE.join. induction n as [|n IH]; simpl; [reflexivity|].
  now rewrite IH.
Qed.

Lemma to_chr_default (x : option byte) : RLE.to_chr x = [default x00 x].
Proof. now destruct x. Qed.

Lemma In_fill_nibbles (hi : Z) :
  In hi fill_nibbles -> hi = 0xC0 \/ hi = 0xD0 \/ hi = 0xE0 \/ hi = 0xF0.
Proof. simpl. intuition. Qed.

(** A fill record in closed form. *)
Lemma record_fill (page : list byte) (offset length : Z) (st : RLE.state)
      (cb : byte) :
  index page (offset + RLE.i st) = Some cb ->
  In (control_nibble cb) fill_nibbles ->
  RLE.record page offset length st = Ret (fill_step page offset st cb).
Proof.
  intros Hcb Hin. apply In_fill_nibbles in Hin.
  unfold RLE.record, RLE.branch, fill_step. rewrite Hcb.
  cbn [RLE.to_ord bind].
  unfold control_nibble, low_nibble in *.
  destruct Hin as [H | [H | [H | H]]]; rewrite H;
    cbn -[Z.land Z.add Z.to_nat Z.max];
    unfold fill_byte, fill_count, fill_advance;
    cbn -[Z.land Z.add Z.to_nat Z.max];
    rewrite ?to_chr_default; f_equal; f_equal; lia.
Qed.

(** C1, amended to the code: at a control byte with high nibble 0xC0 the
    record emits [lo + 3] copies of the byte that follows it (NUL when that
    position lies outside the page) and moves the cursor by 2; with high
    nibble 0xD0, 0xE0 or 0xF0 it emits [lo + 2] copies of 0x40, 0x20 or
    0x00 and moves the cursor by 1. *)
Theorem rle_fill_records (page : list byte) (offset length : Z)
        (st : RLE.state) (cb : byte) :
  index page (offset + RLE.i st) = Some cb ->
  In (control_nibble cb) fill_nibbles ->
  exists st',
    RLE.record page offset length st = Ret st'
    /\ RLE.join (RLE.result st')
       = RLE.join (RLE.result st)
         ++ repeat (fill_byte page (offset + RLE.i st) (control_nibble cb))
                   (Z.to_nat (fill_count (control_nibble cb) (low_nibble cb)))
    /\ RLE.i st' = RLE.i st + fill_advance (control_nibble cb).
Proof.
  intros Hcb Hin. exists (fill_step page offset st cb).
  split; [now apply record_fill|]. split; [|reflexivity].
  unfold fill_step. cbn [RLE.result].
  now rewrite join_app, join_repeat_singleton.
Qed.

Lemma rle_fill_records_witness :
  exists st',
    RLE.record [xc4; x58] 0 2 RLE.init = Ret st'
    /\ RLE.join (RLE.result st') = [] ++ repeat x58 7
    /\ RLE.i st' = 0 + 2.
Proof.
  apply (rle_fill_records [xc4; x58] 0 2 RLE.init xc4).
  - reflexivity.
  - simpl. left. reflexivity.
Defined.

(** C1 as stated fails on a fill record: the space fill 0xE0
    leaves the cursor one byte further, where the advance column says two. *)
Lemma rle_fill_advance_counterexample :
  RLE.record [xe0; x41] 0 2 RLE.init
  = Ret (RLE.mkState 1 [[x20]; [x20]] 2)
  /\ RLE.i (RLE.mkState 1 [[x20]; [x20]] 2)
     <> RLE.i RLE.init + fill_advance_stated (control_nibble xe0).
Proof. split; [reflexivity | vm_compute; discriminate]. Qed.

(** ** The loop, one iteration at a time *)

Lemma loop_at_cursor (page : list byte) (offset length : Z) (n : nat)
      (j : Z) (st : RLE.state) :
  RLE.i st = j ->
  RLE.loop page offset length (S n) j st
  = (let* st' := RLE.record page offset length st in
     RLE.loop page offset length n (j + 1) st').
Proof. intros H. simpl. apply Z.eqb_eq in H. now rewrite H. Qed.

Lemma loop_skip (page : list byte) (offset length : Z) (n : nat)
      (j : Z) (st : RLE.state) :
  RLE.i st <> j ->
  RLE.loop page offset length (S n) j st
  = RLE.loop page offset length n (j + 1) st.
Proof. intros H. simpl. apply Z.eqb_neq in H. now rewrite H. Qed.


(** Reading inside a stream that sits at [offset = length pre] of a page. *)
Lemma index_in_stream (pre l post : list byte) (k : Z) (b : byte) :
  index l k = Some b ->
  index (pre ++ l ++ post) (Z.of_nat (List.length pre) + k) = Some b.
Proof.
  unfold index. destruct (k <? 0) eqn:Hk; [discriminate|].
  apply Z.ltb_ge in Hk. intros H.
  destruct (Z.of_nat (List.length pre) + k <? 0) eqn:Hk';
    [apply Z.ltb_lt in Hk'; lia|].
  replace (Z.to_nat (Z.of_nat (List.length pre) + k))
    with (List.length pre + Z.to_nat k)%nat by lia.
  rewrite nth_error_app2 by lia.
  replace (List.length pre + Z.to_nat k - List.length pre)%nat
    with (Z.to_nat k) by lia.
  rewrite nth_error_app1; [assumption|].
  apply nth_error_Some. congruence.
Qed.

(** C2, amended to the code: the three records of the scenario, laid out
    back to back as the four bytes [0xE0, 0xC0, 'X', 0xF0] anywhere in a
    page, decompress with result_length 7 to exactly
    [0x20 0x20 'X' 'X' 'X' 0x00 0x00]. *)
Theorem rle_scenario_row (pre post : list byte) :
  RLE.decompress_row (Z.of_nat (List.length pre)) 4 7
                     (pre ++ scenario_stream ++ post)
  = Ret scenario_row.
Proof.
  set (page := pre ++ scenario_stream ++ post).
  set (offset := Z.of_nat (List.length pre)).
  assert (Hat : forall k b, index scenario_stream k = Some b ->
                            index page (offset + k) = Some b)
    by (intros k b; apply index_in_stream).
  assert (Hloop :
    RLE.loop page offset 4 4%nat 0 RLE.init
    = Ret (RLE.mkState 4
             [[x20]; [x20]; [x58]; [x58]; [x58]; [x00]; [x00]] 7)).
  { (* j = 0: fill space *)
    rewrite loop_at_cursor by reflexivity.
    rewrite (record_fill page offset 4 _ xe0)
      by (first [apply Hat; reflexivity | vm_compute; tauto]).
    replace (fill_step page offset RLE.init xe0)
      with (RLE.mkState 1 [[x20]; [x20]] 2) by reflexivity.
    cbn [bind].
    (* j = 1: repeat 'X' *)
    rewrite loop_at_cursor by reflexivity.
    rewrite (record_fill page offset 4 _ xc0)
      by (first [apply Hat; reflexivity | vm_compute; tauto]).
    replace (fill_step page offset (RLE.mkState 1 [[x20]; [x20]] 2) xc0)
      with (RLE.mkState 3 [[x20]; [x20]; [x58]; [x58]; [x58]] 5).
    2:{ unfold fill_step, fill_byte. cbn [RLE.i].
        change (control_nibble xc0) with 192. cbn [Z.eqb Pos.eqb].
        rewrite <- Z.add_assoc, (Hat (1 + 1) x58 eq_refl). reflexivity. }
    cbn [bind].
    (* j = 2: inside the record *)
    rewrite loop_skip by (cbn; lia).
    (* j = 3: fill NUL *)
    rewrite loop_at_cursor by reflexivity.
    rewrite (record_fill page offset 4 _ xf0)
      by (first [apply Hat; reflexivity | vm_compute; tauto]).
    reflexivity. }
  unfold RLE.decompress_row. change (Z.to_nat 4) with 4%nat.
  rewrite Hloop. reflexivity.
Qed.

Lemma all_bytes_complete (b : byte) : In b all_bytes.
Proof.
  unfold all_bytes. apply in_map_iff. exists (Byte.to_nat b). split.
  - rewrite <- Byte.to_N_via_nat, Byte.of_to_N. reflexivity.
  - apply in_seq. pose proof (Byte.to_nat_bounded b). lia.
Qed.

Lemma bytes_eqb_refl (a : list byte) : bytes_eqb a a = true.
Proof.
  induction a as [|x a IH]; simpl; [reflexivity|].
  now rewrite (Byte.byte_dec_lb (x:=x) (y:=x) eq_refl), IH.
Qed.

Lemma returns_row_complete (r : res (list byte)) (row : list byte) :
  r = Ret row -> returns_row r row = true.
Proof. intros ->. apply bytes_eqb_refl. Qed.

(** Whatever bytes stand at the two padded positions, the padded stream
    does not decompress to the scenario's row. *)
Lemma rle_padded_stream_never_matches (d1 d2 : byte) :
  RLE.decompress_row 0 6 7 (scenario_stream_padded d1 d2) <> Ret scenario_row.
Proof.
  assert (H : forallb (fun a => forallb (fun b =>
              negb (returns_row
                      (RLE.decompress_row 0 6 7 (scenario_stream_padded a b))
                      scenario_row)) all_bytes) all_bytes = true)
    by (vm_compute; reflexivity).
  rewrite forallb_forall in H. specialize (H d1 (all_bytes_complete d1)).
  rewrite forallb_forall in H. specialize (H d2 (all_bytes_complete d2)).
  apply negb_true_iff in H. intros Heq.
  apply returns_row_complete in Heq. congruence.
Qed.

(** C2 as stated fails: with NUL at the two padded positions
    the second control byte read is the padding itself, a long copy that
    swallows the rest of the page, and the length check rejects the five
    bytes produced. *)
Lemma rle_scenario_padded_counterexample :
  RLE.decompress_row 0 6 7 (scenario_stream_padded x00 x00)
  = Throw (Error_unexpected_result_length 5 7)
  /\ RLE.decompress_row 0 6 7 (scenario_stream_padded x00 x00)
     <> Ret scenario_row.
Proof. split; [reflexivity | vm_compute; discriminate]. Qed.

(** ** Failure modes of [decompress_row] *)






(** A stream that ends mid-record at the end of the page fails, though not
    with the length-mismatch error: the missing count byte is [undefined]. *)
Lemma rle_mid_record_type_error (result_length : Z) :
  RLE.decompress_row 0 1 result_length [x60] = Throw TypeError.
Proof. reflexivity. Qed.

(** A short copy cut off by the end of the stream is clamped to it. *)
Lemma rle_short_copy_clamped :
  RLE.decompress_row 0 2 1 [x8f; x41] = Ret [x41].
Proof. reflexivity. Qed.

(** ** The other rows of the control-byte table, on examples *)

(** 0x00: long copy of [next + 64 + lo * 256] bytes from [pos + 2]; here the
    page ends first and the copy stops with it. *)
Example rle_long_copy :
  RLE.decompress_row 0 5 3 [x00; x00; x61; x62; x63] = Ret [x61; x62; x63].
Proof. reflexivity. Qed.

(** 0x00 in the last byte of the stream emits nothing. *)
Example rle_long_copy_last_byte :
  RLE.decompress_row 0 2 2 [xe0; x00] = Ret [x20; x20].
Proof. reflexivity. Qed.

(** 0x40: [lo * 16 + next + 18] copies of the byte at [pos + 2]. *)
Example rle_repeat_long :
  RLE.decompress_row 0 3 19 [x40; x01; x2a] = Ret (repeat x2a 19).
Proof. reflexivity. Qed.

(** 0x60 and 0x70: [lo * 256 + next + 17] spaces or NULs. *)
Example rle_spaces_long :
  RLE.decompress_row 0 2 18 [x60; x01] = Ret (repeat x20 18).
Proof. reflexivity. Qed.

Example rle_nuls_long :
  RLE.decompress_row 0 2 17 [x70; x00] = Ret (repeat x00 17).
Proof. reflexivity. Qed.

(** 0x80: copy of [lo + 1] bytes from [pos + 1], then the next record. *)
Example rle_short_copy :
  RLE.decompress_row 0 4 4 [x81; x61; x62; xd0] = Ret [x61; x62; x40; x40].
Proof. reflexivity. Qed.

(** 0x90: copy of [lo + 17] bytes. *)
Example rle_short_copy_17 :
  RLE.decompress_row 0 18 17 (x90 :: repeat x7a 17) = Ret (repeat x7a 17).
Proof. reflexivity. Qed.

(** 0xC0 next to the end of the page: the byte to repeat is [undefined]
    and NULs are emitted. *)
Example rle_repeat_short_outside_page :
  RLE.decompress_row 0 1 3 [xc0] = Ret [x00; x00; x00].
Proof. reflexivity. Qed.

(** A control byte outside the table. *)
Example rle_unknown_control_byte :
  RLE.decompress_row 0 1 0 [x25]
  = Throw (Error_unknown_control_byte 0x20).
Proof. reflexivity. Qed.

(** A stream that sits in the middle of a page. *)
Example rle_stream_in_page :
  RLE.decompress_row 2 4 7 [xff; xff; xe0; xc0; x58; xf0; xff] = Ret scenario_row.
Proof. reflexivity. Qed.

(* ===================================================================== *)
(** * Properties of [_read_val] *)
(* ===================================================================== *)

Lemma clamp_0 (len : Z) : 0 <= len -> clamp len 0 = 0.
Proof. intros H. unfold clamp. simpl. lia. Qed.

Lemma clamp_len (len : Z) : 0 <= len -> clamp len len = len.
Proof.
  intros H. unfold clamp. destruct (len <? 0) eqn:E.
  - apply Z.ltb_lt in E. lia.
  - lia.
Qed.

(** [buf.slice(0, buf.length)] is the whole buffer. *)
Lemma slice_all (buf : list byte) :
  slice buf 0 (Z.of_nat (List.length buf)) = buf.
Proof.
  unfold slice. rewrite clamp_0, clamp_len by lia.
  rewrite Z.max_r by lia. rewrite Z.sub_0_r, Nat2Z.id.
  simpl. apply firstn_all.
Qed.

Lemma pad_short (e : option ReadVal.endian) (raw_bytes : list byte) :
  (List.length raw_bytes < 8)%nat ->
  ReadVal.pad e raw_bytes = pad_as_coded e raw_bytes
  /\ List.length (pad_as_coded e raw_bytes) = 8%nat.
Proof.
  intros Hlen. unfold ReadVal.pad, pad_as_coded.
  destruct (Z.ltb_spec (Z.of_nat (List.length raw_bytes)) 8) as [_|H];
    [|lia].
  replace (Z.to_nat (8 - Z.of_nat (List.length raw_bytes)))
    with (8 - List.length raw_bytes)%nat by lia.
  split; [reflexivity|].
  destruct e as [[|]|]; rewrite length_app, repeat_length; lia.
Qed.

Lemma pad_long (e : option ReadVal.endian) (raw_bytes : list byte) :
  (8 <= List.length raw_bytes)%nat -> ReadVal.pad e raw_bytes = raw_bytes.
Proof.
  intros Hlen. unfold ReadVal.pad.
  destruct (Z.ltb_spec (Z.of_nat (List.length raw_bytes)) 8); [lia|].
  reflexivity.
Qed.

(** For the numeric kinds [_read_val] depends on the field through its
    padded bytes only, and not on [size]. *)
Lemma read_val_numeric (P : platform) (u64 : bool)
      (e : option ReadVal.endian) (df : option Dates.formatter)
      (f : ReadVal.fmt) (raw_bytes : list byte) (size : Z) :
  ReadVal.is_numeric_kind f = true ->
  ReadVal._read_val P u64 e df f raw_bytes size
  = (let* x := field_double e raw_bytes in
     if Num.isNaN x then Ret VNull
     else match f with
          | ReadVal.F_datetime =>
            Dates.datetime x Dates.seconds df Dates.as_datetime
          | ReadVal.F_time =>
            Dates.datetime x Dates.seconds df Dates.as_time
          | ReadVal.F_date =>
            match Dates.datetime x Dates.days df Dates.as_date with
            | Ret v => Ret v
            | Throw _ =>
              Dates.datetime x Dates.seconds df Dates.as_datetime
            end
          | _ => Ret (VNumber x)
          end).
Proof.
  intros Hf. unfold ReadVal._read_val, field_double.
  assert (Hsl : forall is_big l,
    ReadVal.struct_unpack P is_big l
      (if Z.of_nat (List.length raw_bytes) <? 8
       then slice (ReadVal.pad e raw_bytes) 0 8
       else slice raw_bytes 0 (Z.of_nat (List.length raw_bytes)))
    = ReadVal.struct_unpack P is_big l (ReadVal.pad e raw_bytes)).
  { intros is_big l. f_equal.
    destruct (Z.ltb_spec (Z.of_nat (List.length raw_bytes)) 8) as [H|H].
    - destruct (pad_short e raw_bytes ltac:(lia)) as [-> Hl].
      rewrite <- (slice_all (pad_as_coded e raw_bytes)) at 2.
      now rewrite Hl.
    - rewrite pad_long by lia. apply slice_all. }
  destruct f; try discriminate Hf; cbn [ReadVal.is_numeric_kind];
    cbv iota;
    (match goal with
     | |- context [ReadVal.struct_unpack P ?b ?l _] =>
       specialize (Hsl b l)
     end;
     destruct (Z.of_nat (List.length raw_bytes) <? 8);
     (rewrite Hsl; cbn [ReadVal.letter_of ReadVal.struct_unpack];
      (destruct (Num.readDouble _ _) as [x|err];
       [cbn [bind]; destruct (Num.isNaN x); reflexivity | reflexivity]))).
Qed.

(** C4, amended to the code: a numeric field shorter than 8 bytes is
    completed to 8 bytes with zero bytes before it is decoded as a
    binary64 double; the zeros are placed on the left (before the field)
    when the file is little-endian and on the right otherwise.  Reading the
    short field gives what reading the completed field gives. *)
Theorem short_numeric_is_zero_padded (P : platform) (u64 : bool)
        (e : option ReadVal.endian) (df : option Dates.formatter)
        (f : ReadVal.fmt) (raw_bytes : list byte) (size : Z) :
  ReadVal.is_numeric_kind f = true ->
  (List.length raw_bytes < 8)%nat ->
  List.length (pad_as_coded e raw_bytes) = 8%nat
  /\ ReadVal.pad e raw_bytes = pad_as_coded e raw_bytes
  /\ ReadVal._read_val P u64 e df f raw_bytes size
     = ReadVal._read_val P u64 e df f (pad_as_coded e raw_bytes) 8.
Proof.
  intros Hf Hlen. destruct (pad_short e raw_bytes Hlen) as [Hpad Hl].
  split; [exact Hl|]. split; [exact Hpad|].
  rewrite !read_val_numeric by exact Hf. unfold field_double.
  rewrite (pad_long e (pad_as_coded e raw_bytes)) by lia.
  now rewrite Hpad.
Qed.

Lemma short_numeric_is_zero_padded_witness :
  List.length (pad_as_coded (Some ReadVal.little) le_three_short) = 8%nat
  /\ ReadVal.pad (Some ReadVal.little) le_three_short
     = pad_as_coded (Some ReadVal.little) le_three_short
  /\ ReadVal._read_val ascii_platform false (Some ReadVal.little) None
                       ReadVal.F_number le_three_short 3
     = ReadVal._read_val ascii_platform false (Some ReadVal.little) None
                         ReadVal.F_number
                         (pad_as_coded (Some ReadVal.little) le_three_short)
                         8.
Proof.
  apply (short_numeric_is_zero_padded ascii_platform false
           (Some ReadVal.little) None ReadVal.F_number le_three_short 3).
  - reflexivity.
  - vm_compute. lia.
Defined.

(** C4 as stated fails: in a little-endian file the three
    bytes [00 08 40], the most significant bytes of 3.0, are completed on
    the left and read as 3.0; completed on the right, as stated,
    they would read as another number. *)
Lemma short_numeric_padding_counterexample :
  ReadVal.pad (Some ReadVal.little) le_three_short
  = [x00; x00; x00; x00; x00; x00; x08; x40]
  /\ ReadVal.pad (Some ReadVal.little) le_three_short
     <> pad_as_stated ReadVal.little le_three_short
  /\ ReadVal._read_val ascii_platform false (Some ReadVal.little) None
                       ReadVal.F_number le_three_short 3
     = Ret (VNumber (Num.of_int 3))
  /\ ReadVal._read_val ascii_platform false (Some ReadVal.little) None
                       ReadVal.F_number
                       (pad_as_stated ReadVal.little le_three_short) 8
     <> Ret (VNumber (Num.of_int 3)).
Proof.
  split; [reflexivity|]. split; [vm_compute; discriminate|].
  split; [reflexivity|]. vm_compute. discriminate.
Qed.

(** Whatever its format, a number column wider than two bytes is read as
    one of the four numeric kinds. *)
Lemma number_fmt_numeric (opts : Reader.options) (col_format : string) :
  ReadVal.is_numeric_kind (Reader.number_fmt opts col_format) = true.
Proof.
  unfold Reader.number_fmt.
  repeat match goal with
         | |- context [if ?c then _ else _] => destruct c
         end; reflexivity.
Qed.

(** A numeric field whose double is a NaN is read as [null], for each of
    the kinds number, time, datetime and date. *)
Lemma read_val_nan (P : platform) (opts : Reader.options)
      (this : Reader.SAS7BDAT) (raw_bytes : list byte) (size : Z)
      (f : ReadVal.fmt) :
  field_double (Reader.endianess (Reader.properties this)) raw_bytes
  = Ret S754_nan ->
  ReadVal.is_numeric_kind f = true ->
  Reader.read_val P opts this f raw_bytes size = Ret VNull.
Proof.
  intros Hnan Hf. unfold Reader.read_val.
  rewrite read_val_numeric by exact Hf. now rewrite Hnan.
Qed.

(** C6, amended to the code: when the double [x] of a date column is not a
    NaN and is rejected as a count of days, [_read_val] yields exactly what
    the datetime decoder yields for [x] as a count of seconds, that
    decoder's exception included. *)
Theorem date_falls_back_to_datetime (P : platform) (u64 : bool)
        (e : option ReadVal.endian) (df : option Dates.formatter)
        (raw_bytes : list byte) (size : Z) (x : spec_float) :
  field_double e raw_bytes = Ret x ->
  Num.isNaN x = false ->
  (forall v : value,
      Dates.datetime x Dates.days df Dates.as_date <> Ret v) ->
  ReadVal._read_val P u64 e df ReadVal.F_date raw_bytes size
  = Dates.datetime x Dates.seconds df Dates.as_datetime
  /\ ReadVal._read_val P u64 e df ReadVal.F_date raw_bytes size
     = ReadVal._read_val P u64 e df ReadVal.F_datetime raw_bytes size.
Proof.
  intros Hx Hnan Hdays.
  rewrite !read_val_numeric by reflexivity. rewrite Hx. cbn [bind].
  rewrite Hnan.
  destruct (Dates.datetime x Dates.days df Dates.as_date) as [v|err].
  - now destruct (Hdays v).
  - split; reflexivity.
Qed.

(** The scenario of the specification: 1893456000 in a [DATE] column. *)
Lemma date_falls_back_to_datetime_witness :
  ReadVal._read_val ascii_platform false (Some ReadVal.little) None
                    ReadVal.F_date le_1893456000 8
  = Ret (VString "2020-01-01T00:00:00.000Z")
  /\ ReadVal._read_val ascii_platform false (Some ReadVal.little) None
                       ReadVal.F_date le_1893456000 8
     = ReadVal._read_val ascii_platform false (Some ReadVal.little) None
                         ReadVal.F_datetime le_1893456000 8.
Proof.
  apply (date_falls_back_to_datetime
           ascii_platform false (Some ReadVal.little) None
           le_1893456000 8 (Num.of_int 1893456000)).
  - reflexivity.
  - reflexivity.
  - intros v. vm_compute. discriminate.
Defined.

(** C6 as stated fails: two to the power 60 is no valid count
    of days, and none of seconds either; the fallback throws and decoding
    fails. *)
Lemma date_fallback_counterexample :
  field_double (Some ReadVal.little) le_two_pow_60
  = Ret (Num.of_int (2 ^ 60))
  /\ Dates.datetime (Num.of_int (2 ^ 60)) Dates.days None Dates.as_date
     = Throw RangeError
  /\ ReadVal._read_val ascii_platform false (Some ReadVal.little) None
                       ReadVal.F_date le_two_pow_60 8
     = Throw RangeError.
Proof. repeat split; vm_compute; reflexivity. Qed.

(** ** [_read_val] on examples *)

(** 21915 days after 1960-01-01, in a [DATE] column. *)
Example read_date_as_days :
  ReadVal._read_val ascii_platform false (Some ReadVal.little) None
                    ReadVal.F_date
                    [x00; x00; x00; x00; xc0; x66; xd5; x40] 8
  = Ret (VString "2020-01-01").
Proof. vm_compute. reflexivity. Qed.

(** 1893456000 seconds after 1960-01-01, as a datetime and as a time. *)
Example read_datetime :
  ReadVal._read_val ascii_platform false (Some ReadVal.little) None
                    ReadVal.F_datetime le_1893456000 8
  = Ret (VString "2020-01-01T00:00:00.000Z").
Proof. vm_compute. reflexivity. Qed.

Example read_time :
  ReadVal._read_val ascii_platform false (Some ReadVal.little) None
                    ReadVal.F_time le_1893456000 8
  = Ret (VString "00:00:00.000").
Proof. vm_compute. reflexivity. Qed.

(** A big-endian field of three bytes is completed on the right. *)
Example read_short_big_endian :
  ReadVal._read_val ascii_platform false (Some ReadVal.big) None
                    ReadVal.F_number [x40; x08; x00] 3
  = Ret (VNumber (Num.of_int 3)).
Proof. vm_compute. reflexivity. Qed.

(** A 16-bit integer, and a string. *)
Example read_int16 :
  ReadVal._read_val ascii_platform false (Some ReadVal.little) None
                    ReadVal.F_h [xfe; xff] 2
  = Ret (VNumber (Num.of_int (-2))).
Proof. vm_compute. reflexivity. Qed.

Example read_string :
  ReadVal._read_val ascii_platform false (Some ReadVal.little) None
                    ReadVal.F_s [x61; x62; x20; x00; x20] 5
  = Ret (VString "ab").
Proof. vm_compute. reflexivity. Qed.

(** Strings of a big-endian file are refused by [struct_unpack]. *)
Example read_string_big_endian :
  ReadVal._read_val ascii_platform false (Some ReadVal.big) None
                    ReadVal.F_s [x61; x62] 2
  = Throw Error_big_endian_not_supported.
Proof. reflexivity. Qed.

(* ===================================================================== *)
(** * Properties of [readline] *)
(* ===================================================================== *)

Section ReaderFacts.

Variable P : platform.
Variable opts : Reader.options.
Variable parse_header : Reader.SAS7BDAT -> res Reader.SAS7BDAT.
Variable _read_next_page : Reader.SAS7BDAT -> res Reader.SAS7BDAT.

Local Abbreviation readline := (Reader.readline P opts parse_header _read_next_page).
Local Abbreviation process := (Reader._process_byte_array_with_data P opts).



(** The row is made of the values of the columns, in order. *)
Lemma read_columns_positions (this : Reader.SAS7BDAT)
      (source : option (list byte)) (offset : Z) (n i : nat)
      (acc row : list value) :
  Reader.read_columns P opts this source offset n i acc = Ret row ->
  List.length acc = i ->
  exists pushed,
    row = acc ++ pushed
    /\ forall j val,
         pushed !! j = Some val ->
         Reader.read_column P opts this source offset (i + j)
         = Ret (Some val).
Proof.
  revert i acc. induction n as [|n IH]; intros i acc Hrow Hlen.
  - injection Hrow as <-. exists []. split; [now rewrite app_nil_r|].
    intros j val Hj. discriminate.
  - cbn [Reader.read_columns] in Hrow.
    destruct (Reader.read_column P opts this source offset i)
      as [[v|]|e] eqn:Hcol; cbn [bind] in Hrow; [| |discriminate].
    + destruct (IH (S i) (acc ++ [v]) Hrow) as (pushed & -> & Hpushed).
      { rewrite length_app. simpl. lia. }
      exists (v :: pushed). split; [now rewrite <- app_assoc|].
      intros [|j] val Hj.
      * injection Hj as <-. now rewrite Nat.add_0_r.
      * replace (i + S j)%nat with (S i + j)%nat by lia.
        now apply Hpushed.
    + injection Hrow as <-. exists []. split; [now rewrite app_nil_r|].
      intros j val Hj. discriminate.
Qed.




(** ** The header row *)

Lemma readline_header (this this' : Reader.SAS7BDAT) (names : list string) :
  readline this = Ret (this', Reader.Header names) ->
  Reader.row_format opts = "array"%string.
Proof.
  unfold Reader.readline.
  destruct (if negb (Reader.parsed_header this) then _ else _)
    as [this0|e]; cbn [bind]; [|discriminate].
  set (this1 := match Reader.column_names_strings_decoded this0 with
                | Some _ => _ | None => _ end).
  destruct (negb (Reader.skip_header opts) && negb (Reader.sent_header this1)
            && String.eqb (Reader.row_format opts) "array") eqn:Ec.
  - intros _. apply andb_true_iff in Ec as [_ Ec].
    now apply String.eqb_eq in Ec.
  - destruct (Reader.cached_page this1); cbn [bind]; [|discriminate].
    destruct (_ <? _); [|discriminate].
    destruct (if _ =? Reader.PAGE_META_TYPE then _ else _) as [this2|e];
      cbn [bind]; [|discriminate].
    destruct (String.eqb _ "object"); discriminate.
Qed.

(** C9: the header row is returned only when [row_format] is exactly
    ['array']: with any other value, whatever [skip_header] says and
    however often [readline] is called, no call returns a header row. *)
Theorem header_row_only_for_array (n : nat) (this : Reader.SAS7BDAT)
        (names : list string) :
  Reader.row_format opts <> "array"%string ->
  ~ In (Reader.Header names)
       (snd (Reader.readlines P opts parse_header _read_next_page n this)).
Proof.
  intros Hrf. revert this. induction n as [|n IH]; intros this; [easy|].
  cbn [Reader.readlines].
  destruct (readline this) as [[this' l]|e] eqn:Hl; [|easy].
  specialize (IH this').
  destruct (Reader.readlines _ _ _ _ n this') as [final ls].
  cbn [snd] in *. intros [Heq | Hin]; [|now apply IH].
  subst l. apply readline_header in Hl. contradiction.
Qed.

(** ** Rows as objects *)





(** ** Rows of a MIX page *)




(** ** Ross Data Compression *)



End ReaderFacts.

(** ** The claims about [readline], on readers built by the constructor *)

(** The constructor enables the alignment correction unless told
    otherwise, and takes ['array'] for the row format. *)
Lemma constructor_defaults :
  Reader.align_correction default_options = true
  /\ Reader.row_format default_options = "array"%string
  /\ Reader.skip_header default_options = false.
Proof. repeat split. Qed.



(** C5: in every row that is decoded, the position of a number column of
    8 bytes whose double is a NaN holds [null], whatever the format string
    of the column. *)
Theorem nan_reads_as_null (P : platform) (opts : Reader.options)
        (this : Reader.SAS7BDAT) (offset length : Z)
        (source : list byte) (base : Z) (row : list value)
        (j : nat) (col : Reader.Column) (data_offset : Z) :
  Reader.row_source this offset length = Ret (Some source, base) ->
  Reader._process_byte_array_with_data P opts this offset length = Ret row ->
  (j < List.length row)%nat ->
  Reader.columns this !! j = Some col ->
  Reader.type col = Reader.number ->
  Reader.column_data_lengths this !! j = Some 8 ->
  Reader.column_data_offsets this !! j = Some data_offset ->
  field_double (Reader.endianess (Reader.properties this))
               (slice source (base + data_offset) (base + data_offset + 8))
  = Ret S754_nan ->
  row !! j = Some VNull.
Proof.
  intros Hsrc Hrow Hj Hcol Htype Hlen Hoff Hnan.
  unfold Reader._process_byte_array_with_data in Hrow.
  rewrite Hsrc in Hrow. cbn [bind fst snd] in Hrow.
  destruct (read_columns_positions P opts this (Some source) base _ 0 []
                                   row Hrow eq_refl)
    as (pushed & -> & Hpushed).
  cbn [app] in *.
  destruct (pushed !! j) as [val|] eqn:Hval;
    [|apply lookup_ge_None in Hval; lia].
  specialize (Hpushed j val Hval). cbn [Nat.add] in Hpushed.
  unfold Reader.read_column in Hpushed.
  rewrite Hlen, Hoff, Hcol, Htype in Hpushed.
  rewrite bool_decide_eq_false_2 in Hpushed by discriminate.
  cbn [Reader.slice_source bind from_option id] in Hpushed.
  change (bool_decide (is_Some (Some 8)) && (8 <=? 2)) with false in Hpushed.
  cbv iota in Hpushed.
  rewrite (read_val_nan P opts this _ 8 _ Hnan
                        (number_fmt_numeric opts (Reader.format col)))
    in Hpushed.
  cbn [bind] in Hpushed. now injection Hpushed as <-.
Qed.

(** The first row of the example file: a NaN in the [DATE] column. *)
Lemma nan_reads_as_null_witness :
  Reader._process_byte_array_with_data ascii_platform default_options
                                       example_reader 24 10
  = Ret [VNull; VString "ab"]
  /\ [VNull; VString "ab"] !! 0%nat = Some VNull.
Proof.
  split; [vm_compute; reflexivity|].
  apply (nan_reads_as_null ascii_platform default_options example_reader
                           24 10 example_page 24 [VNull; VString "ab"]
                           0%nat
                           (Reader.mkColumn 0 [x78] [] "DATE" Reader.number 8)
                           0).
  - reflexivity.
  - vm_compute. reflexivity.
  - vm_compute. lia.
  - reflexivity.
  - reflexivity.
  - reflexivity.
  - reflexivity.
  - vm_compute. reflexivity.
Defined.



Lemma header_row_only_for_array_witness :
  ~ In (Reader.Header ["x"; "s"]%string)
       (snd (Reader.readlines ascii_platform
                              (options_with_row_format "object")
                              parse_header_from_path read_next_page_at_eof
                              3 example_reader)).
Proof.
  apply (header_row_only_for_array
           ascii_platform (options_with_row_format "object")
           parse_header_from_path read_next_page_at_eof 3 example_reader).
  vm_compute. discriminate.
Defined.

(** With the default ['array'] the first line is the header row. *)
Lemma header_row_for_array :
  line_of (Reader.readline ascii_platform default_options
                           parse_header_from_path read_next_page_at_eof
                           example_reader)
  = Ret (Reader.Header ["x"; "s"]%string).
Proof. vm_compute. reflexivity. Qed.



(** ** The example file, read to its end *)

Example example_file_lines :
  snd (Reader.readlines ascii_platform default_options
                        parse_header_from_path read_next_page_at_eof
                        4 example_reader)
  = [Reader.Header ["x"; "s"]%string;
     Reader.RowArray [VNull; VString "ab"];
     Reader.RowArray [VString "2020-01-01T00:00:00.000Z"; VString "cd"];
     Reader.EndOfData].
Proof. vm_compute. reflexivity. Qed.

Example example_mix_file_lines :
  snd (Reader.readlines ascii_platform default_options
                        parse_header_from_path read_next_page_at_eof
                        3 example_mix_reader)
  = [Reader.RowArray [VNull; VString "ab"];
     Reader.RowArray [VString "2020-01-01T00:00:00.000Z"; VString "cd"];
     Reader.EndOfData].
Proof. vm_compute. reflexivity. Qed.

(* ===================================================================== *)
(** * Further properties of the RLE decompressor *)
(* ===================================================================== *)

Lemma nibbles_sum (cb : byte) :
  control_nibble cb + low_nibble cb = byte_val cb.
Proof. destruct cb; reflexivity. Qed.

Lemma byte_val_range (b : byte) : 0 <= byte_val b < 256.
Proof.
  unfold byte_val. pose proof (Byte.to_N_bounded b) as H.
  split; lia.
Qed.

Lemma byte_land_255 (b : byte) : Z.land (byte_val b) 0xFF = byte_val b.
Proof. destruct b; reflexivity. Qed.

Lemma low_nibble_range (cb : byte) : 0 <= low_nibble cb < 16.
Proof.
  unfold low_nibble. change 15 with (Z.ones 4). rewrite Z.land_ones by lia.
  apply Z.mod_pos_bound. lia.
Qed.

Lemma join_snoc (xs : list (list byte)) (x : list byte) :
  RLE.join (xs ++ [x]) = RLE.join xs ++ x.
Proof. rewrite join_app. unfold RLE.join. simpl. now rewrite app_nil_r. Qed.

(** The loop body without its exception monad, for a control byte that
    is known. *)
Lemma record_short_copy (page : list byte) (offset length : Z)
      (st : RLE.state) (cb : byte) :
  index page (offset + RLE.i st) = Some cb ->
  In (control_nibble cb) short_copy_nibbles ->
  RLE.record page offset length st
  = Ret (let s := RLE.short_copy page offset length
                                 (control_nibble cb - 127) (low_nibble cb)
                                 st in
         RLE.mkState (RLE.i s + 1) (RLE.result s)
                     (RLE.current_result_array_index s)).
Proof.
  intros Hcb Hin.
  unfold RLE.record, RLE.branch. rewrite Hcb. cbn [RLE.to_ord bind].
  unfold control_nibble, low_nibble in *. cbn [In short_copy_nibbles] in Hin.
  destruct Hin as [H | [H | [H | [H | []]]]]; rewrite <- H;
    cbn -[Z.land Z.add Z.min Z.sub RLE.short_copy]; reflexivity.
Qed.

(** X1: a short copy (high nibble 0x80 to 0xB0) with control byte [cb]
    copies [cb - 127] bytes, that is 1 to 64, from the position after the
    control byte, cut down to the bytes that are left in the stream; the
    cursor moves past the control byte and the bytes copied, and stays
    within the stream. *)
Theorem rle_short_copy_record (page : list byte) (offset length : Z)
        (st : RLE.state) (cb : byte) :
  index page (offset + RLE.i st) = Some cb ->
  In (control_nibble cb) short_copy_nibbles ->
  RLE.i st < length ->
  let count := Z.min (byte_val cb - 127) (length - (RLE.i st + 1)) in
  exists st',
    RLE.record page offset length st = Ret st'
    /\ RLE.join (RLE.result st')
       = RLE.join (RLE.result st)
         ++ slice page (offset + RLE.i st + 1) (offset + RLE.i st + 1 + count)
    /\ RLE.i st' = RLE.i st + count + 1
    /\ 0 <= count <= 64
    /\ RLE.i st' <= length.
Proof.
  intros Hcb Hin Hi count.
  pose proof (nibbles_sum cb) as Hsum.
  pose proof (low_nibble_range cb) as Hlo.
  rewrite (record_short_copy page offset length st cb Hcb Hin).
  assert (Hhi : 128 <= control_nibble cb <= 176)
    by (cbn in Hin; lia).
  assert (Hcount : Z.min (low_nibble cb + (control_nibble cb - 127))
                         (length - (RLE.i st + 1)) = count)
    by (unfold count; f_equal; lia).
  eexists. split; [reflexivity|].
  unfold RLE.short_copy. cbn [RLE.i RLE.result]. rewrite Hcount.
  split; [apply join_snoc|].
  split; [lia|]. split; lia.
Qed.

Lemma rle_short_copy_record_witness :
  exists st',
    RLE.record [x8f; x61; x62] 0 3 RLE.init = Ret st'
    /\ RLE.join (RLE.result st') = [] ++ slice [x8f; x61; x62] 1 (1 + 2)
    /\ RLE.i st' = 0 + 2 + 1
    /\ 0 <= 2 <= 64
    /\ RLE.i st' <= 3.
Proof.
  apply (rle_short_copy_record [x8f; x61; x62] 0 3 RLE.init x8f).
  - reflexivity.
  - vm_compute. tauto.
  - vm_compute. reflexivity.
Defined.

Lemma record_long_run (page : list byte) (offset length : Z)
      (st : RLE.state) (cb nxt : byte) :
  index page (offset + RLE.i st) = Some cb ->
  In (control_nibble cb) long_run_nibbles ->
  index page (offset + RLE.i st + 1) = Some nxt ->
  RLE.record page offset length st
  = Ret (RLE.mkState
           (RLE.i st + run_advance (control_nibble cb))
           (RLE.result st
            ++ repeat [run_byte page (offset + RLE.i st) (control_nibble cb)]
                      (Z.to_nat (run_count (control_nibble cb)
                                           (low_nibble cb) (byte_val nxt))))
           (RLE.current_result_array_index st
            + Z.max 0 (run_count (control_nibble cb) (low_nibble cb)
                                 (byte_val nxt)))).
Proof.
  intros Hcb Hin Hnxt.
  unfold RLE.record, RLE.branch. rewrite Hcb. cbn [RLE.to_ord bind].
  fold (control_nibble cb) (low_nibble cb).
  cbn [In long_run_nibbles] in Hin.
  destruct Hin as [H | [H | [H | []]]]; rewrite <- H;
    cbn [Z.eqb Pos.eqb]; rewrite Hnxt; cbn [RLE.to_ord bind];
    rewrite byte_land_255;
    unfold run_advance, run_byte, run_count, RLE.push_times;
    cbn [Z.eqb Pos.eqb RLE.i RLE.result RLE.current_result_array_index];
    rewrite ?to_chr_default; f_equal; f_equal; lia.
Qed.

(** X2: a long run.  With high nibble 0x40 the record emits
    [lo * 16 + next + 18] copies of the byte two positions after the
    control byte (NUL when that lies outside the page) and moves the cursor
    by 3; with 0x60 or 0x70 it emits [lo * 256 + next + 17] spaces or NULs
    and moves the cursor by 2.  [next] is the byte after the control
    byte. *)
Theorem rle_long_run_record (page : list byte) (offset length : Z)
        (st : RLE.state) (cb nxt : byte) :
  index page (offset + RLE.i st) = Some cb ->
  In (control_nibble cb) long_run_nibbles ->
  index page (offset + RLE.i st + 1) = Some nxt ->
  exists st',
    RLE.record page offset length st = Ret st'
    /\ RLE.join (RLE.result st')
       = RLE.join (RLE.result st)
         ++ repeat (run_byte page (offset + RLE.i st) (control_nibble cb))
                   (Z.to_nat (run_count (control_nibble cb) (low_nibble cb)
                                        (byte_val nxt)))
    /\ RLE.i st' = RLE.i st + run_advance (control_nibble cb).
Proof.
  intros Hcb Hin Hnxt.
  rewrite (record_long_run page offset length st cb nxt Hcb Hin Hnxt).
  eexists. split; [reflexivity|]. cbn [RLE.result RLE.i].
  split; [|reflexivity].
  now rewrite join_app, join_repeat_singleton.
Qed.

Lemma rle_long_run_record_witness :
  exists st',
    RLE.record [x41; x02; x2a] 0 3 RLE.init = Ret st'
    /\ RLE.join (RLE.result st') = [] ++ repeat x2a 36
    /\ RLE.i st' = 0 + 3.
Proof.
  apply (rle_long_run_record [x41; x02; x2a] 0 3 RLE.init x41 x02).
  - reflexivity.
  - vm_compute. tauto.
  - reflexivity.
Defined.

(** X3: a long copy (high nibble 0x00).  In the last byte of the stream
    the record emits nothing and moves the cursor by 1.  Elsewhere it
    copies [next + 64 + lo * 256] bytes from the position two after the
    control byte, as far as the page reaches and whether or not the stream
    reaches that far, and moves the cursor past them. *)
Theorem rle_long_copy_record (page : list byte) (offset length : Z)
        (st : RLE.state) (cb nxt : byte) :
  index page (offset + RLE.i st) = Some cb ->
  control_nibble cb = 0x00 ->
  (RLE.i st = length - 1 ->
   RLE.record page offset length st
   = Ret (RLE.mkState (RLE.i st + 1) (RLE.result st)
                      (RLE.current_result_array_index st)))
  /\ (RLE.i st <> length - 1 ->
      index page (offset + RLE.i st + 1) = Some nxt ->
      let count := byte_val nxt + 64 + low_nibble cb * 256 in
      exists st',
        RLE.record page offset length st = Ret st'
        /\ RLE.join (RLE.result st')
           = RLE.join (RLE.result st)
             ++ slice page (offset + RLE.i st + 2)
                      (offset + RLE.i st + 2 + count)
        /\ RLE.i st' = RLE.i st + count + 2).
Proof.
  intros Hcb Hhi.
  unfold RLE.record, RLE.branch. rewrite Hcb. cbn [RLE.to_ord bind].
  fold (control_nibble cb) (low_nibble cb). rewrite Hhi.
  cbn [Z.eqb]. split.
  - intros Hlast. apply Z.eqb_eq in Hlast. rewrite Hlast. reflexivity.
  - intros Hnot Hnxt. apply Z.eqb_neq in Hnot. rewrite Hnot.
    cbn [negb]. rewrite Hnxt. cbn [RLE.to_ord bind].
    rewrite byte_land_255.
    eexists. split; [reflexivity|]. cbn [RLE.result RLE.i].
    split; [apply join_snoc | lia].
Qed.

Lemma rle_long_copy_record_witness :
  RLE.record [xe0; x00] 0 2 (RLE.mkState 1 [[x20]; [x20]] 2)
  = Ret (RLE.mkState 2 [[x20]; [x20]] 2)
  /\ exists st',
      RLE.record [x00; x01; x61; x62] 0 2 RLE.init = Ret st'
      /\ RLE.join (RLE.result st') = [] ++ slice [x00; x01; x61; x62] 2 67
      /\ RLE.i st' = 0 + 65 + 2.
Proof.
  split.
  - apply (proj1 (rle_long_copy_record [xe0; x00] 0 2
                    (RLE.mkState 1 [[x20]; [x20]] 2) x00 x00
                    eq_refl eq_refl)).
    reflexivity.
  - apply (proj2 (rle_long_copy_record [x00; x01; x61; x62] 0 2 RLE.init
                    x00 x01 eq_refl eq_refl)).
    + vm_compute. discriminate.
    + reflexivity.
Defined.

(** X4: a record that takes a count from the byte after its control byte
    (high nibble 0x00 outside the last byte of the stream, 0x40, 0x60,
    0x70) throws a [TypeError] when that byte lies outside the page; so
    does any record whose control byte lies outside the page.  Nothing is
    emitted. *)
Theorem rle_missing_byte (page : list byte) (offset length : Z)
        (st : RLE.state) (cb : byte) :
  (index page (offset + RLE.i st) = None ->
   RLE.record page offset length st = Throw TypeError)
  /\ (index page (offset + RLE.i st) = Some cb ->
      In (control_nibble cb) counted_nibbles ->
      (control_nibble cb = 0x00 -> RLE.i st <> length - 1) ->
      index page (offset + RLE.i st + 1) = None ->
      RLE.record page offset length st = Throw TypeError).
Proof.
  split.
  - intros Hnone. unfold RLE.record, RLE.branch. now rewrite Hnone.
  - intros Hcb Hin Hlast Hnone.
    unfold RLE.record, RLE.branch. rewrite Hcb. cbn [RLE.to_ord bind].
    fold (control_nibble cb) (low_nibble cb).
    cbn [In counted_nibbles] in Hin.
    destruct Hin as [H | [H | [H | [H | []]]]]; rewrite <- H in *;
      cbn [Z.eqb Pos.eqb]; rewrite ?Hnone; try reflexivity.
    specialize (Hlast eq_refl). apply Z.eqb_neq in Hlast. rewrite Hlast.
    reflexivity.
Qed.

Lemma rle_missing_byte_witness :
  RLE.record [] 0 1 RLE.init = Throw TypeError
  /\ RLE.record [x60] 0 1 RLE.init = Throw TypeError.
Proof.
  split.
  - apply (proj1 (rle_missing_byte [] 0 1 RLE.init x00)). reflexivity.
  - apply (proj2 (rle_missing_byte [x60] 0 1 RLE.init x60)).
    + reflexivity.
    + vm_compute. tauto.
    + vm_compute. discriminate.
    + reflexivity.
Defined.

(** ** The cursor *)

(** Every record moves the cursor forward and leaves what was emitted in
    place. *)
Lemma record_progress (page : list byte) (offset length : Z)
      (st st' : RLE.state) :
  RLE.record page offset length st = Ret st' ->
  RLE.i st < length ->
  RLE.i st < RLE.i st'
  /\ exists chunks, RLE.result st' = RLE.result st ++ chunks.
Proof.
  intros H Hi. unfold RLE.record, RLE.branch in H.
  destruct (index page (offset + RLE.i st)) as [cb|];
    cbn [RLE.to_ord bind] in H; [|discriminate].
  pose proof (low_nibble_range cb) as Hlo. unfold low_nibble in Hlo.
  destruct (index page (offset + RLE.i st + 1)) as [nxt|];
    cbn [RLE.to_ord bind] in H;
    try (pose proof (byte_val_range nxt) as Hn;
         rewrite ?byte_land_255 in H);
    repeat match type of H with
           | context [if ?c then _ else _] => destruct c
           end;
    try discriminate H;
    injection H as <-;
    unfold RLE.short_copy, RLE.push_times;
    cbn [RLE.i RLE.result];
    (split; [lia | eexists; try reflexivity]);
    now rewrite app_nil_r.
Qed.

(** The loop never steps back: when it ends, the cursor has passed every
    position it was to visit, and what had been emitted is still there. *)
Lemma loop_cursor (page : list byte) (offset length : Z) (n : nat) (j : Z)
      (st st' : RLE.state) :
  RLE.loop page offset length n j st = Ret st' ->
  j <= RLE.i st ->
  j + Z.of_nat n <= length ->
  j + Z.of_nat n <= RLE.i st'
  /\ exists chunks, RLE.result st' = RLE.result st ++ chunks.
Proof.
  revert j st. induction n as [|n IH]; intros j st H Hj Hn.
  - injection H as <-. split; [lia|]. exists []. now rewrite app_nil_r.
  - cbn [RLE.loop] in H.
    destruct (Z.eqb_spec (RLE.i st) j) as [Heq|Hne].
    + destruct (RLE.record page offset length st) as [st1|e] eqn:Hrec;
        cbn [bind] in H; [|discriminate].
      destruct (record_progress _ _ _ _ _ Hrec ltac:(lia))
        as (Hlt & chunks1 & Hres1).
      destruct (IH (j + 1) st1 H ltac:(lia) ltac:(lia))
        as (Hfin & chunks & Hres).
      split; [lia|]. exists (chunks1 ++ chunks).
      now rewrite Hres, Hres1, app_assoc.
    + destruct (IH (j + 1) st H ltac:(lia) ltac:(lia)) as (Hfin & Hres).
      split; [lia | exact Hres].
Qed.

(** X5: when the loop of [decompress_row] ends without an exception, its
    cursor stands at or beyond the end of the stream: each byte of the
    stream is the control byte of a record or belongs to one. *)
Theorem rle_stream_is_consumed (offset length : Z) (page : list byte)
        (c : Z) :
  final_cursor offset length page = Some c -> length <= c.
Proof.
  unfold final_cursor.
  destruct (RLE.loop page offset length (Z.to_nat length) 0 RLE.init)
    as [st|e] eqn:Hloop; [|discriminate].
  intros [= <-].
  destruct (Z.le_gt_cases 0 length) as [Hpos|Hneg].
  - destruct (loop_cursor _ _ _ _ _ _ _ Hloop) as [H _];
      cbn [RLE.init RLE.i]; lia.
  - replace (Z.to_nat length) with 0%nat in Hloop by lia.
    injection Hloop as <-. cbn. lia.
Qed.

Lemma rle_stream_is_consumed_witness :
  final_cursor 0 4 scenario_stream = Some 4 /\ 4 <= 4.
Proof.
  split; [reflexivity|].
  apply (rle_stream_is_consumed 0 4 scenario_stream 4). reflexivity.
Defined.

(** ** Position independence *)

Lemma index_relocate (pre page : list byte) (k : Z) :
  0 <= k ->
  index (pre ++ page) (Z.of_nat (List.length pre) + k) = index page k.
Proof.
  intros Hk. unfold index.
  destruct (Z.ltb_spec (Z.of_nat (List.length pre) + k) 0); [lia|].
  destruct (Z.ltb_spec k 0); [lia|].
  replace (Z.to_nat (Z.of_nat (List.length pre) + k))
    with (List.length pre + Z.to_nat k)%nat by lia.
  rewrite nth_error_app2 by lia. f_equal. lia.
Qed.

Lemma slice_relocate (pre page : list byte) (s e : Z) :
  0 <= s -> 0 <= e ->
  slice (pre ++ page)
        (Z.of_nat (List.length pre) + s) (Z.of_nat (List.length pre) + e)
  = slice page s e.
Proof.
  intros Hs He. unfold slice, clamp. rewrite length_app.
  set (lp := List.length pre). set (n := List.length page).
  destruct (Z.ltb_spec (Z.of_nat lp + s) 0); [lia|].
  destruct (Z.ltb_spec (Z.of_nat lp + e) 0); [lia|].
  destruct (Z.ltb_spec s 0); [lia|].
  destruct (Z.ltb_spec e 0); [lia|].
  replace (Z.to_nat (Z.min (Z.of_nat lp + s) (Z.of_nat (lp + n))))
    with (lp + Z.to_nat (Z.min s (Z.of_nat n)))%nat by lia.
  replace (Z.max (Z.min (Z.of_nat lp + s) (Z.of_nat (lp + n)))
                 (Z.min (Z.of_nat lp + e) (Z.of_nat (lp + n)))
           - Z.min (Z.of_nat lp + s) (Z.of_nat (lp + n)))
    with (Z.max (Z.min s (Z.of_nat n)) (Z.min e (Z.of_nat n))
          - Z.min s (Z.of_nat n)) by lia.
  f_equal. rewrite skipn_app.
  rewrite skipn_all2 by (unfold lp; lia). cbn [app].
  f_equal. unfold lp. lia.
Qed.

Lemma record_relocate (pre page : list byte) (offset length : Z)
      (st : RLE.state) :
  0 <= offset ->
  0 <= RLE.i st < length ->
  RLE.record (pre ++ page) (Z.of_nat (List.length pre) + offset) length st
  = RLE.record page offset length st.
Proof.
  intros Ho Hi. unfold RLE.record. f_equal. unfold RLE.branch.
  set (lp := Z.of_nat (List.length pre)).
  assert (Hidx0 : index (pre ++ page) (lp + offset + RLE.i st)
                  = index page (offset + RLE.i st))
    by (rewrite <- Z.add_assoc; apply index_relocate; lia).
  assert (Hidx : forall k, 0 <= k ->
             index (pre ++ page) (lp + offset + RLE.i st + k)
             = index page (offset + RLE.i st + k))
    by (intros k Hk; rewrite <- !Z.add_assoc; rewrite index_relocate by lia;
        now rewrite !Z.add_assoc).
  assert (Hsl : forall a c, 0 <= a -> 0 <= c ->
             slice (pre ++ page) (lp + offset + RLE.i st + a)
                   (lp + offset + RLE.i st + a + c)
             = slice page (offset + RLE.i st + a)
                     (offset + RLE.i st + a + c))
    by (intros a c Ha Hc;
        replace (lp + offset + RLE.i st + a)
          with (lp + (offset + RLE.i st + a)) by lia;
        replace (lp + (offset + RLE.i st + a) + c)
          with (lp + (offset + RLE.i st + a + c)) by lia;
        apply slice_relocate; lia).
  rewrite Hidx0. rewrite !Hidx by lia.
  destruct (index page (offset + RLE.i st)) as [cb|]; [|reflexivity].
  cbn [RLE.to_ord bind].
  pose proof (low_nibble_range cb) as Hlo. unfold low_nibble in Hlo.
  unfold RLE.short_copy.
  rewrite !Hsl by lia.
  destruct (index page (offset + RLE.i st + 1)) as [nxt|];
    cbn [RLE.to_ord bind]; [|reflexivity].
  pose proof (byte_val_range nxt) as Hn. rewrite !byte_land_255.
  rewrite !Hsl by lia. reflexivity.
Qed.

Lemma loop_relocate (pre page : list byte) (offset length : Z) (n : nat)
      (j : Z) (st : RLE.state) :
  0 <= offset -> 0 <= j <= RLE.i st -> j + Z.of_nat n <= length ->
  RLE.loop (pre ++ page) (Z.of_nat (List.length pre) + offset) length n j st
  = RLE.loop page offset length n j st.
Proof.
  intros Ho. revert j st. induction n as [|n IH]; intros j st Hj Hn;
    [reflexivity|].
  cbn [RLE.loop].
  destruct (Z.eqb_spec (RLE.i st) j) as [Heq|Hne].
  - rewrite record_relocate by lia.
    destruct (RLE.record page offset length st) as [st1|e] eqn:Hrec;
      cbn [bind]; [|reflexivity].
    destruct (record_progress _ _ _ _ _ Hrec ltac:(lia)) as [Hlt _].
    apply IH; lia.
  - apply IH; lia.
Qed.

(** X6: decompression does not depend on where the page starts: with
    bytes put in front of the page and the offset moved along, for an
    offset that is not negative, [decompress_row] gives the same result,
    be it a row or an exception. *)
Theorem rle_position_independent (pre page : list byte)
        (offset length result_length : Z) :
  0 <= offset ->
  RLE.decompress_row (Z.of_nat (List.length pre) + offset) length
                     result_length (pre ++ page)
  = RLE.decompress_row offset length result_length page.
Proof.
  intros Ho. unfold RLE.decompress_row.
  destruct (Z.le_gt_cases 0 length) as [Hpos|Hneg].
  - rewrite loop_relocate; [reflexivity | lia | cbn; lia | lia].
  - replace (Z.to_nat length) with 0%nat by lia. reflexivity.
Qed.

Lemma rle_position_independent_witness :
  RLE.decompress_row (Z.of_nat (List.length [xff; xff]) + 0) 4 7
                     ([xff; xff] ++ scenario_stream)
  = RLE.decompress_row 0 4 7 scenario_stream.
Proof.
  apply (rle_position_independent [xff; xff] scenario_stream 0 4 7). lia.
Defined.

(* ===================================================================== *)
(** * Further properties of [_read_val] and of the format strings *)
(* ===================================================================== *)

(** ** Integers are numbers *)

Lemma shr_1_nonneg (mrs : shr_record) :
  0 <= shr_m mrs -> 0 <= shr_m (shr_1 mrs).
Proof.
  destruct mrs as [m r s]. destruct m as [|p|p]; cbn [shr_m]; intros H;
    [reflexivity | destruct p; cbn; lia | lia].
Qed.

Lemma iter_shr_1_nonneg (p : positive) (mrs : shr_record) :
  0 <= shr_m mrs -> 0 <= shr_m (SpecFloat.iter_pos shr_1 p mrs).
Proof.
  revert mrs. induction p as [p IH|p IH|]; intros mrs H; cbn [SpecFloat.iter_pos].
  - apply IH, IH, shr_1_nonneg, H.
  - apply IH, IH, H.
  - apply shr_1_nonneg, H.
Qed.

Lemma shr_fexp_nonneg (m e : Z) (l : location) :
  0 <= m -> 0 <= shr_m (fst (shr_fexp Num.prec Num.emax m e l)).
Proof.
  intros H. unfold shr_fexp, shr.
  assert (H0 : 0 <= shr_m (shr_record_of_loc m l))
    by (destruct l as [|[]]; exact H).
  destruct (fexp _ _ _ - e) as [|p|p]; cbn [fst]; try exact H0.
  now apply iter_shr_1_nonneg.
Qed.

Lemma binary_round_aux_not_nan (sx : bool) (mx ex : Z) (lx : location) :
  0 <= mx ->
  Num.isNaN (binary_round_aux Num.prec Num.emax sx mx ex lx) = false.
Proof.
  intros H. unfold binary_round_aux.
  pose proof (shr_fexp_nonneg mx ex lx H) as H1.
  destruct (shr_fexp Num.prec Num.emax mx ex lx) as [mrs' e'].
  cbn [fst] in H1.
  assert (H2 : 0 <= round_nearest_even (shr_m mrs') (loc_of_shr_record mrs')).
  { unfold round_nearest_even.
    destruct (loc_of_shr_record mrs') as [|[]]; try exact H1.
    - destruct (Z.even _); lia.
    - lia. }
  pose proof (shr_fexp_nonneg _ e' loc_Exact H2) as H3.
  destruct (shr_fexp Num.prec Num.emax _ e' loc_Exact) as [mrs'' e''].
  cbn [fst] in H3.
  destruct (shr_m mrs'') as [|p|p]; [reflexivity | | lia].
  now destruct (_ <=? _).
Qed.

(** A number made from an integer is not a NaN. *)
Lemma of_int_not_nan (z : Z) : Num.isNaN (Num.of_int z) = false.
Proof.
  unfold Num.of_int, binary_normalize, binary_round.
  destruct z as [|p|p]; [reflexivity | |];
    destruct (shl_align _ _ _) as [mz ez];
    apply binary_round_aux_not_nan; lia.
Qed.

(** X7: in a 64-bit file that is not big-endian, an integer field of 8
    bytes is read from its first six bytes as a signed 48-bit integer; the
    last two bytes play no part. *)
Theorem read_int_u64_ignores_high_bytes (P : platform)
        (e : option ReadVal.endian) (df : option Dates.formatter)
        (six : list byte) (b6 b7 : byte) :
  List.length six = 6%nat ->
  e <> Some ReadVal.big ->
  ReadVal._read_val P true e df ReadVal.F_i (six ++ [b6; b7]) 8
  = Ret (VNumber (Num.of_int (Num.signed 6 (Num.le_value six)))).
Proof.
  intros Hlen He. unfold ReadVal._read_val.
  cbn [andb Z.eqb Pos.eqb ReadVal.is_numeric_kind ReadVal.letter_of].
  replace 8 with (Z.of_nat (List.length (six ++ [b6; b7])))
    by (rewrite length_app, Hlen; reflexivity).
  rewrite slice_all.
  assert (Hbig : match e with Some ReadVal.big => true | _ => false end
                 = false)
    by (destruct e as [[|]|]; congruence).
  rewrite Hbig. cbn [ReadVal.struct_unpack]. unfold Num.readInt.
  rewrite length_app, Hlen. cbn [List.length Nat.add Nat.ltb Nat.leb].
  rewrite firstn_app, Hlen, Nat.sub_diag. cbn [firstn].
  rewrite app_nil_r, <- Hlen, firstn_all. cbn [bind].
  rewrite of_int_not_nan. now rewrite Hlen.
Qed.

Lemma read_int_u64_ignores_high_bytes_witness :
  ReadVal._read_val ascii_platform true (Some ReadVal.little) None
                    ReadVal.F_i
                    ([x0a; x00; x00; x00; x00; x00] ++ [xff; xff]) 8
  = Ret (VNumber (Num.of_int (Num.signed 6
                     (Num.le_value [x0a; x00; x00; x00; x00; x00])))).
Proof.
  apply (read_int_u64_ignores_high_bytes
           ascii_platform (Some ReadVal.little) None
           [x0a; x00; x00; x00; x00; x00] xff xff).
  - reflexivity.
  - discriminate.
Defined.

(** X8: reading a plain number never fails and does not look at [size]:
    whatever the bytes of the field and the size passed, the result is
    [null] or a number that is not a NaN. *)
Theorem read_number_never_fails (P : platform) (u64 : bool)
        (e : option ReadVal.endian) (df : option Dates.formatter)
        (raw_bytes : list byte) (size size' : Z) :
  ReadVal._read_val P u64 e df ReadVal.F_number raw_bytes size
  = ReadVal._read_val P u64 e df ReadVal.F_number raw_bytes size'
  /\ (ReadVal._read_val P u64 e df ReadVal.F_number raw_bytes size
      = Ret VNull
      \/ exists x,
          Num.isNaN x = false
          /\ ReadVal._read_val P u64 e df ReadVal.F_number raw_bytes size
             = Ret (VNumber x)).
Proof.
  rewrite !read_val_numeric by reflexivity. split; [reflexivity|].
  unfold field_double, Num.readDouble.
  assert (Hlen : (8 <= List.length (ReadVal.pad e raw_bytes))%nat).
  { destruct (Nat.lt_ge_cases (List.length raw_bytes) 8) as [H|H].
    - destruct (pad_short e raw_bytes H) as [-> ->]. lia.
    - now rewrite pad_long. }
  destruct (Nat.ltb_spec (List.length (ReadVal.pad e raw_bytes)) 8);
    [lia|].
  cbn [bind]. destruct (Num.isNaN _) eqn:Hnan; [now left|].
  right. eexists. split; [exact Hnan | reflexivity].
Qed.

(** ** The sets of format strings *)

Lemma includes_string_In (arr : list string) (x : string) :
  Reader.includes_string arr x = true <-> In x arr.
Proof.
  unfold Reader.includes_string. rewrite existsb_exists. split.
  - intros (y & Hy & Heq). apply String.eqb_eq in Heq. now subst.
  - intros H. exists x. split; [exact H | apply String.eqb_refl].
Qed.

Lemma update_format_strings_fold (l arr : list string) :
  let result :=
      fold_left (fun arr format_string =>
                   if negb (Reader.includes_string arr format_string)
                   then arr ++ [format_string] else arr) l arr in
  (exists added, result = arr ++ added)
  /\ (forall x, In x result <-> In x arr \/ In x l)
  /\ (NoDup arr -> NoDup result).
Proof.
  revert arr. induction l as [|s l IH]; intros arr; cbn [fold_left].
  - split; [exists []; now rewrite app_nil_r|].
    split; [intros x; cbn; tauto | tauto].
  - destruct (Reader.includes_string arr s) eqn:Hin; cbn [negb].
    + apply includes_string_In in Hin.
      destruct (IH arr) as ((added & Hadd) & Hmem & Hnd).
      split; [now exists added|]. split; [|exact Hnd].
      intros x. rewrite Hmem. cbn [In]. intuition (subst; auto).
    + assert (Hnot : ~ In s arr)
        by (intros Hc; apply includes_string_In in Hc; congruence).
      destruct (IH (arr ++ [s])) as ((added & Hadd) & Hmem & Hnd).
      split; [exists (s :: added); now rewrite Hadd, <- app_assoc|].
      split.
      * intros x. rewrite Hmem, in_app_iff. cbn [In]. tauto.
      * intros Harr. apply Hnd. apply NoDup_app. split; [exact Harr|].
        split; [|apply NoDup_singleton].
        intros y Hy Hy'. apply list_elem_of_In in Hy, Hy'.
        cbn in Hy'. destruct Hy' as [<-|[]]. contradiction.
Qed.

(** X9: [_update_format_strings] keeps the strings of the set in place and
    appends the new ones: a string belongs to the result exactly when it
    belonged to the set or is among the strings given, and a set without
    duplicates stays so. *)
Theorem update_format_strings_extends (arr : list string)
        (format_strings : option (list string)) (x : string) :
  (exists added,
      Reader._update_format_strings arr format_strings = arr ++ added)
  /\ (In x (Reader._update_format_strings arr format_strings)
      <-> In x arr \/ In x (extra_formats format_strings))
  /\ (NoDup arr ->
      NoDup (Reader._update_format_strings arr format_strings)).
Proof.
  unfold Reader._update_format_strings, extra_formats.
  destruct format_strings as [l|]; cbn [default from_option id].
  - destruct (update_format_strings_fold l arr) as (Hadd & Hmem & Hnd).
    split; [exact Hadd|]. split; [apply Hmem | exact Hnd].
  - split; [exists []; now rewrite app_nil_r|].
    split; [cbn; tauto | tauto].
Qed.

Lemma update_format_strings_extends_witness :
  NoDup (Reader._update_format_strings ["TIME"%string]
                                       (Some ["HHMM"; "TIME"; "HHMM"]%string))
  /\ Reader._update_format_strings ["TIME"%string]
                                   (Some ["HHMM"; "TIME"; "HHMM"]%string)
     = ["TIME"; "HHMM"]%string.
Proof.
  split; [|reflexivity].
  apply (update_format_strings_extends
           ["TIME"%string] (Some ["HHMM"; "TIME"; "HHMM"]%string)
           "TIME"%string).
  apply NoDup_singleton.
Defined.

Lemma includes_update (arr : list string) (o : option (list string))
      (f : string) :
  Reader.includes_string (Reader._update_format_strings arr o) f = true
  <-> In f arr \/ In f (extra_formats o).
Proof.
  rewrite includes_string_In.
  apply (update_format_strings_extends arr o f).
Qed.

(** X10: how the options of the constructor decide the reading of a number
    column wider than two bytes.  A column whose format is not empty is
    read as a time when the format is [TIME] or one of the extra time
    formats; failing that, as a datetime when it is [DATETIME] or one of
    the extra datetime formats; failing that, as a date when it is one of
    the seven date formats or of the extra ones. *)
Theorem number_fmt_of_constructor (o : Reader.constructor_options)
        (f : string) :
  let opts := Reader.new_SAS7BDAT o in
  let is_time :=
      In f default_time_formats
      \/ In f (extra_formats (Reader.extraTimeFormatStrings o)) in
  let is_datetime :=
      In f default_datetime_formats
      \/ In f (extra_formats (Reader.extraDatetimeFormatStrings o)) in
  let is_date :=
      In f default_date_formats
      \/ In f (extra_formats (Reader.extraDateFormatStrings o)) in
  (Reader.number_fmt opts f = ReadVal.F_time
   <-> f <> ""%string /\ is_time)
  /\ (Reader.number_fmt opts f = ReadVal.F_datetime
      <-> f <> ""%string /\ ~ is_time /\ is_datetime)
  /\ (Reader.number_fmt opts f = ReadVal.F_date
      <-> f <> ""%string /\ ~ is_time /\ ~ is_datetime /\ is_date).
Proof.
  intros opts is_time is_datetime is_date.
  unfold Reader.number_fmt.
  pose proof (includes_update default_time_formats
                (Reader.extraTimeFormatStrings o) f) as Ht.
  pose proof (includes_update default_datetime_formats
                (Reader.extraDatetimeFormatStrings o) f) as Hdt.
  pose proof (includes_update default_date_formats
                (Reader.extraDateFormatStrings o) f) as Hd.
  change (Reader.TIME_FORMAT_STRINGS opts)
    with (Reader._update_format_strings default_time_formats
            (Reader.extraTimeFormatStrings o)).
  change (Reader.DATE_TIME_FORMAT_STRINGS opts)
    with (Reader._update_format_strings default_datetime_formats
            (Reader.extraDatetimeFormatStrings o)).
  change (Reader.DATE_FORMAT_STRINGS opts)
    with (Reader._update_format_strings default_date_formats
            (Reader.extraDateFormatStrings o)).
  fold is_time in Ht. fold is_datetime in Hdt. fold is_date in Hd.
  destruct (String.eqb_spec f "") as [Hempty|Hne].
  { subst f. cbn. intuition discriminate. }
  destruct (Reader.includes_string
              (Reader._update_format_strings default_time_formats _) f).
  { assert is_time by now apply Ht.
    intuition discriminate. }
  assert (~ is_time) by (intros Hc; apply Ht in Hc; discriminate).
  destruct (Reader.includes_string
              (Reader._update_format_strings default_datetime_formats _) f).
  { assert is_datetime by now apply Hdt.
    intuition discriminate. }
  assert (~ is_datetime) by (intros Hc; apply Hdt in Hc; discriminate).
  destruct (Reader.includes_string
              (Reader._update_format_strings default_date_formats _) f).
  { assert is_date by now apply Hd.
    intuition discriminate. }
  assert (~ is_date) by (intros Hc; apply Hd in Hc; discriminate).
  intuition discriminate.
Qed.

Lemma number_fmt_of_constructor_witness :
  Reader.number_fmt
    (Reader.new_SAS7BDAT
       (Reader.mkConstructorOptions None None (Some ["E8601DA"%string])
                                    None None None None None))
    "E8601DA"
  = ReadVal.F_date.
Proof.
  apply (proj2 (proj2 (number_fmt_of_constructor
                         (Reader.mkConstructorOptions
                            None None (Some ["E8601DA"%string])
                            None None None None None)
                         "E8601DA"%string))).
  split; [discriminate|]. split; [|split].
  - vm_compute. intuition discriminate.
  - vm_compute. intuition discriminate.
  - right. left. reflexivity.
Defined.

(* ===================================================================== *)
(** * More on [readline] and [_process_byte_array_with_data] *)
(* ===================================================================== *)

Section ReaderCalls.

Variable P : platform.
Variable opts : Reader.options.
Variable parse_header : Reader.SAS7BDAT -> res Reader.SAS7BDAT.
Variable _read_next_page : Reader.SAS7BDAT -> res Reader.SAS7BDAT.

Local Abbreviation readline :=
  (Reader.readline P opts parse_header _read_next_page).
Local Abbreviation readlines :=
  (Reader.readlines P opts parse_header _read_next_page).
Local Abbreviation process := (Reader._process_byte_array_with_data P opts).

(** ** The end of the data *)






(** ** Rows of the three kinds of page *)



Lemma next_page_cached (this this' : Reader.SAS7BDAT) :
  Reader.next_page _read_next_page this = Ret this' ->
  exists s, _read_next_page this = Ret s
            /\ this' = Reader.set_current_row_on_page_index 0 s.
Proof.
  unfold Reader.next_page.
  destruct (_read_next_page this) as [s|]; cbn [bind]; [|discriminate].
  intros [= <-]. now exists s.
Qed.





(** ** Counting the lines *)

(** What the reading of a row leaves alone. *)
Lemma read_row_keeps {A : Type} (f : Reader.SAS7BDAT -> A) :
  (forall v s, f (Reader.set_current_row v s) = f s) ->
  (forall v s, f (Reader.set_current_row_on_page_index v s) = f s) ->
  (forall s s', _read_next_page s = Ret s' -> f s' = f s) ->
  forall this this',
    read_row P opts _read_next_page this = Ret this' -> f this' = f this.
Proof.
  intros Hrow Hidx Hpage.
  assert (Hnext : forall s s', Reader.next_page _read_next_page s = Ret s' ->
                               f s' = f s).
  { intros s s' E. destruct (next_page_cached s s' E) as (s0 & Hs0 & ->).
    rewrite Hidx. now apply Hpage. }
  intros this this'. unfold read_row.
  destruct (_ =? Reader.PAGE_META_TYPE).
  { unfold Reader.readline_meta.
    destruct ((_ <? _) && (0 <=? _)); [|apply Hnext].
    destruct (_ !! _) as [ptr|]; [|discriminate].
    destruct (Reader._process_byte_array_with_data _ _ _ _ _) as [row|e];
      cbn [bind]; [|discriminate].
    destruct (_ =? _).
    - intros E. rewrite (Hnext _ _ E). now rewrite Hrow, Hidx.
    - intros [= <-]. now rewrite Hrow, Hidx. }
  destruct (Reader.includes _ _).
  { unfold Reader.readline_mix.
    destruct (Reader._process_byte_array_with_data _ _ _ _ _) as [row|e];
      cbn [bind]; [|discriminate].
    destruct (_ =? _).
    - intros E. rewrite (Hnext _ _ E). now rewrite Hidx, Hrow.
    - intros [= <-]. now rewrite Hidx, Hrow. }
  destruct (_ =? Reader.PAGE_DATA_TYPE); [|discriminate].
  unfold Reader.readline_data.
  destruct (Reader._process_byte_array_with_data _ _ _ _ _) as [row|e];
    cbn [bind]; [|discriminate].
  destruct (_ =? _).
  - intros E. rewrite (Hnext _ _ E). now rewrite Hidx, Hrow.
  - intros [= <-]. now rewrite Hidx, Hrow.
Qed.

(** One call of [readline] on a reader whose header is parsed: a row is
    returned only while rows remain, and is counted. *)
Lemma readline_counts (this this' : Reader.SAS7BDAT) (l : Reader.line) :
  (forall s s', _read_next_page s = Ret s' ->
                Reader.row_count (Reader.properties s')
                = Reader.row_count (Reader.properties s)
                /\ Reader.current_row_in_file_index s'
                   = Reader.current_row_in_file_index s
                /\ Reader.parsed_header s' = Reader.parsed_header s) ->
  Reader.parsed_header this = true ->
  readline this = Ret (this', l) ->
  Reader.parsed_header this' = true
  /\ Reader.row_count (Reader.properties this')
     = Reader.row_count (Reader.properties this)
  /\ (if is_row l
      then Reader.current_row_in_file_index this
           < Reader.row_count (Reader.properties this)
           /\ Reader.current_row_in_file_index this'
              = Reader.current_row_in_file_index this + 1
      else Reader.current_row_in_file_index this'
           = Reader.current_row_in_file_index this).
Proof.
  intros Hkeep Hparsed.
  unfold Reader.readline. rewrite Hparsed. cbn [negb bind].
  fold (with_decoded_names P opts this).
  set (this0 := with_decoded_names P opts this).
  assert (H0 : Reader.parsed_header this0 = Reader.parsed_header this
               /\ Reader.current_row_in_file_index this0
                  = Reader.current_row_in_file_index this
               /\ Reader.properties this0 = Reader.properties this)
    by (unfold this0, with_decoded_names;
        now destruct (Reader.column_names_strings_decoded this)).
  destruct H0 as (Hp0 & Hi0 & Hpr0).
  destruct (negb (Reader.skip_header opts) && _ && _).
  { intros [= <- <-]. cbn. rewrite Hp0, Hi0, Hpr0. auto. }
  destruct (Reader.cached_page this0); cbn [bind]; [|discriminate].
  rewrite Hi0.
  destruct (Reader.current_row_in_file_index this
            <? Reader.row_count (Reader.properties this)) eqn:Hlt.
  - apply Z.ltb_lt in Hlt.
    set (this1 := Reader.set_current_row_in_file_index _ this0).
    fold (read_row P opts _read_next_page this1).
    destruct (read_row P opts _read_next_page this1) as [this2|e] eqn:E;
      cbn [bind]; [|discriminate].
    assert (Hp2 : Reader.parsed_header this2 = Reader.parsed_header this1)
      by (apply (read_row_keeps Reader.parsed_header) with (this := this1);
          [reflexivity | reflexivity | intros s s' Hs; apply (Hkeep s s' Hs)
           | exact E]).
    assert (Hi2 : Reader.current_row_in_file_index this2
                  = Reader.current_row_in_file_index this1)
      by (apply (read_row_keeps Reader.current_row_in_file_index)
            with (this := this1);
          [reflexivity | reflexivity | intros s s' Hs; apply (Hkeep s s' Hs)
           | exact E]).
    assert (Hr2 : Reader.row_count (Reader.properties this2)
                  = Reader.row_count (Reader.properties this1))
      by (apply (read_row_keeps
                   (fun s => Reader.row_count (Reader.properties s)))
            with (this := this1);
          [reflexivity | reflexivity | intros s s' Hs; apply (Hkeep s s' Hs)
           | exact E]).
    assert (Hres : Reader.parsed_header this2 = true
                   /\ Reader.row_count (Reader.properties this2)
                      = Reader.row_count (Reader.properties this)
                   /\ Reader.current_row_in_file_index this2
                      = Reader.current_row_in_file_index this + 1).
    { rewrite Hp2, Hi2, Hr2. unfold this1. cbn.
      now rewrite Hp0, Hpr0, Hparsed. }
    destruct Hres as (? & ? & ?).
    destruct (String.eqb _ "object"); intros [= <- <-]; cbn; auto.
  - intros [= <- <-]. cbn. rewrite Hp0, Hpr0, ?Hi0. auto.
Qed.

(** X16: however often [readline] is called, it returns no more rows than
    the row count of the header leaves: with [current_row_in_file_index]
    at [i], at most [row_count - i] of the lines are rows. *)
Theorem at_most_row_count_rows (n : nat) (this : Reader.SAS7BDAT) :
  Reader.parsed_header this = true ->
  (forall s s', _read_next_page s = Ret s' ->
                Reader.row_count (Reader.properties s')
                = Reader.row_count (Reader.properties s)
                /\ Reader.current_row_in_file_index s'
                   = Reader.current_row_in_file_index s
                /\ Reader.parsed_header s' = Reader.parsed_header s) ->
  Z.of_nat (count_rows (snd (readlines n this)))
  <= Z.max 0 (Reader.row_count (Reader.properties this)
              - Reader.current_row_in_file_index this).
Proof.
  intros Hparsed Hkeep. revert this Hparsed.
  induction n as [|n IH]; intros this Hparsed.
  - cbn. lia.
  - cbn [Reader.readlines].
    destruct (readline this) as [[this' l]|e] eqn:E; [|cbn; lia].
    destruct (readline_counts this this' l Hkeep Hparsed E)
      as (Hp' & Hr' & Hl).
    specialize (IH this' Hp').
    destruct (readlines n this') as [final ls] eqn:Els.
    cbn [snd] in *. unfold count_rows in *. cbn [List.filter].
    rewrite Hr' in IH.
    destruct (is_row l); cbn [List.length].
    + destruct Hl as (Hlt & Hi'). rewrite Hi' in IH. lia.
    + rewrite Hl in IH. exact IH.
Qed.

(** One call of [readline] once the header row is dealt with. *)
Lemma readline_past_header (this this' : Reader.SAS7BDAT)
      (l : Reader.line) :
  (forall s s', parse_header s = Ret s' ->
                Reader.sent_header s' = Reader.sent_header s) ->
  (forall s s', _read_next_page s = Ret s' ->
                Reader.sent_header s' = Reader.sent_header s) ->
  readline this = Ret (this', l) ->
  header_row_done opts this' /\ (header_row_done opts this -> is_header l = false).
Proof.
  intros Hparse Hpage. unfold Reader.readline.
  destruct (if negb (Reader.parsed_header this) then _ else _)
    as [this0|e] eqn:E0; cbn [bind]; [|discriminate].
  assert (Hs0 : Reader.sent_header this0 = Reader.sent_header this).
  { destruct (negb (Reader.parsed_header this)).
    - destruct (parse_header this) as [s|] eqn:Es; cbn [bind] in E0;
        [|discriminate].
      injection E0 as <-. cbn. now apply Hparse.
    - now injection E0 as <-. }
  set (this1 := match Reader.column_names_strings_decoded this0 with
                | Some _ => _ | None => _ end).
  assert (Hs1 : Reader.sent_header this1 = Reader.sent_header this)
    by (unfold this1;
        now destruct (Reader.column_names_strings_decoded this0)).
  destruct (negb (Reader.skip_header opts) && negb (Reader.sent_header this1)
            && String.eqb (Reader.row_format opts) "array") eqn:Ec.
  { intros [= <- <-]. split; [right; left; reflexivity|].
    intros Hdone. exfalso.
    apply andb_true_iff in Ec as [Ec Hrf].
    apply andb_true_iff in Ec as [Hskip Hsent].
    rewrite Hs1 in Hsent. apply String.eqb_eq in Hrf.
    destruct Hdone as [H|[H|H]].
    - now rewrite H in Hskip.
    - now rewrite H in Hsent.
    - contradiction. }
  assert (Hdone1 : header_row_done opts this1).
  { unfold header_row_done.
    destruct (Reader.skip_header opts); [now left|].
    destruct (Reader.sent_header this1); [right; now left|].
    right; right. cbn in Ec. now apply String.eqb_neq. }
  destruct (Reader.cached_page this1); cbn [bind]; [|discriminate].
  destruct (_ <? _).
  - set (this2 := Reader.set_current_row_in_file_index _ this1).
    fold (read_row P opts _read_next_page this2).
    destruct (read_row P opts _read_next_page this2) as [this3|e] eqn:E;
      cbn [bind]; [|discriminate].
    assert (Hs3 : Reader.sent_header this3 = Reader.sent_header this1)
      by (apply (read_row_keeps Reader.sent_header) with (this := this2);
          [reflexivity | reflexivity | exact Hpage | exact E]).
    assert (Hdone3 : header_row_done opts this3)
      by (unfold header_row_done in *; now rewrite Hs3).
    destruct (String.eqb _ "object"); intros [= <- <-]; split; auto.
  - intros [= <- <-]. split; [exact Hdone1 | reflexivity].
Qed.

(** X17: the header row comes at most once, and first: after a call of
    [readline] that returned, no later call returns a header row. *)
Theorem header_row_at_most_once (n : nat)
        (this this' : Reader.SAS7BDAT) (l : Reader.line) :
  (forall s s', parse_header s = Ret s' ->
                Reader.sent_header s' = Reader.sent_header s) ->
  (forall s s', _read_next_page s = Ret s' ->
                Reader.sent_header s' = Reader.sent_header s) ->
  readline this = Ret (this', l) ->
  forallb (fun l' => negb (is_header l')) (snd (readlines n this')) = true.
Proof.
  intros Hparse Hpage Hfirst.
  destruct (readline_past_header this this' l Hparse Hpage Hfirst)
    as (Hdone & _).
  clear Hfirst. revert this' Hdone.
  induction n as [|n IH]; intros this' Hdone; [reflexivity|].
  cbn [Reader.readlines].
  destruct (readline this') as [[this'' l']|e] eqn:E; [|reflexivity].
  destruct (readline_past_header this' this'' l' Hparse Hpage E)
    as (Hdone' & Hl').
  specialize (IH this'' Hdone').
  destruct (readlines n this'') as [final ls].
  cbn [snd forallb] in *. now rewrite (Hl' Hdone), IH.
Qed.

(** ** The columns of a row *)

Lemma read_columns_length (this : Reader.SAS7BDAT)
      (source : option (list byte)) (offset : Z) (n i : nat)
      (acc row : list value) :
  Reader.read_columns P opts this source offset n i acc = Ret row ->
  (List.length row <= List.length acc + n)%nat.
Proof.
  revert i acc. induction n as [|n IH]; intros i acc Hrow.
  - injection Hrow as <-. lia.
  - cbn [Reader.read_columns] in Hrow.
    destruct (Reader.read_column P opts this source offset i)
      as [[v|]|e]; cbn [bind] in Hrow; [| |discriminate].
    + apply IH in Hrow. rewrite length_app in Hrow. cbn in Hrow. lia.
    + injection Hrow as <-. lia.
Qed.

(** X18: a row has at most [column_count] values, and a column of length
    0 ends it: neither this column nor any column after it gets a
    value. *)
Theorem zero_length_column_ends_row (this : Reader.SAS7BDAT)
        (offset length : Z) (row : list value) (j : nat) :
  process this offset length = Ret row ->
  (List.length row
   <= Z.to_nat (Reader.column_count (Reader.properties this)))%nat
  /\ (Reader.column_data_lengths this !! j = Some 0 ->
      (List.length row <= j)%nat).
Proof.
  unfold Reader._process_byte_array_with_data.
  destruct (Reader.row_source this offset length) as [[source offset']|e];
    cbn [bind fst snd]; [|discriminate].
  intros Hrow. split.
  - apply read_columns_length in Hrow. cbn in Hrow. lia.
  - intros Hzero.
    destruct (read_columns_positions P opts this source offset' _ 0 [] row
                Hrow eq_refl) as (pushed & -> & Hpushed).
    cbn [app]. destruct (Nat.le_gt_cases (List.length pushed) j) as [|Hgt];
      [assumption|exfalso].
    destruct (lookup_lt_is_Some_2 pushed j Hgt) as (val & Hval).
    specialize (Hpushed j val Hval). cbn [Nat.add] in Hpushed.
    unfold Reader.read_column in Hpushed. rewrite Hzero in Hpushed.
    rewrite bool_decide_eq_true_2 in Hpushed by reflexivity.
    discriminate.
Qed.

Lemma slice_length_le (buf : list byte) (a b : Z) :
  a < 0 \/ 0 <= b ->
  Z.of_nat (List.length (slice buf a b)) <= Z.max 0 (b - a).
Proof.
  intros Hab. unfold slice. rewrite length_firstn.
  set (len := Z.of_nat (List.length buf)).
  assert (Hlen : 0 <= len) by (unfold len; lia).
  assert (Z.max (clamp len a) (clamp len b) - clamp len a
          <= Z.max 0 (b - a)).
  { unfold clamp. destruct (a <? 0) eqn:Ha; destruct (b <? 0) eqn:Hb;
      try apply Z.ltb_lt in Ha; try apply Z.ltb_lt in Hb;
      try apply Z.ltb_ge in Ha; try apply Z.ltb_ge in Hb; lia. }
  lia.
Qed.

Lemma le_value_range (bs : list byte) :
  0 <= Num.le_value bs < 256 ^ Z.of_nat (List.length bs).
Proof.
  induction bs as [|b bs IH].
  - cbn. lia.
  - cbn [Num.le_value List.length].
    pose proof (byte_val_range b) as Hb.
    rewrite Nat2Z.inj_succ, Z.pow_succ_r by lia. lia.
Qed.

Lemma readInt_16 (is_big : bool) (buf : list byte) :
  Num.readInt is_big 2 buf = Throw RangeError
  \/ exists z, -32768 <= z <= 32767 /\ Num.readInt is_big 2 buf = Ret z.
Proof.
  unfold Num.readInt.
  destruct (List.length buf <? 2)%nat eqn:Hlen; [now left|right].
  apply Nat.ltb_ge in Hlen.
  set (bs := firstn 2 buf).
  assert (Hbs : List.length bs = 2%nat)
    by (unfold bs; rewrite length_firstn; lia).
  set (u := if is_big then Num.be_value bs else Num.le_value bs).
  assert (Hu : 0 <= u < 65536).
  { unfold u, Num.be_value. destruct is_big.
    - pose proof (le_value_range (rev bs)) as H.
      rewrite length_rev, Hbs in H. exact H.
    - pose proof (le_value_range bs) as H. rewrite Hbs in H. exact H. }
  exists (Num.signed (Z.of_nat 2) u). split; [|reflexivity].
  unfold Num.signed. change (2 ^ (8 * Z.of_nat 2 - 1)) with 32768.
  change (2 ^ (8 * Z.of_nat 2)) with 65536.
  destruct (u <? 32768) eqn:E;
    [apply Z.ltb_lt in E | apply Z.ltb_ge in E]; lia.
Qed.

(** X19: a number column of at most two bytes is read as a 16-bit
    integer, whatever its format says: the value is an integer between
    -32768 and 32767, never a date or [null].  When its length is 1, the
    two bytes are not there and the read fails with a [RangeError]. *)
Theorem narrow_number_column (this : Reader.SAS7BDAT) (buf : list byte)
        (offset : Z) (i : nat) (col : Reader.Column) (len : Z) :
  Reader.columns this !! i = Some col ->
  Reader.type col = Reader.number ->
  Reader.column_data_lengths this !! i = Some len ->
  len <= 2 ->
  len <> 0 ->
  let result := Reader.read_column P opts this (Some buf) offset i in
  (len = 1 -> result = Throw RangeError)
  /\ (result = Throw RangeError
      \/ exists z, -32768 <= z <= 32767
                   /\ result = Ret (Some (VNumber (Num.of_int z)))).
Proof.
  intros Hcol Htype Hlen Hle Hne result.
  unfold result, Reader.read_column. rewrite Hlen, Hcol, Htype.
  rewrite bool_decide_eq_false_2 by (intros [= ->]; contradiction).
  set (temp := match Reader.column_data_offsets this !! i with
               | Some data_offset => _
               | None => _
               end).
  assert (Htemp : exists a, temp = Ret (slice buf a (a + len))
                            \/ temp = Ret (slice buf 0 0)).
  { unfold temp.
    destruct (Reader.column_data_offsets this !! i) as [o|].
    - exists (offset + o). now left.
    - exists 0. now right. }
  destruct Htemp as (a & Htemp).
  assert (Hval : forall t,
             Reader.read_val P opts this ReadVal.F_h t len
             = let* z := Num.readInt
                           match Reader.endianess (Reader.properties this)
                           with Some ReadVal.big => true | _ => false end
                           2 (slice t 0 len) in
               Ret (VNumber (Num.of_int z))).
  { intros t. unfold Reader.read_val, ReadVal._read_val.
    cbn [ReadVal.is_numeric_kind ReadVal.letter_of ReadVal.struct_unpack].
    destruct (Num.readInt _ 2 (slice t 0 len)) as [z|e]; cbn [bind];
      [|reflexivity].
    now rewrite (of_int_not_nan z). }
  rewrite bool_decide_eq_true_2 by (now exists len).
  cbn [andb default from_option id].
  assert (Hle2 : (len <=? 2) = true) by now apply Z.leb_le.
  rewrite Hle2.
  split.
  - intros Hone.
    assert (Hshort : forall t,
               Reader.read_val P opts this ReadVal.F_h t len
               = Throw RangeError).
    { intros t. rewrite Hval. unfold Num.readInt.
      pose proof (slice_length_le t 0 len ltac:(lia)) as Hs.
      assert (Hlt : (List.length (slice t 0 len) <? 2)%nat = true)
        by (apply Nat.ltb_lt; lia).
      now rewrite Hlt. }
    destruct Htemp as [-> | ->]; cbn [bind]; now rewrite Hshort.
  - assert (Hint : forall t,
               Reader.read_val P opts this ReadVal.F_h t len
               = Throw RangeError
               \/ exists z, -32768 <= z <= 32767
                            /\ Reader.read_val P opts this ReadVal.F_h t len
                               = Ret (VNumber (Num.of_int z))).
    { intros t. rewrite Hval.
      destruct (readInt_16
                  match Reader.endianess (Reader.properties this)
                  with Some ReadVal.big => true | _ => false end
                  (slice t 0 len)) as [-> | (z & Hz & ->)];
        [now left | right; now exists z]. }
    destruct Htemp as [-> | ->]; cbn [bind];
      match goal with
      | |- context [Reader.read_val P opts this ReadVal.F_h ?t len] =>
        destruct (Hint t) as [-> | (z & Hz & ->)]
      end; cbn [bind]; try (now left); right; now exists z.
Qed.

End ReaderCalls.

(** ** The example readers *)






Lemma at_most_row_count_rows_witness :
  Z.of_nat (count_rows
              (snd (Reader.readlines ascii_platform default_options
                                     parse_header_from_path
                                     read_next_page_at_eof
                                     5 example_data_reader)))
  <= Z.max 0 (2 - 0).
Proof.
  apply (at_most_row_count_rows
           ascii_platform default_options parse_header_from_path
           read_next_page_at_eof 5 example_data_reader).
  - reflexivity.
  - intros s s' [= <-]. repeat split.
Defined.

Lemma header_row_at_most_once_witness :
  match Reader.readline ascii_platform default_options
                        parse_header_from_path read_next_page_at_eof
                        example_reader with
  | Ret (this', l) =>
    l = Reader.Header ["x"; "s"]%string
    /\ forallb (fun l' => negb (is_header l'))
               (snd (Reader.readlines ascii_platform default_options
                                      parse_header_from_path
                                      read_next_page_at_eof 3 this'))
       = true
  | Throw _ => False
  end.
Proof.
  destruct (Reader.readline ascii_platform default_options
                            parse_header_from_path read_next_page_at_eof
                            example_reader)
    as [[this' l]|e] eqn:Hline.
  - split.
    + vm_compute in Hline. now injection Hline as <- <-.
    + apply (header_row_at_most_once
               ascii_platform default_options parse_header_from_path
               read_next_page_at_eof 3 example_reader this' l).
      * intros s s' [=].
      * intros s s' [= <-]. reflexivity.
      * exact Hline.
  - vm_compute in Hline. discriminate.
Defined.

(** With a second column of length 0, the row holds the first column
    only. *)
Lemma zero_length_column_ends_row_witness :
  match Reader._process_byte_array_with_data
          ascii_platform default_options example_empty_column_reader
          24 10 with
  | Ret row => (List.length row <= 1)%nat /\ row = [VNull]
  | Throw _ => False
  end.
Proof.
  destruct (Reader._process_byte_array_with_data
              ascii_platform default_options example_empty_column_reader
              24 10) as [row|e] eqn:Hrow.
  - split.
    + apply (zero_length_column_ends_row
               ascii_platform default_options example_empty_column_reader
               24 10 row 1 Hrow).
      reflexivity.
    + vm_compute in Hrow. now injection Hrow as <-.
  - vm_compute in Hrow. discriminate.
Defined.

(** A number column of one byte cannot be read. *)
Lemma narrow_number_column_witness :
  Reader.read_column ascii_platform default_options example_narrow_reader
                     (Some example_page) 24 0
  = Throw RangeError.
Proof.
  apply (narrow_number_column
           ascii_platform default_options example_narrow_reader
           example_page 24 0
           (Reader.mkColumn 0 [x78] [] "DATE" Reader.number 8) 1).
  - reflexivity.
  - reflexivity.
  - reflexivity.
  - lia.
  - lia.
  - reflexivity.
Defined.

(* ===================================================================== *)
(** * The header and the metadata *)
(* ===================================================================== *)

(** ** Buffers and the file *)

Lemma slice_forward (buf : list byte) (a n : Z) :
  0 <= a -> 0 <= n ->
  slice buf a (a + n) = firstn (Z.to_nat n) (skipn (Z.to_nat a) buf).
Proof.
  intros Ha Hn. unfold slice, clamp.
  set (len := Z.of_nat (List.length buf)).
  assert (Hlen : 0 <= len) by (unfold len; lia).
  destruct (Z.ltb_spec a 0); [lia|].
  destruct (Z.ltb_spec (a + n) 0); [lia|].
  destruct (Z.le_gt_cases a len) as [Hle|Hgt].
  - rewrite (Z.min_l a len) by lia.
    destruct (Z.le_gt_cases (a + n) len) as [Hle'|Hgt'].
    + rewrite (Z.min_l (a + n) len), Z.max_r by lia.
      f_equal. lia.
    + rewrite (Z.min_r (a + n) len), Z.max_r by lia.
      rewrite !firstn_all2; [reflexivity| |];
        rewrite length_skipn; unfold len in *; lia.
  - rewrite (Z.min_r a len), (Z.min_r (a + n) len), Z.max_l by lia.
    rewrite !skipn_all2 by (unfold len in *; lia).
    now rewrite !firstn_nil.
Qed.

Lemma Buffer_equals_eq (a b : list byte) :
  Header.Buffer_equals a b = true <-> a = b.
Proof.
  revert b. induction a as [|x a IH]; intros [|y b]; cbn; try easy.
  rewrite andb_true_iff, IH. split.
  - intros [Hxy ->]. f_equal.
    destruct (Byte.eqb x y) eqn:E; [|discriminate].
    now apply Byte.byte_dec_bl.
  - intros [= -> ->]. split; [|reflexivity].
    now apply Byte.byte_dec_lb.
Qed.

(** [read_file] with [offset] 0, for a position and a length that are
    not negative: the next [length] bytes of the file, fewer at its
    end. *)
Lemma read_file_forward (this : Header.SAS7BDAT) (file : list byte)
      (length : Z) :
  Header._file this = Some file ->
  0 <= Header.file_pos this ->
  0 <= length ->
  let buffer :=
      firstn (Z.to_nat length)
             (skipn (Z.to_nat (Header.file_pos this)) file) in
  Header.read_file this 0 length
  = Ret (Header.mkFileRead
           (Header.set_file_pos
              (Header.file_pos this + Z.of_nat (List.length buffer)) this)
           buffer (Z.of_nat (List.length buffer))).
Proof.
  intros Hfile Hpos Hlen buffer. unfold Header.read_file. rewrite Hfile.
  rewrite Z.add_0_l, (Z.add_comm length).
  rewrite slice_forward by assumption. fold buffer.
  now rewrite Z.min_id.
Qed.

Lemma bytes_left_spec (this : Header.SAS7BDAT) (file : list byte) :
  Header._file this = Some file ->
  Header.bytes_left this
  = List.length (skipn (Z.to_nat (Header.file_pos this)) file).
Proof.
  intros Hfile. unfold Header.bytes_left. rewrite Hfile.
  now rewrite length_skipn.
Qed.

Lemma read_file_page (this : Header.SAS7BDAT) (file : list byte)
      (page_length : Z) :
  Header._file this = Some file ->
  0 <= Header.file_pos this ->
  exists r,
    Header.read_file this 0 page_length = Ret r
    /\ Header._file (Header.reader r) = Some file
    /\ Header.properties (Header.reader r) = Header.properties this
    /\ Header.file_pos (Header.reader r)
       = Header.file_pos this + Z.of_nat (List.length (Header.buffer r))
    /\ Header.bytesRead r = Z.of_nat (List.length (Header.buffer r))
    /\ (Z.of_nat (List.length (Header.buffer r)) = page_length ->
        0 < page_length ->
        (Header.bytes_left (Header.reader r)
         < Header.bytes_left this)%nat).
Proof.
  intros Hfile Hpos. unfold Header.read_file. rewrite Hfile.
  eexists. split; [reflexivity|]. cbn [Header.reader Header.buffer
                                       Header.bytesRead].
  split; [exact Hfile|]. split; [reflexivity|]. split; [reflexivity|].
  split; [now rewrite Z.min_id|].
  intros Hfull Hpositive.
  unfold Header.bytes_left. cbn. rewrite Hfile.
  rewrite Z.add_0_l, (Z.add_comm page_length) in Hfull |- *.
  rewrite slice_forward in Hfull |- * by lia.
  rewrite length_firstn, length_skipn in Hfull |- *. lia.
Qed.

(** ** The subheader classes *)

(** No signature of the table leads to the data subheader. *)
Lemma signature_not_data (key : string) (index : Header.subheader_index) :
  Header.lookup_key Header.SUBHEADER_SIGNATURE_TO_INDEX key = Some index ->
  index <> Header.DATA_SUBHEADER_INDEX.
Proof.
  unfold Header.SUBHEADER_SIGNATURE_TO_INDEX. cbn [Header.lookup_key].
  repeat (match goal with
          | |- context [String.eqb ?k key] =>
            destruct (String.eqb k key); [intros [= <-]; discriminate|]
          end).
  discriminate.
Qed.

Lemma get_subheader_class_cases (this : Header.SAS7BDAT)
        (signature : list byte) (compression type : Z) :
  let known :=
      Header.lookup_key Header.SUBHEADER_SIGNATURE_TO_INDEX
                        (Header.hex signature) in
  let is_data :=
      known = None
      /\ Header.Properties.compression (Header.properties this) <> None
      /\ (compression = 4 \/ compression = 0)
      /\ type = 1 in
  exists index,
    Header.get_subheader_class this (Some signature) compression type
    = Ret index
    /\ (index = Some Header.DATA_SUBHEADER_INDEX <-> is_data)
    /\ (~ is_data -> index = known).
Proof.
  intros known is_data. unfold Header.get_subheader_class. fold known.
  pose proof (signature_not_data (Header.hex signature)) as Htable.
  fold known in Htable.
  unfold Header.COMPRESSED_SUBHEADER_ID, Header.COMPRESSED_SUBHEADER_TYPE.
  destruct (Header.not_null (Header.Properties.compression _)
            && negb (Header.not_null known)
            && ((compression =? 4) || (compression =? 0))
            && (type =? 1)) eqn:Hc.
  - assert (Hdata : is_data).
    { apply andb_true_iff in Hc as [Hc Ht].
      apply andb_true_iff in Hc as [Hc H40].
      apply andb_true_iff in Hc as [Hcomp Hknown].
      unfold is_data. split; [|split; [|split]].
      - now destruct known.
      - now destruct (Header.Properties.compression _).
      - apply orb_true_iff in H40 as [H|H]; apply Z.eqb_eq in H; lia.
      - now apply Z.eqb_eq. }
    exists (Some Header.DATA_SUBHEADER_INDEX).
    split; [reflexivity|]. split; [tauto|]. intros H. contradiction.
  - assert (Hnot : ~ is_data).
    { intros (Hknown & Hcomp & H40 & Ht). rewrite Hknown in Hc.
      assert (Header.not_null
                (Header.Properties.compression (Header.properties this))
              = true) by now destruct (Header.Properties.compression _).
      assert (((compression =? 4) || (compression =? 0)) = true)
        by (apply orb_true_iff; destruct H40 as [-> | ->]; auto).
      assert (H1 : (type =? 1) = true) by now apply Z.eqb_eq.
      rewrite H, H0, H1 in Hc. discriminate. }
    exists known. split; [reflexivity|]. split; [|reflexivity].
    split; [|tauto].
    intros Hk. exfalso. now apply (Htable _ Hk).
Qed.

(** X23: [get_subheader_class] gives the class of the table for a
    signature the table knows, whatever the pointer says; a signature it
    does not know makes a data subheader exactly when the file is
    compressed, the compression of the pointer is 4 or 0 and its type is
    1, and is no subheader at all otherwise. *)
Theorem subheader_class_of_signature (this : Header.SAS7BDAT)
        (signature : list byte) (compression type : Z) :
  let known :=
      Header.lookup_key Header.SUBHEADER_SIGNATURE_TO_INDEX
                        (Header.hex signature) in
  let is_data :=
      known = None
      /\ Header.Properties.compression (Header.properties this) <> None
      /\ (compression = 4 \/ compression = 0)
      /\ type = 1 in
  exists index,
    Header.get_subheader_class this (Some signature) compression type
    = Ret index
    /\ (forall i, known = Some i ->
                   index = Some i /\ i <> Header.DATA_SUBHEADER_INDEX)
    /\ (index = Some Header.DATA_SUBHEADER_INDEX <-> is_data)
    /\ (known = None -> ~ is_data -> index = None).
Proof.
  intros known is_data.
  destruct (get_subheader_class_cases this signature compression type)
    as (index & Hrun & Hdata & Hother).
  fold known in Hdata, Hother. fold is_data in Hdata, Hother.
  exists index. split; [exact Hrun|]. split; [|split; [exact Hdata|]].
  - intros i Hi.
    assert (Hnot : ~ is_data) by (intros (Hk & _); congruence).
    split; [rewrite (Hother Hnot); exact Hi|].
    exact (signature_not_data _ _ Hi).
  - intros Hk Hnot. now rewrite (Hother Hnot).
Qed.

(** ** Effects *)

Lemma untouched_refl (this : Header.SAS7BDAT) : untouched this this.
Proof. repeat split. Qed.

Lemma untouched_trans (a b c : Header.SAS7BDAT) :
  untouched a b -> untouched b c -> untouched a c.
Proof.
  unfold untouched. intros Hab Hbc.
  decompose [and] Hab. decompose [and] Hbc.
  repeat split; congruence.
Qed.

Lemma frame_trans (a b c : Header.SAS7BDAT) :
  frame a b -> frame b c -> frame a c.
Proof.
  intros (Hu & Hp & Hs) (Hu' & Hp' & Hs').
  split; [now apply (untouched_trans a b c)|].
  split; [congruence|].
  intros Ha. destruct (Hs Ha) as (Hc & Hb).
  destruct (Hs' Hb) as (Hc' & Hcn). split; [congruence | exact Hcn].
Qed.

Lemma bind_assoc {A B C : Type} (m : res A) (f : A -> res B)
      (g : B -> res C) :
  bind (bind m f) g = bind m (fun x => bind (f x) g).
Proof. now destruct m. Qed.

Lemma includes_type_In (types : list Z) (t : option Z) :
  Header.includes_type types t = true ->
  exists x, t = Some x /\ In x types.
Proof.
  destruct t as [x|]; [|discriminate]. cbn. intros H.
  apply existsb_exists in H as (y & Hy & Heq).
  apply Z.eqb_eq in Heq. subst y. now exists x.
Qed.

(** ** The methods of [SASHeader] and of the subheaders *)

Section HeaderFacts.

Variable P : platform.
Variable _read_bytes_from_file :
  Header.SAS7BDAT -> list (Z * Z) -> res (Z * Z * (Z -> option (list byte))).
Variable DataSubheader_process_subheader :
  Header.SAS7BDAT -> Z -> Z -> res Header.SAS7BDAT.

Local Abbreviation _read_bytes := (Header._read_bytes _read_bytes_from_file).

(** *** Reading integers *)

(** X20: for the integer formats ['i'], ['b'], ['h'] and ['q'],
    [_read_val] returns the integer that [struct_unpack] read, as a
    number: never [null], never a string; it fails only with the
    [RangeError] of a buffer too short. *)
Theorem read_val_integer (this : Header.SAS7BDAT)
        (df : option Dates.formatter) (f : ReadVal.fmt)
        (raw_bytes : list byte) (size : Z) :
  is_integer_format f = true ->
  ReadVal._read_val P (Header.u64 this) (Header.endianess this) df f
                    raw_bytes size
  = (let* z := Header.read_int this f (Some raw_bytes) size in
     Ret (VNumber (Num.of_int z)))
  /\ (forall e, Header.read_int this f (Some raw_bytes) size = Throw e ->
                e = RangeError).
Proof.
  intros Hf. unfold ReadVal._read_val, Header.read_int.
  set (f' := match f with
             | ReadVal.F_i => _
             | _ => f
             end).
  assert (Hf' : is_integer_format f' = true)
    by (unfold f'; destruct f; try discriminate; try reflexivity;
        now destruct (_ && _)).
  clearbody f'.
  assert (Hint : forall is_big n buf,
             (forall e, Num.readInt is_big n buf = Throw e -> e = RangeError)).
  { intros is_big n buf e. unfold Num.readInt.
    destruct (_ <? _)%nat; [now intros [= <-] | discriminate]. }
  destruct f'; try discriminate; cbn [ReadVal.is_numeric_kind
    ReadVal.letter_of ReadVal.struct_unpack].
  all: split; [|apply Hint].
  all: match goal with
       | |- context [Num.readInt ?b ?n ?buf] =>
         destruct (Num.readInt b n buf) as [z|e]; cbn [bind];
           [now rewrite of_int_not_nan | reflexivity]
       end.
Qed.

(** *** [parse] *)

(** X21: [parse] rejects a file of which fewer than 288 bytes are left
    with 'header too short', and a file whose first 32 bytes are not the
    magic number with 'magic number mismatch'. *)
Theorem parse_rejects_foreign_file (this : Header.SAS7BDAT)
        (file : list byte) :
  Header._file this = Some file ->
  0 <= Header.file_pos this ->
  ((Header.bytes_left this < 288)%nat ->
   Header.parse P _read_bytes_from_file this
   = Throw (Error_thrown "header too short (not a sas7bdat file?)"))
  /\ ((288 <= Header.bytes_left this)%nat ->
      firstn 32 (skipn (Z.to_nat (Header.file_pos this)) file)
      <> Header.MAGIC ->
      Header.parse P _read_bytes_from_file this
      = Throw (Error_thrown "magic number mismatch")).
Proof.
  intros Hfile Hpos.
  rewrite (bytes_left_spec this file Hfile).
  unfold Header.parse.
  rewrite (read_file_forward this file 288 Hfile Hpos) by lia.
  cbv zeta. cbn [bind Header.buffer Header.reader].
  set (rest := skipn (Z.to_nat (Header.file_pos this)) file).
  set (h := firstn (Z.to_nat 288) rest).
  assert (Hh : List.length h = Nat.min 288 (List.length rest))
    by (unfold h; now rewrite length_firstn).
  split.
  - intros Hshort.
    destruct (Z.ltb_spec (Z.of_nat (List.length h)) 288); [reflexivity|lia].
  - intros Hlong Hmagic.
    destruct (Z.ltb_spec (Z.of_nat (List.length h)) 288); [lia|].
    assert (Hcheck : Header.check_magic_number h = false).
    { apply not_true_is_false. unfold Header.check_magic_number.
      rewrite Buffer_equals_eq. intros Heq. apply Hmagic.
      rewrite Heq.
      change (Z.of_nat (List.length Header.MAGIC)) with (0 + 32).
      rewrite slice_forward by lia.
      change (Z.to_nat 32) with 32%nat. change (Z.to_nat 0) with 0%nat.
      rewrite skipn_O. unfold h. change (Z.to_nat 288) with 288%nat.
      now rewrite firstn_firstn. }
    now rewrite Hcheck.
Qed.

Lemma read_bytes_cached (this : Header.SAS7BDAT) (page : list byte)
      (o : list (Z * Z)) :
  Header.cached_page this = Some page ->
  _read_bytes this o = Ret (this, cached_vals page o).
Proof. intros H. unfold Header._read_bytes. now rewrite H. Qed.

(** A string is read only in a reader that is not big-endian. *)
Lemma read_str_not_big (this : Header.SAS7BDAT)
      (raw_bytes : option (list byte)) (size : Z) (s : string) :
  Header.read_str P this raw_bytes size = Ret s ->
  Header.endianess this <> Some ReadVal.big.
Proof.
  unfold Header.read_str, ReadVal._read_val.
  destruct raw_bytes as [raw|]; [|discriminate].
  cbn [ReadVal.is_numeric_kind ReadVal.letter_of ReadVal.struct_unpack].
  destruct (Header.endianess this) as [[|]|]; try discriminate.
Qed.

(** X22: when [parse] returns, the file is little-endian; the header
    length read from the file is at least 288, the cached page holds
    exactly that many bytes, the bytes of the file from the position at
    which [parse] started, and the file position has moved past them; and
    the reader's [u64] is that of [properties]. *)
Theorem parse_accepts (this this' : Header.SAS7BDAT) (file : list byte) :
  Header._file this = Some file ->
  0 <= Header.file_pos this ->
  Header.parse P _read_bytes_from_file this = Ret this' ->
  Header.endianess this' = Some ReadVal.little
  /\ Header.Properties.endianess (Header.properties this')
     = Some ReadVal.little
  /\ Header.u64 this' = Header.Properties.u64 (Header.properties this')
  /\ Header._file this' = Some file
  /\ exists n,
      Header.Properties.header_length (Header.properties this') = Some n
      /\ 288 <= n
      /\ Header.cached_page this'
         = Some (firstn (Z.to_nat n)
                        (skipn (Z.to_nat (Header.file_pos this)) file))
      /\ (Z.to_nat n <= Header.bytes_left this)%nat
      /\ Header.file_pos this' = Header.file_pos this + n.
Proof.
  intros Hfile Hpos.
  rewrite (bytes_left_spec this file Hfile).
  unfold Header.parse.
  rewrite (read_file_forward this file 288 Hfile Hpos) by lia.
  cbv zeta. cbn [bind Header.buffer Header.reader].
  set (rest := skipn (Z.to_nat (Header.file_pos this)) file).
  set (h := firstn (Z.to_nat 288) rest).
  assert (Hh : List.length h = Nat.min 288 (List.length rest))
    by (unfold h; now rewrite length_firstn).
  destruct (Z.ltb_spec (Z.of_nat (List.length h)) 288) as [|Hlong];
    [discriminate|].
  destruct (Header.check_magic_number h); cbn [negb]; [|discriminate].
  set (this1 := Header.set_cached_page (Some h) _).
  rewrite (read_bytes_cached this1 h) by reflexivity.
  cbn [bind fst snd].
  destruct (Header.equals_3 _) as [is_u64|]; cbn [bind]; [|discriminate].
  destruct (Header.equals_3 _) as [is_align1|]; cbn [bind]; [|discriminate].
  rewrite (read_bytes_cached this1 h) by reflexivity. cbn [bind fst snd].
  set (vals := cached_vals h _).
  destruct (Header.toString P (vals Header.ENDIANNESS_OFFSET))
    as [endianness_byte|]; cbn [bind]; [|discriminate].
  destruct (Header.toString P (vals Header.PLATFORM_OFFSET))
    as [platform_byte|]; cbn [bind]; [|discriminate].
  set (e := if String.eqb endianness_byte _ then _ else _).
  set (this2 := Header.set_endianess (Some e) this1).
  destruct (Header.read_str P this2 (vals Header.DATASET_OFFSET) _)
    as [name|] eqn:Hname; cbn [bind]; [|discriminate].
  apply read_str_not_big in Hname.
  assert (He : e = ReadVal.little)
    by (destruct e; [reflexivity | now contradiction Hname]).
  destruct (Header.read_str P this2 _ _) as [file_type|]; cbn [bind];
    [|discriminate].
  destruct (Header.read_int this2 _ _ _) as [n|]; cbn [bind];
    [|discriminate].
  unfold Header.read_file at 1.
  change (Header._file this2) with (Header._file this). rewrite Hfile.
  cbn [bind Header.buffer Header.reader].
  change (Header.file_pos this2)
    with (Header.file_pos this + Z.of_nat (List.length h)).
  assert (Hh288 : List.length h = 288%nat) by lia.
  rewrite Hh288.
  set (tmp := slice file _ _).
  change (Header.cached_page (Header.set_file_pos _ this2)) with (Some h).
  cbv beta iota.
  destruct (Z.eqb_spec (Z.of_nat (List.length (h ++ tmp))) n) as [Hn|];
    cbn [negb]; [|discriminate].
  assert (Hn288 : 288 <= n) by (rewrite <- Hn, length_app; lia).
  assert (Htmp : tmp = firstn (Z.to_nat (n - 288)) (skipn 288 rest)).
  { unfold tmp.
    replace (n - 288 + (Header.file_pos this + Z.of_nat 288))
      with (Header.file_pos this + 288 + (n - 288)) by lia.
    replace (0 + (Header.file_pos this + Z.of_nat 288))
      with (Header.file_pos this + 288) by lia.
    rewrite slice_forward by lia. unfold rest.
    rewrite skipn_skipn. do 2 f_equal. lia. }
  assert (Hpage : h ++ tmp = firstn (Z.to_nat n) rest).
  { rewrite Htmp. unfold h. change (Z.to_nat 288) with 288%nat.
    rewrite take_take_drop. f_equal. lia. }
  repeat (match goal with
          | |- context [bind ?m _] =>
            destruct m; cbn [bind]; [|discriminate]
          end).
  intros [= <-]. cbn. rewrite He.
  split; [reflexivity|]. split; [reflexivity|]. split; [reflexivity|].
  split; [exact Hfile|]. exists n.
  split; [reflexivity|]. split; [exact Hn288|].
  split; [now rewrite Hpage|]. split.
  - assert (Hlen : List.length (h ++ tmp) = Z.to_nat n) by lia.
    rewrite Hpage, length_firstn in Hlen. lia.
  - rewrite length_app in Hn. lia.
Qed.

(** *** What the subheaders leave alone *)

Ltac cached_run page Hpage :=
  cbv zeta;
  repeat first
         [ rewrite bind_assoc
         | rewrite read_bytes_cached with (page := page) by exact Hpage;
           cbn [bind fst snd]
         | match goal with
           | |- context [bind ?m _] =>
             destruct m; cbn [bind]; [|discriminate]
           end ].

Ltac not_null_tests :=
  repeat match goal with
         | |- context [if Header.not_null ?x then Throw _ else _] =>
           destruct x; cbn [Header.not_null]; [discriminate|]
         end.

(** The state reached differs from [this] in fields that [frame] does not
    mention. *)
Ltac frame_here :=
  split; [repeat split
         | split; [reflexivity | intros Hsettled; split;
                                 [reflexivity | exact Hsettled]]].

Lemma RowSizeSubheader_effect (this this' : Header.SAS7BDAT)
      (page : list byte) (offset : Z) :
  Header.cached_page this = Some page ->
  Header.RowSizeSubheader_process_subheader _read_bytes_from_file this offset
  = Ret this' ->
  frame this this'
  /\ Header.Properties.row_length (Header.properties this') <> None.
Proof.
  intros Hpage. unfold Header.RowSizeSubheader_process_subheader.
  cached_run page Hpage. not_null_tests. cached_run page Hpage.
  intros [= <-]. split; [frame_here | discriminate].
Qed.

Lemma ColumnSizeSubheader_effect (this this' : Header.SAS7BDAT)
      (page : list byte) (offset : Z) :
  Header.cached_page this = Some page ->
  Header.ColumnSizeSubheader_process_subheader _read_bytes_from_file this
                                               offset
  = Ret this' ->
  frame this this'
  /\ Header.Properties.column_count (Header.properties this') <> None.
Proof.
  intros Hpage. unfold Header.ColumnSizeSubheader_process_subheader.
  cached_run page Hpage. not_null_tests. cached_run page Hpage.
  intros [= <-]. split; [frame_here | discriminate].
Qed.

(** X24: a file holds one row size subheader and one column size
    subheader at most.  Once [RowSizeSubheader] has run, every later run,
    on whatever page, throws 'found more than one row length subheader';
    likewise [ColumnSizeSubheader] throws 'found more than one column
    count subheader' the second time. *)
Theorem size_subheaders_once (this this' later : Header.SAS7BDAT)
        (page page' : list byte) (offset offset' : Z) :
  Header.cached_page this = Some page ->
  Header.cached_page later = Some page' ->
  (Header.RowSizeSubheader_process_subheader _read_bytes_from_file this
                                             offset
   = Ret this' ->
   Header.Properties.row_length (Header.properties later)
   = Header.Properties.row_length (Header.properties this') ->
   Header.RowSizeSubheader_process_subheader _read_bytes_from_file later
                                             offset'
   = Throw (Error_thrown "found more than one row length subheader"))
  /\ (Header.ColumnSizeSubheader_process_subheader _read_bytes_from_file
                                                   this offset
      = Ret this' ->
      Header.Properties.column_count (Header.properties later)
      = Header.Properties.column_count (Header.properties this') ->
      Header.ColumnSizeSubheader_process_subheader _read_bytes_from_file
                                                   later offset'
      = Throw (Error_thrown "found more than one column count subheader")).
Proof.
  intros Hpage Hpage'. split.
  - intros Hrun Hsame.
    destruct (RowSizeSubheader_effect this this' page offset Hpage Hrun)
      as (_ & Hset).
    unfold Header.RowSizeSubheader_process_subheader. cbv zeta.
    rewrite read_bytes_cached with (1 := Hpage'). cbn [bind fst snd].
    rewrite Hsame.
    now destruct (Header.Properties.row_length (Header.properties this')).
  - intros Hrun Hsame.
    destruct (ColumnSizeSubheader_effect this this' page offset Hpage Hrun)
      as (_ & Hset).
    unfold Header.ColumnSizeSubheader_process_subheader. cbv zeta.
    rewrite read_bytes_cached with (1 := Hpage'). cbn [bind fst snd].
    rewrite Hsame.
    now destruct (Header.Properties.column_count (Header.properties this')).
Qed.

Lemma ColumnTextSubheader_first_block_effect
      (this this' : Header.SAS7BDAT) (page column_name : list byte)
      (offset : Z) :
  Header.cached_page this = Some page ->
  Header.ColumnTextSubheader_first_block P _read_bytes_from_file this offset
                                         column_name
  = Ret this' ->
  untouched this this'
  /\ Header.current_page_data_subheader_pointers this'
     = Header.current_page_data_subheader_pointers this
  /\ Header.column_names_strings this' = Header.column_names_strings this.
Proof.
  intros Hpage. unfold Header.ColumnTextSubheader_first_block.
  cached_run page Hpage.
  destruct (String.eqb _ ""); [|destruct (String.eqb _ "SASYZCRL");
                                [|destruct (0 <? _)]];
    cached_run page Hpage; intros [= <-]; repeat split.
Qed.

Lemma ColumnTextSubheader_effect (this this' : Header.SAS7BDAT)
      (page : list byte) (offset : Z) :
  Header.cached_page this = Some page ->
  Header.ColumnTextSubheader_process_subheader P _read_bytes_from_file this
                                               offset
  = Ret this' ->
  frame this this'.
Proof.
  intros Hpage. unfold Header.ColumnTextSubheader_process_subheader.
  cached_run page Hpage.
  match goal with
  | |- context [Header.set_column_names_strings (?l ++ [?x]) this] =>
    set (text := x);
      set (this1 := Header.set_column_names_strings (l ++ [text]) this)
  end.
  destruct (Nat.eqb_spec (List.length (Header.column_names_strings this1)) 1)
    as [Hone|Hmore].
  - destruct (_ !! 0%nat) as [[column_name|]|]; try discriminate.
    intros Hrun.
    destruct (ColumnTextSubheader_first_block_effect
                this1 this' page column_name _ Hpage Hrun)
      as (Hu & Hp & Hn).
    split; [|split].
    + apply (untouched_trans this this1 this'); [repeat split | exact Hu].
    + exact Hp.
    + intros Hsettled. exfalso.
      unfold this1 in Hone. cbn in Hone. rewrite length_app in Hone.
      cbn in Hone.
      destruct (Header.column_names_strings this); [contradiction|].
      cbn in Hone. lia.
  - intros [= <-]. split; [repeat split|]. split; [reflexivity|].
    intros Hsettled. split; [reflexivity|].
    unfold this1. cbn. intros Heq. now apply app_eq_nil in Heq as [_ [=]].
Qed.

(** X30: the compression of the file is read off the first text block:
    run-length encoding when the block holds the bytes of 'SASYZCRL'
    anywhere, else Ross data compression when it holds those of
    'SASYZCR2', else none.  A later text block is kept as well but leaves
    [properties.compression] as it is. *)
Theorem compression_from_first_text_block (this this' : Header.SAS7BDAT)
        (page : list byte) (offset : Z) :
  Header.cached_page this = Some page ->
  Header.ColumnTextSubheader_process_subheader P _read_bytes_from_file this
                                               offset
  = Ret this' ->
  exists text,
    Header.column_names_strings this'
    = Header.column_names_strings this ++ [Some text]
    /\ Header.Properties.compression (Header.properties this')
       = match Header.column_names_strings this with
         | [] =>
           if Header.Buffer_includes
                text (Header.literal_bytes Reader.SASYZCRL)
           then Some Reader.SASYZCRL
           else if Header.Buffer_includes
                     text (Header.literal_bytes Reader.SASYZCR2)
                then Some Reader.SASYZCR2
                else None
         | _ :: _ => Header.Properties.compression (Header.properties this)
         end.
Proof.
  intros Hpage. unfold Header.ColumnTextSubheader_process_subheader.
  cached_run page Hpage.
  match goal with
  | |- context [Header.set_column_names_strings (?l ++ [?x]) this] =>
    destruct x as [text|] eqn:Htext;
      set (this1 := Header.set_column_names_strings (l ++ [_]) this)
  end.
  2:{ unfold cached_vals in Htext. cbn [Header.get] in Htext.
      rewrite Z.eqb_refl in Htext. discriminate. }
  destruct (Nat.eqb_spec (List.length (Header.column_names_strings this1)) 1)
    as [Hone|Hmore].
  - assert (Hnil : Header.column_names_strings this = []).
    { unfold this1 in Hone. cbn in Hone. rewrite length_app in Hone.
      cbn in Hone. destruct (Header.column_names_strings this);
                     [reflexivity | cbn in Hone; lia]. }
    assert (Hfirst : Header.column_names_strings this1 !! 0%nat
                     = Some (Some text))
      by (unfold this1; cbn; now rewrite Hnil).
    rewrite Hfirst. intros Hrun.
    destruct (ColumnTextSubheader_first_block_effect
                this1 this' page text _ Hpage Hrun) as (_ & _ & Hn).
    exists text. rewrite Hn, Hnil. split; [unfold this1; cbn;
                                          now rewrite Hnil|].
    revert Hrun. unfold Header.ColumnTextSubheader_first_block.
    cached_run page Hpage.
    destruct (String.eqb _ ""); [|destruct (String.eqb _ "SASYZCRL");
                                  [|destruct (0 <? _)]];
      cached_run page Hpage; intros [= <-]; cbn;
        destruct (Header.Buffer_includes text _); try reflexivity;
          destruct (Header.Buffer_includes text _); reflexivity.
  - intros [= <-]. exists text. split; [reflexivity|].
    destruct (Header.column_names_strings this) eqn:Hnames;
      [|reflexivity].
    exfalso. apply Hmore. unfold this1. cbn. rewrite ?Hnames.
    reflexivity.
Qed.

Lemma ColumnNameSubheader_loop_effect (n : nat) (i offset : Z)
      (this this' : Header.SAS7BDAT) (page : list byte) :
  Header.cached_page this = Some page ->
  Header.ColumnNameSubheader_loop _read_bytes_from_file n i offset this
  = Ret this' ->
  frame this this'.
Proof.
  revert i this. induction n as [|n IH]; intros i this Hpage.
  - intros [= <-]. frame_here.
  - cbn [Header.ColumnNameSubheader_loop]. cached_run page Hpage.
    intros Hrun. apply IH in Hrun; [|exact Hpage].
    eapply frame_trans; [|exact Hrun]. frame_here.
Qed.

Lemma ColumnAttributesSubheader_loop_effect (n : nat) (i offset : Z)
      (this this' : Header.SAS7BDAT) (page : list byte) :
  Header.cached_page this = Some page ->
  Header.ColumnAttributesSubheader_loop _read_bytes_from_file n i offset this
  = Ret this' ->
  frame this this'
  /\ exists offsets lengths types,
      Header.column_data_offsets this'
      = Header.column_data_offsets this ++ offsets
      /\ Header.column_data_lengths this'
         = Header.column_data_lengths this ++ lengths
      /\ Header.column_types this' = Header.column_types this ++ types
      /\ List.length offsets = n
      /\ List.length lengths = n
      /\ List.length types = n.
Proof.
  revert i this. induction n as [|n IH]; intros i this Hpage.
  - intros [= <-]. split; [frame_here|].
    exists [], [], []. now rewrite !app_nil_r.
  - cbn [Header.ColumnAttributesSubheader_loop]. cached_run page Hpage.
    intros Hrun. apply IH in Hrun; [|exact Hpage].
    destruct Hrun as (Hf & os & ls & ts & Ho & Hl & Ht & ? & ? & ?).
    split; [eapply frame_trans; [|exact Hf]; frame_here|].
    cbn in Ho, Hl, Ht. rewrite <- app_assoc in Ho, Hl, Ht.
    eexists _, _, _.
    split; [exact Ho|]. split; [exact Hl|]. split; [exact Ht|].
    cbn [List.length app]. lia.
Qed.

(** X25: [ColumnAttributesSubheader] appends the same number of entries,
    the number of attribute vectors that fit in the subheader, to
    [column_data_offsets], [column_data_lengths] and [column_types]:
    arrays of equal length stay of equal length. *)
Theorem column_attributes_in_step (this this' : Header.SAS7BDAT)
        (page : list byte) (offset length : Z) :
  Header.cached_page this = Some page ->
  Header.ColumnAttributesSubheader_process_subheader _read_bytes_from_file
                                                     this offset length
  = Ret this' ->
  let count :=
      Z.to_nat ((length - 2 * Header.int_length this - 12)
                / (Header.int_length this + 8)) in
  exists offsets lengths types,
    Header.column_data_offsets this'
    = Header.column_data_offsets this ++ offsets
    /\ Header.column_data_lengths this'
       = Header.column_data_lengths this ++ lengths
    /\ Header.column_types this' = Header.column_types this ++ types
    /\ List.length offsets = count
    /\ List.length lengths = count
    /\ List.length types = count.
Proof.
  intros Hpage Hrun count.
  unfold Header.ColumnAttributesSubheader_process_subheader in Hrun.
  apply (ColumnAttributesSubheader_loop_effect _ _ _ _ _ page Hpage) in Hrun.
  destruct Hrun as (_ & H). exact H.
Qed.

Lemma FormatAndLabelSubheader_effect (this this' : Header.SAS7BDAT)
      (page : list byte) (offset : Z) :
  Header.cached_page this = Some page ->
  Header.FormatAndLabelSubheader_process_subheader P _read_bytes_from_file
                                                   this offset
  = Ret this' ->
  frame this this'
  /\ exists label format,
      Header.columns this'
      = Header.columns this
        ++ [Header.mkColumn
              (Z.of_nat (List.length (Header.columns this)))
              (Header.column_names this
                 !! List.length (Header.columns this))
              label format
              (Header.column_types this
                 !! List.length (Header.columns this))
              (Header.column_data_lengths this
                 !! List.length (Header.columns this))].
Proof.
  intros Hpage. unfold Header.FormatAndLabelSubheader_process_subheader.
  cached_run page Hpage. intros [= <-].
  split; [frame_here|]. eexists _, _. reflexivity.
Qed.

(** X26: [FormatAndLabelSubheader] appends one column, whose [col_id] is
    the number of columns before it and whose name, type and length are
    the entries of [column_names], [column_types] and
    [column_data_lengths] at that index, [undefined] where an array is
    too short; so the [col_id] of every column is its index once it is
    that of the columns before. *)
Theorem format_and_label_appends_column (this this' : Header.SAS7BDAT)
        (page : list byte) (offset : Z) :
  Header.cached_page this = Some page ->
  Header.FormatAndLabelSubheader_process_subheader P _read_bytes_from_file
                                                   this offset
  = Ret this' ->
  let n := List.length (Header.columns this) in
  (exists column,
      Header.columns this' = Header.columns this ++ [column]
      /\ Header.col_id column = Z.of_nat n
      /\ Header.col_name column = Header.column_names this !! n
      /\ Header.col_type column = Header.column_types this !! n
      /\ Header.col_length column = Header.column_data_lengths this !! n)
  /\ ((forall i c, Header.columns this !! i = Some c ->
                   Header.col_id c = Z.of_nat i) ->
      forall i c, Header.columns this' !! i = Some c ->
                  Header.col_id c = Z.of_nat i).
Proof.
  intros Hpage Hrun n.
  destruct (FormatAndLabelSubheader_effect this this' page offset Hpage Hrun)
    as (_ & label & format & Hcols).
  fold n in Hcols. split.
  - eexists. split; [exact Hcols|]. repeat split.
  - intros Hids i c. rewrite Hcols.
    destruct (Nat.lt_ge_cases i n) as [Hlt|Hge].
    + rewrite lookup_app_l by exact Hlt. apply Hids.
    + rewrite lookup_app_r by exact Hge. fold n.
      destruct (i - n)%nat as [|k] eqn:Hk; [|cbn; discriminate].
      intros [= <-]. cbn. f_equal. lia.
Qed.

(** *** The pointers of a page *)

Lemma process_subheader_effect (index : Header.subheader_index)
      (this this' : Header.SAS7BDAT) (page : list byte) (offset length : Z) :
  index <> Header.DATA_SUBHEADER_INDEX ->
  Header.cached_page this = Some page ->
  Header.process_subheader P _read_bytes_from_file
                           DataSubheader_process_subheader
                           index this offset length
  = Ret this' ->
  frame this this'.
Proof.
  intros Hindex Hpage. destruct index; cbn [Header.process_subheader];
    intros Hrun.
  - now destruct (RowSizeSubheader_effect _ _ _ _ Hpage Hrun).
  - now destruct (ColumnSizeSubheader_effect _ _ _ _ Hpage Hrun).
  - injection Hrun as <-. frame_here.
  - exact (ColumnTextSubheader_effect _ _ _ _ Hpage Hrun).
  - exact (ColumnNameSubheader_loop_effect _ _ _ _ _ _ Hpage Hrun).
  - now destruct (ColumnAttributesSubheader_loop_effect _ _ _ _ _ _
                                                        Hpage Hrun).
  - now destruct (FormatAndLabelSubheader_effect _ _ _ _ Hpage Hrun).
  - injection Hrun as <-. frame_here.
  - contradiction.
Qed.

(** One pointer: the subheader it leads to is processed, or the pointer
    is kept as a data pointer, or nothing happens. *)
Lemma process_pointer_effect (bit_offset i : Z)
      (this this' : Header.SAS7BDAT) (page : list byte) :
  Header.cached_page this = Some page ->
  Header.process_pointer P _read_bytes_from_file
                         DataSubheader_process_subheader bit_offset this i
  = Ret this' ->
  frame this this'
  \/ exists pointer,
      this' = Header.set_current_page_data_subheader_pointers
                (Header.current_page_data_subheader_pointers this
                 ++ [pointer]) this
      /\ data_pointer pointer
      /\ Header.Properties.compression (Header.properties this) <> None.
Proof.
  intros Hpage. unfold Header.process_pointer,
                  Header.process_subheader_pointers.
  cached_run page Hpage.
  set (pointer := Reader.mkSubheaderPointer _ _ _ _). cbn [fst snd].
  destruct (Z.eqb_spec (Reader.ptr_length pointer) 0) as [|Hlen];
    [intros [= <-]; left; frame_here|].
  destruct (Reader.ptr_compression pointer =? _); cbn [negb];
    [intros [= <-]; left; frame_here|].
  unfold Header.read_subheader_signature. cbv zeta.
  rewrite read_bytes_cached with (page := page) by exact Hpage.
  cbn [bind fst snd].
  destruct (cached_vals page _ _) as [signature|]; [|discriminate].
  destruct (get_subheader_class_cases
              this signature (Reader.ptr_compression pointer)
              (Reader.ptr_type pointer))
    as (index & -> & Hdata & Hother).
  cbn [bind].
  destruct index as [index|]; [|intros [= <-]; left; frame_here].
  destruct (Header.subheader_index_eq_dec index Header.DATA_SUBHEADER_INDEX)
    as [-> | Hindex].
  - intros [= <-]. right. exists pointer.
    split; [reflexivity|].
    destruct (proj1 Hdata eq_refl) as (_ & Hcomp & H40 & Htype).
    repeat split; assumption.
  - intros Hrun. left.
    assert (Hrun' : Header.process_subheader
                      P _read_bytes_from_file
                      DataSubheader_process_subheader index this
                      (Reader.ptr_offset pointer)
                      (Reader.ptr_length pointer) = Ret this')
      by (destruct index; try exact Hrun; contradiction).
    exact (process_subheader_effect index this this' page _ _
                                    Hindex Hpage Hrun').
Qed.

Lemma process_pointers_effect (bit_offset : Z) (n : nat) (i : Z)
      (this this' : Header.SAS7BDAT) (page : list byte) :
  Header.cached_page this = Some page ->
  Header.process_pointers P _read_bytes_from_file
                          DataSubheader_process_subheader bit_offset n i this
  = Ret this' ->
  untouched this this'
  /\ settled this this'
  /\ exists added,
      Header.current_page_data_subheader_pointers this'
      = Header.current_page_data_subheader_pointers this ++ added
      /\ Forall data_pointer added
      /\ (List.length added <= n)%nat
      /\ (Header.column_names_strings this <> [] ->
          Header.Properties.compression (Header.properties this) = None ->
          added = []).
Proof.
  revert i this. induction n as [|n IH]; intros i this Hpage.
  - intros [= <-]. split; [repeat split|]. split; [now intros ?|].
    exists []. rewrite app_nil_r.
    split; [reflexivity|]. split; [constructor|]. split; [cbn; lia|].
    reflexivity.
  - cbn [Header.process_pointers].
    destruct (Header.process_pointer _ _ _ _ this i) as [this1|] eqn:Hone;
      cbn [bind]; [|discriminate].
    intros Hrest.
    destruct (process_pointer_effect bit_offset i this this1 page Hpage Hone)
      as [(Hu & Hp & Hs) | (pointer & -> & Hdata & Hcomp)].
    + assert (Hpage1 : Header.cached_page this1 = Some page)
        by (destruct Hu as (_ & _ & _ & Hc & _); now rewrite Hc).
      destruct (IH (i + 1) this1 Hpage1 Hrest)
        as (Hu' & Hs' & added & Hadd & Hall & Hlen & Hnone).
      split; [now apply (untouched_trans this this1 this')|].
      split.
      { intros Ha. destruct (Hs Ha) as (Hc & Hb).
        destruct (Hs' Hb) as (Hc' & Hcn). split; [congruence|exact Hcn]. }
      exists added. rewrite Hadd, Hp.
      split; [reflexivity|]. split; [exact Hall|]. split; [lia|].
      intros Ha Hc. destruct (Hs Ha) as (Hc1 & Hb).
      apply Hnone; [exact Hb | congruence].
    + set (this1 := Header.set_current_page_data_subheader_pointers _ this)
        in *.
      assert (Hpage1 : Header.cached_page this1 = Some page) by exact Hpage.
      destruct (IH (i + 1) this1 Hpage1 Hrest)
        as (Hu' & Hs' & added & Hadd & Hall & Hlen & Hnone).
      split; [eapply untouched_trans; [|exact Hu']; repeat split|].
      split; [exact Hs'|].
      exists (pointer :: added). rewrite Hadd. cbn. rewrite <- app_assoc.
      split; [reflexivity|]. split; [now constructor|]. split; [lia|].
      intros _ Hc. contradiction.
Qed.

(** X27: [process_page_metadata] leaves the file, the cached page and
    what [read_page_header] read alone.  The data subheader pointers it
    collects are appended in order, at most one for each pointer of the
    page, each with a length other than 0, a compression of 4 or 0 and
    type 1; once a text block has been read, it collects none in a file
    that is not compressed. *)
Theorem page_metadata_collects_data_pointers
        (this this' : Header.SAS7BDAT) (page : list byte) :
  Header.cached_page this = Some page ->
  Header.process_page_metadata P _read_bytes_from_file
                               DataSubheader_process_subheader this
  = Ret this' ->
  untouched this this'
  /\ exists added,
      Header.current_page_data_subheader_pointers this'
      = Header.current_page_data_subheader_pointers this ++ added
      /\ Forall data_pointer added
      /\ Z.of_nat (List.length added)
         <= Z.max 0 (default 0 (Header.current_page_subheaders_count this))
      /\ (Header.column_names_strings this <> [] ->
          Header.Properties.compression (Header.properties this) = None ->
          added = []).
Proof.
  intros Hpage Hrun. unfold Header.process_page_metadata in Hrun.
  destruct (process_pointers_effect _ _ _ _ _ page Hpage Hrun)
    as (Hu & _ & added & Hadd & Hall & Hlen & Hnone).
  split; [exact Hu|]. exists added.
  split; [exact Hadd|]. split; [exact Hall|]. split; [lia | exact Hnone].
Qed.

(** *** The pages of the file *)

Lemma read_page_header_effect (this this' : Header.SAS7BDAT)
      (page : list byte) :
  Header.cached_page this = Some page ->
  Header.read_page_header _read_bytes_from_file this = Ret this' ->
  Header._file this' = Header._file this
  /\ Header.file_pos this' = Header.file_pos this
  /\ Header.cached_page this' = Header.cached_page this
  /\ Header.properties this' = Header.properties this
  /\ Header.current_page_data_subheader_pointers this'
     = Header.current_page_data_subheader_pointers this
  /\ Header.current_page_type this' <> None.
Proof.
  intros Hpage. unfold Header.read_page_header.
  cached_run page Hpage. intros [= <-]. repeat split. discriminate.
Qed.

(** A page read and its metadata processed: the position in the file and
    the page length are as before. *)
Lemma page_processed (this this' : Header.SAS7BDAT) (page : list byte)
      (types : list Z) :
  Header.cached_page this = Some page ->
  (let* this := Header.read_page_header _read_bytes_from_file this in
   if Header.includes_type types (Header.current_page_type this)
   then Header.process_page_metadata P _read_bytes_from_file
                                     DataSubheader_process_subheader this
   else Ret this)
  = Ret this' ->
  Header._file this' = Header._file this
  /\ Header.file_pos this' = Header.file_pos this
  /\ Header.Properties.page_length (Header.properties this')
     = Header.Properties.page_length (Header.properties this)
  /\ Header.current_page_type this' <> None.
Proof.
  intros Hpage.
  destruct (Header.read_page_header _ this) as [this1|] eqn:Hhead;
    cbn [bind]; [|discriminate].
  destruct (read_page_header_effect this this1 page Hpage Hhead)
    as (Hf & Hpos & Hc & Hprop & _ & Htype).
  destruct (Header.includes_type _ _).
  - intros Hrun. unfold Header.process_page_metadata in Hrun.
    assert (Hpage1 : Header.cached_page this1 = Some page)
      by now rewrite Hc.
    destruct (process_pointers_effect _ _ _ _ _ page Hpage1 Hrun)
      as (Hu & _).
    unfold untouched in Hu. decompose [and] Hu.
    repeat split; congruence.
  - intros [= <-]. rewrite Hprop. repeat split; assumption.
Qed.

Lemma process_page_meta_effect (this this' : Header.SAS7BDAT)
      (page : list byte) (done : bool) :
  Header.cached_page this = Some page ->
  Header.process_page_meta P _read_bytes_from_file
                           DataSubheader_process_subheader this
  = Ret (this', done) ->
  Header._file this' = Header._file this
  /\ Header.file_pos this' = Header.file_pos this
  /\ Header.Properties.page_length (Header.properties this')
     = Header.Properties.page_length (Header.properties this).
Proof.
  intros Hpage. unfold Header.process_page_meta.
  destruct (Header.read_page_header _ this) as [this1|] eqn:Hhead;
    cbn [bind]; [|discriminate].
  destruct (if Header.includes_type _ _ then _ else _) as [this2|] eqn:Hmeta;
    cbn [bind]; [|discriminate].
  intros [= <- _].
  destruct (page_processed this this2 page Header.PAGE_META_MIX_AMD Hpage)
    as (? & ? & ? & _); [|now repeat split].
  rewrite Hhead. cbn [bind]. exact Hmeta.
Qed.

(** The loop of [parse_metadata] with [n] iterations allowed, when fewer
    than [n] bytes are left: more iterations change nothing. *)
Lemma parse_metadata_loop_fuel (n : nat) :
  forall this : Header.SAS7BDAT,
    0 <= Header.file_pos this ->
    (Header.bytes_left this < n)%nat ->
    exists r,
      (forall m, (n <= m)%nat ->
                 Header.parse_metadata_loop
                   P _read_bytes_from_file DataSubheader_process_subheader
                   m this = Some r)
      /\ forall this',
          r = Ret this' ->
          Header._file this' = Header._file this
          /\ Header.Properties.page_length (Header.properties this')
             = Header.Properties.page_length (Header.properties this)
          /\ exists pages,
              0 <= pages
              /\ Header.file_pos this'
                 = Header.file_pos this
                   + pages * default 0 (Header.Properties.page_length
                                          (Header.properties this)).
Proof.
  induction n as [|n IH]; intros this Hpos Hleft; [lia|].
  set (page_length :=
         default 0 (Header.Properties.page_length (Header.properties this))).
  destruct (Header._file this) as [file|] eqn:Hfile.
  - destruct (read_file_page this file page_length Hfile Hpos)
      as (r & Hread & Hfile_r & Hprop_r & Hpos_r & _ & Hless).
    set (this1 := Header.set_cached_page (Some (Header.buffer r))
                                         (Header.reader r)).
    destruct (Z.leb_spec (Z.of_nat (List.length (Header.buffer r))) 0)
      as [Hempty|Hsome].
    { exists (Ret this1). split.
      - intros [|m] Hm; [lia|]. cbn [Header.parse_metadata_loop].
        fold page_length. rewrite Hread.
        destruct (Z.leb_spec (Z.of_nat (List.length (Header.buffer r))) 0);
          [reflexivity | lia].
      - intros this' [= <-]. cbn. rewrite Hfile_r, Hprop_r.
        split; [reflexivity|]. split; [reflexivity|].
        exists 0. split; [lia|]. rewrite Hpos_r. lia. }
    destruct (Z.eqb_spec (Z.of_nat (List.length (Header.buffer r)))
                         page_length) as [Hfull|Hpart].
    2:{ exists (Throw (Error_thrown
                         "Failed to read a meta data page from file")).
        split; [|discriminate].
        intros [|m] Hm; [lia|]. cbn [Header.parse_metadata_loop].
        fold page_length. rewrite Hread.
        destruct (Z.leb_spec (Z.of_nat (List.length (Header.buffer r))) 0);
          [lia|].
        destruct (Z.eqb_spec (Z.of_nat (List.length (Header.buffer r)))
                             page_length); [contradiction | reflexivity]. }
    assert (Hstep : forall m,
               Header.parse_metadata_loop
                 P _read_bytes_from_file DataSubheader_process_subheader
                 (S m) this
               = match Header.process_page_meta
                         P _read_bytes_from_file
                         DataSubheader_process_subheader this1 with
                 | Throw e => Some (Throw e)
                 | Ret (this2, done) =>
                   if done then Some (Ret this2)
                   else Header.parse_metadata_loop
                          P _read_bytes_from_file
                          DataSubheader_process_subheader m this2
                 end).
    { intros m. cbn [Header.parse_metadata_loop].
      fold page_length. rewrite Hread.
      destruct (Z.leb_spec (Z.of_nat (List.length (Header.buffer r))) 0);
        [lia|].
      destruct (Z.eqb_spec (Z.of_nat (List.length (Header.buffer r)))
                           page_length); [reflexivity | contradiction]. }
    destruct (Header.process_page_meta
                P _read_bytes_from_file DataSubheader_process_subheader
                this1) as [[this2 done]|e] eqn:Hmeta.
    2:{ exists (Throw e). split; [|discriminate].
        intros [|m] Hm; [lia|]. now rewrite Hstep. }
    destruct (process_page_meta_effect this1 this2 (Header.buffer r) done
                                       eq_refl Hmeta)
      as (Hfile2 & Hpos2 & Hlen2).
    change (Header._file this1) with (Header._file (Header.reader r))
      in Hfile2.
    change (Header.file_pos this1) with (Header.file_pos (Header.reader r))
      in Hpos2.
    change (Header.properties this1)
      with (Header.properties (Header.reader r)) in Hlen2.
    rewrite Hprop_r in Hlen2. rewrite Hfile_r in Hfile2.
    rewrite Hpos_r, Hfull in Hpos2.
    destruct done.
    { exists (Ret this2). split.
      - intros [|m] Hm; [lia|]. now rewrite Hstep.
      - intros this' [= <-]. split; [congruence|]. split; [exact Hlen2|].
        exists 1. split; [lia|]. fold page_length. lia. }
    assert (Hleft2 : (Header.bytes_left this2 < n)%nat).
    { specialize (Hless Hfull ltac:(lia)).
      unfold Header.bytes_left in Hless, Hleft |- *.
      rewrite Hfile2, Hpos2. rewrite Hfile_r, Hpos_r, Hfull in Hless.
      rewrite Hfile in Hless, Hleft. lia. }
    destruct (IH this2 ltac:(lia) Hleft2) as (r2 & Hfuel & Hres).
    exists r2. split.
    + intros [|m] Hm; [lia|]. rewrite Hstep. apply Hfuel. lia.
    + intros this' Hr. destruct (Hres this' Hr) as (Hf & Hl & k & Hk & Hp).
      split; [congruence|]. split; [congruence|].
      exists (k + 1). split; [lia|].
      rewrite Hp, Hpos2, Hlen2. fold page_length. lia.
  - exists (Throw TypeError). split; [|discriminate].
    intros [|m] Hm; [lia|]. cbn [Header.parse_metadata_loop].
    unfold Header.read_file. now rewrite Hfile.
Qed.

(** X28: [parse_metadata] terminates: its loop ends within as many
    iterations as bytes are left in the file, plus one, and allowing more
    changes nothing.  When it returns, the position in the file has moved
    forward by a whole number of pages. *)
Theorem parse_metadata_terminates (this : Header.SAS7BDAT) :
  0 <= Header.file_pos this ->
  exists r,
    Header.parse_metadata P _read_bytes_from_file
                          DataSubheader_process_subheader this = Some r
    /\ (forall n, (Header.bytes_left this < n)%nat ->
                  Header.parse_metadata_loop
                    P _read_bytes_from_file DataSubheader_process_subheader
                    n this = Some r)
    /\ forall this',
        r = Ret this' ->
        Header._file this' = Header._file this
        /\ exists pages,
            0 <= pages
            /\ Header.file_pos this'
               = Header.file_pos this
                 + pages * default 0 (Header.Properties.page_length
                                        (Header.properties this)).
Proof.
  intros Hpos.
  destruct (parse_metadata_loop_fuel (S (Header.bytes_left this)) this Hpos
                                     ltac:(lia)) as (r & Hfuel & Hres).
  exists r. split; [apply Hfuel; lia|]. split.
  - intros n Hn.
    destruct (parse_metadata_loop_fuel n this Hpos Hn) as (r' & Hfuel' & _).
    rewrite (Hfuel' n) by lia.
    rewrite <- (Hfuel (Nat.max n (S (Header.bytes_left this)))) by lia.
    rewrite (Hfuel' (Nat.max n (S (Header.bytes_left this)))) by lia.
    reflexivity.
  - intros this' Hr. destruct (Hres this' Hr) as (Hf & _ & Hp).
    split; assumption.
Qed.

Lemma read_next_page_loop_fuel (n : nat) :
  forall this : Header.SAS7BDAT,
    0 <= Header.file_pos this ->
    (Header.bytes_left this < n)%nat ->
    exists r,
      (forall m, (n <= m)%nat ->
                 Header._read_next_page_loop
                   P _read_bytes_from_file DataSubheader_process_subheader
                   m this = Some r)
      /\ forall this',
          r = Ret this' ->
          Header._file this' = Header._file this
          /\ Header.Properties.page_length (Header.properties this')
             = Header.Properties.page_length (Header.properties this)
          /\ (exists pages,
                 0 <= pages
                 /\ Header.file_pos this'
                    = Header.file_pos this
                      + pages * default 0 (Header.Properties.page_length
                                             (Header.properties this)))
          /\ (Header.cached_page this' = Some []
              \/ exists t, Header.current_page_type this' = Some t
                           /\ In t row_bearing_types).
Proof.
  induction n as [|n IH]; intros this Hpos Hleft; [lia|].
  set (page_length :=
         default 0 (Header.Properties.page_length (Header.properties this))).
  set (this0 := Header.set_current_page_data_subheader_pointers [] this).
  destruct (Header._file this) as [file|] eqn:Hfile.
  - destruct (read_file_page this0 file page_length Hfile Hpos)
      as (r & Hread & Hfile_r & Hprop_r & Hpos_r & Hbytes & Hless).
    change (Header.properties this0) with (Header.properties this)
      in Hprop_r.
    change (Header.file_pos this0) with (Header.file_pos this) in Hpos_r.
    set (this1 := Header.set_cached_page (Some (Header.buffer r))
                                         (Header.reader r)).
    destruct (Z.leb_spec (Header.bytesRead r) 0) as [Hempty|Hsome].
    { exists (Ret this1). split.
      - intros [|m] Hm; [lia|]. cbn [Header._read_next_page_loop].
        fold this0.
        change (Header.properties this0) with (Header.properties this).
        fold page_length. rewrite Hread.
        destruct (Z.leb_spec (Header.bytesRead r) 0); [reflexivity | lia].
      - intros this' [= <-]. cbn. rewrite Hfile_r, Hprop_r.
        split; [reflexivity|]. split; [reflexivity|]. split.
        + exists 0. split; [lia|]. rewrite Hpos_r. lia.
        + left. destruct (Header.buffer r); [reflexivity|].
          cbn in Hbytes. lia. }
    destruct (Z.eqb_spec (Z.of_nat (List.length (Header.buffer r)))
                         page_length) as [Hfull|Hpart].
    2:{ eexists (Throw _). split; [|discriminate].
        intros [|m] Hm; [lia|]. cbn [Header._read_next_page_loop].
        fold this0.
        change (Header.properties this0) with (Header.properties this).
        fold page_length. rewrite Hread.
        destruct (Z.leb_spec (Header.bytesRead r) 0); [lia|].
        destruct (Z.eqb_spec (Z.of_nat (List.length (Header.buffer r)))
                             page_length); [contradiction | reflexivity]. }
    set (processed :=
           let* this := Header.read_page_header _read_bytes_from_file this1 in
           if Header.includes_type [Header.PAGE_META_TYPE]
                                   (Header.current_page_type this)
           then Header.process_page_metadata
                  P _read_bytes_from_file DataSubheader_process_subheader
                  this
           else Ret this).
    assert (Hstep : forall m,
               Header._read_next_page_loop
                 P _read_bytes_from_file DataSubheader_process_subheader
                 (S m) this
               = match processed with
                 | Throw e => Some (Throw e)
                 | Ret this2 =>
                   if negb (Header.includes_type
                              row_bearing_types
                              (Header.current_page_type this2))
                   then Header._read_next_page_loop
                          P _read_bytes_from_file
                          DataSubheader_process_subheader m this2
                   else Some (Ret this2)
                 end).
    { intros m. cbn [Header._read_next_page_loop].
      fold this0.
        change (Header.properties this0) with (Header.properties this).
        fold page_length. rewrite Hread.
      destruct (Z.leb_spec (Header.bytesRead r) 0); [lia|].
      destruct (Z.eqb_spec (Z.of_nat (List.length (Header.buffer r)))
                           page_length); [reflexivity | contradiction]. }
    destruct processed as [this2|e] eqn:Hprocessed.
    2:{ exists (Throw e). split; [|discriminate].
        intros [|m] Hm; [lia|]. now rewrite Hstep. }
    destruct (page_processed this1 this2 (Header.buffer r)
                             [Header.PAGE_META_TYPE] eq_refl Hprocessed)
      as (Hfile2 & Hpos2 & Hlen2 & _).
    change (Header._file this1) with (Header._file (Header.reader r))
      in Hfile2.
    change (Header.file_pos this1) with (Header.file_pos (Header.reader r))
      in Hpos2.
    change (Header.properties this1)
      with (Header.properties (Header.reader r)) in Hlen2.
    rewrite Hprop_r in Hlen2. rewrite Hfile_r in Hfile2.
    rewrite Hpos_r, Hfull in Hpos2.
    destruct (Header.includes_type row_bearing_types
                                   (Header.current_page_type this2))
      eqn:Htypes; cbn [negb] in Hstep.
    { exists (Ret this2). split.
      - intros [|m] Hm; [lia|]. now rewrite Hstep.
      - intros this' [= <-]. split; [congruence|]. split; [exact Hlen2|].
        split.
        + exists 1. split; [lia|]. fold page_length. lia.
        + right. now apply includes_type_In. }
    assert (Hleft2 : (Header.bytes_left this2 < n)%nat).
    { rewrite Hbytes in Hsome.
      specialize (Hless Hfull ltac:(lia)).
      unfold Header.bytes_left in Hless, Hleft |- *.
      rewrite Hfile2, Hpos2. rewrite Hfile_r, Hpos_r, Hfull in Hless.
      change (Header._file this0) with (Header._file this) in Hless.
      change (Header.file_pos this0) with (Header.file_pos this) in Hless.
      rewrite Hfile in Hless, Hleft. lia. }
    destruct (IH this2 ltac:(lia) Hleft2) as (r2 & Hfuel & Hres).
    exists r2. split.
    + intros [|m] Hm; [lia|]. rewrite Hstep. apply Hfuel. lia.
    + intros this' Hr.
      destruct (Hres this' Hr) as (Hf & Hl & (k & Hk & Hp) & Hstop).
      split; [congruence|]. split; [congruence|]. split; [|exact Hstop].
      exists (k + 1). split; [lia|].
      rewrite Hp, Hpos2, Hlen2. fold page_length. lia.
  - exists (Throw TypeError). split; [|discriminate].
    intros [|m] Hm; [lia|]. cbn [Header._read_next_page_loop].
    unfold Header.read_file. cbn. now rewrite Hfile.
Qed.

(** X29: [_read_next_page] terminates: it calls itself on the pages of a
    type it does not know, within as many calls as bytes are left in the
    file, plus one.  It returns at the end of the file, the cached page
    then being an empty buffer, or on a page of type 0, 256, 512 or 640,
    a whole number of pages further in the file. *)
Theorem read_next_page_terminates (this : Header.SAS7BDAT) :
  0 <= Header.file_pos this ->
  exists r,
    Header._read_next_page P _read_bytes_from_file
                           DataSubheader_process_subheader this = Some r
    /\ (forall n, (Header.bytes_left this < n)%nat ->
                  Header._read_next_page_loop
                    P _read_bytes_from_file DataSubheader_process_subheader
                    n this = Some r)
    /\ forall this',
        r = Ret this' ->
        (exists pages,
            0 <= pages
            /\ Header.file_pos this'
               = Header.file_pos this
                 + pages * default 0 (Header.Properties.page_length
                                        (Header.properties this)))
        /\ (Header.cached_page this' = Some []
            \/ exists t, Header.current_page_type this' = Some t
                         /\ In t [512; 640; 0; 256]).
Proof.
  intros Hpos.
  destruct (read_next_page_loop_fuel (S (Header.bytes_left this)) this Hpos
                                     ltac:(lia)) as (r & Hfuel & Hres).
  exists r. split; [apply Hfuel; lia|]. split.
  - intros n Hn.
    destruct (read_next_page_loop_fuel n this Hpos Hn) as (r' & Hfuel' & _).
    rewrite (Hfuel' n) by lia.
    rewrite <- (Hfuel (Nat.max n (S (Header.bytes_left this)))) by lia.
    rewrite (Hfuel' (Nat.max n (S (Header.bytes_left this)))) by lia.
    reflexivity.
  - intros this' Hr. destruct (Hres this' Hr) as (_ & _ & Hp & Hstop).
    split; assumption.
Qed.

End HeaderFacts.

(** ** The example file *)

Lemma read_val_integer_witness :
  ReadVal._read_val ascii_platform false None None ReadVal.F_h [x00; x01] 2
  = Ret (VNumber (Num.of_int 256)).
Proof.
  exact (proj1 (read_val_integer ascii_platform (Header.new_SAS7BDAT None)
                                 None ReadVal.F_h [x00; x01] 2 eq_refl)).
Defined.

Lemma parse_rejects_foreign_file_witness :
  Header.parse ascii_platform no_read_from_file
               (Header.new_SAS7BDAT (Some [x00; x01]))
  = Throw (Error_thrown "header too short (not a sas7bdat file?)").
Proof.
  apply (proj1 (parse_rejects_foreign_file
                  ascii_platform no_read_from_file
                  (Header.new_SAS7BDAT (Some [x00; x01])) [x00; x01]
                  eq_refl ltac:(cbn; lia))).
  cbn. lia.
Defined.

(** The header of the example file is accepted: 288 bytes, little-endian. *)
Lemma parse_accepts_witness :
  match example_parse example_new_reader with
  | Ret this' =>
    Header.endianess this' = Some ReadVal.little
    /\ Header.file_pos this' = 288
  | Throw _ => False
  end.
Proof.
  destruct (example_parse example_new_reader) as [this'|e] eqn:Hparse.
  - destruct (parse_accepts ascii_platform no_read_from_file
                            example_new_reader this' example_file
                            eq_refl ltac:(cbn; lia) Hparse)
      as (Hlittle & _).
    split; [exact Hlittle|].
    vm_compute in Hparse. now injection Hparse as <-.
  - vm_compute in Hparse. discriminate.
Defined.

(** The row size subheader of the example page, processed twice. *)
Lemma size_subheaders_once_witness :
  match Header.RowSizeSubheader_process_subheader
          no_read_from_file example_on_meta_page 108 with
  | Ret this' =>
    Header.RowSizeSubheader_process_subheader no_read_from_file this' 108
    = Throw (Error_thrown "found more than one row length subheader")
  | Throw _ => False
  end.
Proof.
  destruct (Header.RowSizeSubheader_process_subheader
              no_read_from_file example_on_meta_page 108)
    as [this'|e] eqn:Hrun.
  - assert (Hpage : Header.cached_page this' = Some example_meta_page)
      by (vm_compute in Hrun; now injection Hrun as <-).
    exact (proj1 (size_subheaders_once
                    no_read_from_file example_on_meta_page this' this'
                    example_meta_page example_meta_page 108 108
                    eq_refl Hpage) Hrun eq_refl).
  - vm_compute in Hrun. discriminate.
Defined.

(** The column attributes subheader of the example page holds two
    vectors. *)
Lemma column_attributes_in_step_witness :
  match Header.ColumnAttributesSubheader_process_subheader
          no_read_from_file example_on_meta_page 676 44 with
  | Ret this' =>
    List.length (Header.column_data_offsets this') = 2%nat
    /\ List.length (Header.column_data_lengths this') = 2%nat
    /\ List.length (Header.column_types this') = 2%nat
  | Throw _ => False
  end.
Proof.
  destruct (Header.ColumnAttributesSubheader_process_subheader
              no_read_from_file example_on_meta_page 676 44)
    as [this'|e] eqn:Hrun.
  - destruct (column_attributes_in_step
                no_read_from_file example_on_meta_page this'
                example_meta_page 676 44 eq_refl Hrun)
      as (os & ls & ts & -> & -> & -> & Ho & Hl & Ht).
    rewrite !length_app, Ho, Hl, Ht. repeat split.
  - vm_compute in Hrun. discriminate.
Defined.

Lemma format_and_label_appends_column_witness :
  match Header.FormatAndLabelSubheader_process_subheader
          ascii_platform no_read_from_file example_with_text 720 with
  | Ret this' =>
    exists column,
      Header.columns this' = [column]
      /\ Header.col_id column = 0
  | Throw _ => False
  end.
Proof.
  destruct (Header.FormatAndLabelSubheader_process_subheader
              ascii_platform no_read_from_file example_with_text 720)
    as [this'|e] eqn:Hrun.
  - destruct (proj1 (format_and_label_appends_column
                       ascii_platform no_read_from_file example_with_text
                       this' example_meta_page 720 eq_refl Hrun))
      as (column & Hcols & Hid & _).
    exists column. split; [exact Hcols | exact Hid].
  - vm_compute in Hrun. discriminate.
Defined.

(** The META page of the example file holds no data subheader. *)
Lemma page_metadata_collects_data_pointers_witness :
  match Header.process_page_metadata
          ascii_platform no_read_from_file no_data_subheader
          example_with_page_header with
  | Ret this' =>
    untouched example_with_page_header this'
    /\ Header.current_page_data_subheader_pointers this' = []
  | Throw _ => False
  end.
Proof.
  destruct (Header.process_page_metadata
              ascii_platform no_read_from_file no_data_subheader
              example_with_page_header) as [this'|e] eqn:Hrun.
  - destruct (page_metadata_collects_data_pointers
                ascii_platform no_read_from_file no_data_subheader
                example_with_page_header this' example_meta_page
                eq_refl Hrun) as (Hu & _).
    split; [exact Hu|].
    vm_compute in Hrun. now injection Hrun as <-.
  - vm_compute in Hrun. discriminate.
Defined.

(** The text block of the example page names no compression. *)
Lemma compression_from_first_text_block_witness :
  match Header.ColumnTextSubheader_process_subheader
          ascii_platform no_read_from_file example_on_meta_page 600 with
  | Ret this' =>
    exists text,
      Header.column_names_strings this' = [Some text]
      /\ Header.Properties.compression (Header.properties this') = None
  | Throw _ => False
  end.
Proof.
  destruct (Header.ColumnTextSubheader_process_subheader
              ascii_platform no_read_from_file example_on_meta_page 600)
    as [this'|e] eqn:Hrun.
  - destruct (compression_from_first_text_block
                ascii_platform no_read_from_file example_on_meta_page this'
                example_meta_page 600 eq_refl Hrun)
      as (text & Htext & _).
    exists text. split; [exact Htext|].
    vm_compute in Hrun. now injection Hrun as <-.
  - vm_compute in Hrun. discriminate.
Defined.

Lemma parse_metadata_terminates_witness :
  exists r, example_parse_metadata example_parsed_reader = Some r.
Proof.
  destruct (parse_metadata_terminates
              ascii_platform no_read_from_file no_data_subheader
              example_parsed_reader ltac:(vm_compute; discriminate))
    as (r & Hr & _).
  now exists r.
Defined.

Lemma read_next_page_terminates_witness :
  exists r, example_read_next_page example_at_end = Some r.
Proof.
  destruct (read_next_page_terminates
              ascii_platform no_read_from_file no_data_subheader
              example_at_end ltac:(vm_compute; discriminate))
    as (r & Hr & _).
  now exists r.
Defined.

(** ** The example file, parsed *)

(** [parse] and [parse_metadata] on the example file: the two columns are
    those of the example reader, and the DATA page is cached. *)
Example example_file_parsed :
  match example_parse_metadata example_parsed_reader with
  | Some (Ret this) =>
    Header.Properties.row_length (Header.properties this) = Some 10
    /\ Header.Properties.row_count (Header.properties this) = Some 2
    /\ Header.Properties.column_count (Header.properties this) = Some 2
    /\ Header.Properties.compression (Header.properties this) = None
    /\ Header.columns this
       = [Header.mkColumn 0 (Some [x78]) [] "DATE" (Some Reader.number)
                          (Some 8);
          Header.mkColumn 1 (Some [x73]) [] "" (Some Reader.string_)
                          (Some 2)]
    /\ Header.column_data_offsets this = [0; 8]
    /\ Header.column_data_lengths this = [8; 2]
    /\ Header.current_page_type this = Some 256
    /\ Header.current_page_block_count this = Some 2
    /\ Header.cached_page this = Some example_data_page
    /\ Header.file_pos this = 2336
  | _ => False
  end.
Proof. vm_compute. repeat split. Qed.

(** At the end of the file [_read_next_page] returns with an empty
    buffer as cached page. *)
Example example_file_end :
  match example_read_next_page example_at_end with
  | Some (Ret this) => Header.cached_page this = Some []
  | _ => False
  end.
Proof. vm_compute. reflexivity. Qed.

Example Number_toString_examples :
  map Header.Number_toString [0; 9; 10; 1024; -5; -120]
  = ["0"; "9"; "10"; "1024"; "-5"; "-120"]%string.
Proof. vm_compute. reflexivity. Qed.
